(** * memorial-mvp: a shallow embedding of the backend and its specification

    The first part follows the layout of [backend/app]:
    - [models.py]             -> the record types of the relational store,
    - [schemas.py]            -> the request and response shapes,
    - [config.py]             -> [Settings],
    - [api/family.py]         -> module [Family],
    - [api/memorials.py]      -> module [Memorials] (media upload),
    - [services/ai_tasks.py]  -> module [AiTasks], with [Uuid] for [uuid.uuid5],
    - [api/embeddings.py]     -> module [Embeddings],
    - [api/ai.py]             -> module [Ai].
    The second part names the notions the properties are stated with and
    some sample stores and providers; the third part proves the properties.

    Python integers are [Z], strings are byte strings ([string]; case
    mapping and slicing act on bytes, which is exact for ASCII text),
    [None]-able values are [option]s, exceptions are values of [exn] carried
    by [result]. Handlers take the store, the file system and the vector
    store explicitly and return them together with their outcome. External
    programs and services are records of functions ([Tools], [Providers]). *)

From Stdlib Require Import ZArith String Ascii List Lia DecimalString QArith.
From Stdlib Require DecimalZ.
From stdpp Require Import gmap strings list.
Import ListNotations.
Open Scope Z_scope.

Set Warnings "-register-all".

(** ** Exceptions and outcomes *)

(** The exception classes that the modelled code raises or meets.
    [HTTPException] is FastAPI's; the others are Python built-ins, except
    [IntegrityError] (SQLAlchemy, raised by [db.commit()] on a violated
    constraint) and [ConnectionError], which stands for the error of a
    client library whose server cannot be reached. An exception that leaves a handler other than
    [HTTPException] is answered by the framework with status 500. *)
Inductive exn : Type :=
| HTTPException (status_code : Z) (detail : string)
| ValueError (msg : string)
| AttributeError (msg : string)
| NameError (msg : string)
| UnboundLocalError (msg : string)
| TypeError (msg : string)
| IntegrityError (msg : string)
| FileNotFoundError (msg : string)
| ConnectionError (msg : string).

Inductive result (A : Type) : Type :=
| Ok (a : A)
| Raise (e : exn).
Arguments Ok {A} a.
Arguments Raise {A} e.

(** [result] is the error monad; stdpp's [x ← r; k] sequences two steps and
    stops at the first [Raise]. *)
Global Instance result_ret : MRet result := fun A a => Ok a.

Global Instance result_bind : MBind result := fun A B k r =>
  match r with
  | Ok a => k a
  | Raise e => Raise e
  end.

(** [str(n)] for a Python [int]. *)
Definition str_int (n : Z) : string := NilZero.string_of_int (Z.to_int n).

(** [str(e)]: the message of a built-in exception; for [HTTPException]
    Starlette prints the status code and the detail. *)
Definition str_exn (e : exn) : string :=
  match e with
  | HTTPException c d => str_int c +:+ ": " +:+ d
  | ValueError m | AttributeError m | NameError m | UnboundLocalError m
  | TypeError m | IntegrityError m | FileNotFoundError m
  | ConnectionError m => m
  end.

(** The status line a client sees for an outcome whose success status is
    [ok_status]. *)
Definition http_status {A : Type} (ok_status : Z) (r : result A) : Z :=
  match r with
  | Ok _ => ok_status
  | Raise (HTTPException c _) => c
  | Raise _ => 500
  end.

(** ** models.py *)

Inductive MediaType : Type := PHOTO | VIDEO | AUDIO | DOCUMENT.

Inductive RelationshipType : Type := PARENT | CHILD | SPOUSE | SIBLING.

Global Instance MediaType_eq_dec : EqDecision MediaType.
Proof. solve_decision. Defined.

Global Instance RelationshipType_eq_dec : EqDecision RelationshipType.
Proof. solve_decision. Defined.

(** Timestamps are seconds on the database clock. *)
Definition datetime : Type := Z.

Module Memorial.
Record t : Type := mk {
  id : Z;
  name : string;
  description : option string;
  birth_date : option datetime;
  death_date : option datetime;
  owner_id : Z;
  is_public : bool;
  voice_id : option string;
  created_at : datetime;
  updated_at : option datetime
}.
End Memorial.

Module Media.
Record t : Type := mk {
  id : Z;
  memorial_id : Z;
  file_path : string;
  file_url : option string;
  file_name : string;
  file_size : option Z;
  mime_type : option string;
  media_type : MediaType;
  thumbnail_path : option string;
  is_animated : bool;
  animation_task_id : option string;
  created_at : datetime
}.
End Media.

Module Memory.
Record t : Type := mk {
  id : Z;
  memorial_id : Z;
  title : option string;
  content : string;
  embedding_id : option string;
  source : option string;
  created_at : datetime;
  updated_at : option datetime
}.
End Memory.

Module FamilyRelationship.
Record t : Type := mk {
  id : Z;
  memorial_id : Z;
  related_memorial_id : Z;
  relationship_type : RelationshipType;
  notes : option string;
  created_at : datetime
}.
End FamilyRelationship.

(** The relational store: one list of rows per table, in insertion order. *)
Record Db : Type := mkDb {
  memorials : list Memorial.t;
  media : list Media.t;
  memories : list Memory.t;
  family_relationships : list FamilyRelationship.t
}.

(** [query.filter(p).first()] is [List.find p], [query.filter(p).all()] is
    [List.filter p]. *)

(** The integer primary key given to a new row: one more than the largest
    key present, 1 in an empty table (SQLite's rowid rule; the default
    [DATABASE_URL] is SQLite). *)
Definition next_id (ids : list Z) : Z :=
  match ids with
  | [] => 1
  | i :: rest => fold_right Z.max i rest + 1
  end.

(** ** schemas.py (family tree) *)

Record FamilyRelationshipCreate : Type := mkFamilyRelationshipCreate {
  frc_related_memorial_id : Z;
  frc_relationship_type : RelationshipType;
  frc_notes : option string
}.

Record FamilyRelationshipResponse : Type := mkFamilyRelationshipResponse {
  frr_id : Z;
  frr_memorial_id : Z;
  frr_related_memorial_id : Z;
  frr_relationship_type : RelationshipType;
  frr_notes : option string;
  frr_related_memorial_name : option string;
  frr_created_at : datetime
}.

Inductive FamilyTreeNode : Type :=
  mkFamilyTreeNode (memorial_id : Z) (name : string)
    (birth_date death_date : option datetime)
    (relationship_type : option RelationshipType)
    (children spouses : list FamilyTreeNode).

Definition node_children (n : FamilyTreeNode) : list FamilyTreeNode :=
  match n with mkFamilyTreeNode _ _ _ _ _ c _ => c end.

Definition node_spouses (n : FamilyTreeNode) : list FamilyTreeNode :=
  match n with mkFamilyTreeNode _ _ _ _ _ _ s => s end.

Record FamilyTreeResponse : Type := mkFamilyTreeResponse {
  root : FamilyTreeNode;
  total_nodes : Z
}.

(** ** api/family.py *)

Module Family.

Definition memorial_by_id (db : Db) (memorial_id : Z) : option Memorial.t :=
  List.find (fun m => Memorial.id m =? memorial_id) (memorials db).

(** The three columns of the table's [uq_relationship] constraint, which are
    also the three columns the duplicate check of [create_relationship]
    compares. *)
Definition same_triple (memorial_id related_memorial_id : Z)
    (relationship_type : RelationshipType) (r : FamilyRelationship.t) : bool :=
  (FamilyRelationship.memorial_id r =? memorial_id)
  && (FamilyRelationship.related_memorial_id r =? related_memorial_id)
  && bool_decide (FamilyRelationship.relationship_type r = relationship_type).

(** A [FamilyRelationship(...)] object handed to [db.add], before the flush
    gives it its [id] and [created_at]. *)
Record pending_relationship : Type := mkPending {
  p_memorial_id : Z;
  p_related_memorial_id : Z;
  p_relationship_type : RelationshipType;
  p_notes : option string
}.

(** The INSERTs of [db.commit()], in [db.add] order. A row whose triple is
    already in the table violates [uq_relationship]: the commit raises and
    nothing of the transaction is kept. The result is the inserted rows
    and the new table. *)
Fixpoint flush (now : datetime) (pending : list pending_relationship)
    (rows : list FamilyRelationship.t)
    : result (list FamilyRelationship.t * list FamilyRelationship.t) :=
  match pending with
  | [] => Ok ([], rows)
  | p :: rest =>
      if existsb (same_triple (p_memorial_id p) (p_related_memorial_id p)
                    (p_relationship_type p)) rows
      then Raise (IntegrityError "UNIQUE constraint failed: uq_relationship")
      else
        let row := FamilyRelationship.mk
                     (next_id (map FamilyRelationship.id rows))
                     (p_memorial_id p) (p_related_memorial_id p)
                     (p_relationship_type p) (p_notes p) now in
        match flush now rest (rows ++ [row]) with
        | Ok (inserted, rows') => Ok (row :: inserted, rows')
        | Raise e => Raise e
        end
  end.

Definition set_relationships (db : Db) (rows : list FamilyRelationship.t) : Db :=
  mkDb (memorials db) (media db) (memories db) rows.

(** POST /family/memorials/{memorial_id}/relationships (status 201). *)
Definition create_relationship (now : datetime) (memorial_id : Z)
    (relationship : FamilyRelationshipCreate) (db : Db)
    : result FamilyRelationshipResponse * Db :=
  match memorial_by_id db memorial_id with
  | None => (Raise (HTTPException 404 "Memorial not found"), db)
  | Some memorial =>
  match memorial_by_id db (frc_related_memorial_id relationship) with
  | None => (Raise (HTTPException 404 "Related memorial not found"), db)
  | Some related_memorial =>
  if memorial_id =? frc_related_memorial_id relationship
  then (Raise (HTTPException 400 "Cannot create relationship with itself"), db)
  else
  match List.find (same_triple memorial_id (frc_related_memorial_id relationship)
                     (frc_relationship_type relationship))
                  (family_relationships db) with
  | Some existing => (Raise (HTTPException 400 "Relationship already exists"), db)
  | None =>
  let db_relationship :=
    mkPending memorial_id (frc_related_memorial_id relationship)
      (frc_relationship_type relationship) (frc_notes relationship) in
  let reverse_relationship :=
    match frc_relationship_type relationship with
    | PARENT => mkPending (frc_related_memorial_id relationship) memorial_id
                  CHILD (frc_notes relationship)
    | CHILD => mkPending (frc_related_memorial_id relationship) memorial_id
                  PARENT (frc_notes relationship)
    | SPOUSE => mkPending (frc_related_memorial_id relationship) memorial_id
                  SPOUSE (frc_notes relationship)
    | SIBLING => mkPending (frc_related_memorial_id relationship) memorial_id
                  SIBLING (frc_notes relationship)
    end in
  match flush now [db_relationship; reverse_relationship]
          (family_relationships db) with
  | Raise e => (Raise e, db)
  | Ok (inserted, rows') =>
      match inserted with
      | row :: _ =>
          (Ok (mkFamilyRelationshipResponse
                 (FamilyRelationship.id row)
                 (FamilyRelationship.memorial_id row)
                 (FamilyRelationship.related_memorial_id row)
                 (FamilyRelationship.relationship_type row)
                 (FamilyRelationship.notes row)
                 (Some (Memorial.name related_memorial))
                 (FamilyRelationship.created_at row)),
           set_relationships db rows')
      | [] => (Raise (IntegrityError "nothing flushed"), db)
      end
  end
  end
  end
  end.

(** DELETE /family/relationships/{relationship_id} (status 204).
    [db.delete(obj)] removes the row with [obj]'s primary key. *)
Definition delete_relationship (relationship_id : Z) (db : Db)
    : result unit * Db :=
  match List.find (fun r => FamilyRelationship.id r =? relationship_id)
          (family_relationships db) with
  | None => (Raise (HTTPException 404 "Relationship not found"), db)
  | Some relationship =>
      let reverse_type :=
        match FamilyRelationship.relationship_type relationship with
        | PARENT => Some CHILD
        | CHILD => Some PARENT
        | SPOUSE => Some SPOUSE
        | SIBLING => Some SIBLING
        end in
      let deleted_reverse :=
        match reverse_type with
        | Some reverse_type =>
            match List.find
                    (same_triple
                       (FamilyRelationship.related_memorial_id relationship)
                       (FamilyRelationship.memorial_id relationship)
                       reverse_type)
                    (family_relationships db) with
            | Some reverse => [FamilyRelationship.id reverse]
            | None => []
            end
        | None => []
        end in
      let deleted := deleted_reverse ++ [FamilyRelationship.id relationship] in
      (Ok tt,
       set_relationships db
         (List.filter
            (fun r => negb (existsb (Z.eqb (FamilyRelationship.id r)) deleted))
            (family_relationships db)))
  end.

(** The loop [for rel in rels: node = f(rel); if node: out.append(node)],
    for a body that may itself run out of recursion budget. *)
Fixpoint collect {A B : Type} (f : A -> option (option B)) (l : list A)
    : option (list B) :=
  match l with
  | [] => Some []
  | a :: l' =>
      match f a with
      | None => None
      | Some r =>
          match collect f l' with
          | None => None
          | Some out => Some (match r with Some b => b :: out | None => out end)
          end
      end
  end.

(** [build_tree], the closure inside [get_family_tree]. Python recursion is
    rendered with a recursion budget [fuel]: the outer [None] means the
    budget ran out, [Some None] is Python's [return None]. *)
Fixpoint build_tree (fuel : nat) (db : Db) (max_depth : Z)
    (node_id depth : Z) (visited : gset Z) : option (option FamilyTreeNode) :=
  match fuel with
  | O => None
  | S fuel' =>
      if (depth >? max_depth) || bool_decide (node_id ∈ visited)
      then Some None
      else
        let visited := {[node_id]} ∪ visited in
        match memorial_by_id db node_id with
        | None => Some None
        | Some node_memorial =>
            let children_rels :=
              List.filter
                (fun r => (FamilyRelationship.memorial_id r =? node_id)
                          && bool_decide
                               (FamilyRelationship.relationship_type r = CHILD))
                (family_relationships db) in
            match collect
                    (fun rel =>
                       build_tree fuel' db max_depth
                         (FamilyRelationship.related_memorial_id rel)
                         (depth + 1) visited)
                    children_rels with
            | None => None
            | Some children =>
                let spouse_rels :=
                  List.filter
                    (fun r => (FamilyRelationship.memorial_id r =? node_id)
                              && bool_decide
                                   (FamilyRelationship.relationship_type r
                                    = SPOUSE))
                    (family_relationships db) in
                let spouses :=
                  flat_map
                    (fun rel =>
                       match memorial_by_id db
                               (FamilyRelationship.related_memorial_id rel) with
                       | Some spouse_memorial =>
                           [mkFamilyTreeNode
                              (Memorial.id spouse_memorial)
                              (Memorial.name spouse_memorial)
                              (Memorial.birth_date spouse_memorial)
                              (Memorial.death_date spouse_memorial)
                              (Some SPOUSE) [] []]
                       | None => []
                       end)
                    spouse_rels in
                Some (Some (mkFamilyTreeNode
                              (Memorial.id node_memorial)
                              (Memorial.name node_memorial)
                              (Memorial.birth_date node_memorial)
                              (Memorial.death_date node_memorial)
                              None children spouses))
            end
        end
  end.

Definition sum_list (l : list Z) : Z := fold_right Z.add 0 l.

(** [count_nodes], the second closure of [get_family_tree]. *)
Fixpoint count_nodes (node : FamilyTreeNode) : Z :=
  match node with
  | mkFamilyTreeNode _ _ _ _ _ children spouses =>
      1 + sum_list (map count_nodes children)
        + sum_list
            (map (fun spouse =>
                    match spouse with
                    | mkFamilyTreeNode _ _ _ _ _ spouse_children _ =>
                        1 + sum_list (map count_nodes spouse_children)
                    end)
                 spouses)
  end.

(** GET /family/memorials/{memorial_id}/tree?max_depth=D. *)
Definition get_family_tree (fuel : nat) (db : Db) (memorial_id max_depth : Z)
    : option (result FamilyTreeResponse) :=
  match memorial_by_id db memorial_id with
  | None => Some (Raise (HTTPException 404 "Memorial not found"))
  | Some memorial =>
      match build_tree fuel db max_depth memorial_id 0 ∅ with
      | None => None
      | Some None =>
          Some (Raise (HTTPException 500 "Failed to build family tree"))
      | Some (Some root) =>
          Some (Ok (mkFamilyTreeResponse root (count_nodes root)))
      end
  end.

(** Lengths of paths in a returned tree, in edges. [child_depth] follows
    [children] links only; [height] follows [children] and [spouses]
    links, which are the two lists [count_nodes] walks. *)
Fixpoint child_depth (node : FamilyTreeNode) : nat :=
  match node with
  | mkFamilyTreeNode _ _ _ _ _ children _ =>
      list_max (map (fun c => S (child_depth c)) children)
  end.

Fixpoint height (node : FamilyTreeNode) : nat :=
  match node with
  | mkFamilyTreeNode _ _ _ _ _ children spouses =>
      Nat.max (list_max (map (fun c => S (height c)) children))
              (list_max (map (fun s => S (height s)) spouses))
  end.

(** GET /family/memorials/{memorial_id}/relationships, with the optional
    [relationship_type] filter. Each row is answered with the name of the
    related memorial, when that memorial is there. *)
Definition get_relationships (memorial_id : Z)
    (relationship_type : option RelationshipType) (db : Db)
    : result (list FamilyRelationshipResponse) :=
  match memorial_by_id db memorial_id with
  | None => Raise (HTTPException 404 "Memorial not found")
  | Some memorial =>
      let query :=
        List.filter (fun r => FamilyRelationship.memorial_id r =? memorial_id)
          (family_relationships db) in
      let relationships :=
        match relationship_type with
        | Some t =>
            List.filter
              (fun r => bool_decide (FamilyRelationship.relationship_type r = t))
              query
        | None => query
        end in
      Ok (map (fun rel =>
                 mkFamilyRelationshipResponse
                   (FamilyRelationship.id rel)
                   (FamilyRelationship.memorial_id rel)
                   (FamilyRelationship.related_memorial_id rel)
                   (FamilyRelationship.relationship_type rel)
                   (FamilyRelationship.notes rel)
                   (match memorial_by_id db
                            (FamilyRelationship.related_memorial_id rel) with
                    | Some related => Some (Memorial.name related)
                    | None => None
                    end)
                   (FamilyRelationship.created_at rel))
              relationships)
  end.

End Family.

(** ** Strings and paths *)

Module Str.

Definition is_upper (c : ascii) : bool :=
  (65 <=? Z.of_nat (nat_of_ascii c)) && (Z.of_nat (nat_of_ascii c) <=? 90).

(** [s.lower()], on the ASCII letters. *)
Fixpoint lower (s : string) : string :=
  match s with
  | EmptyString => EmptyString
  | String c s' =>
      String (if is_upper c then ascii_of_nat (nat_of_ascii c + 32) else c)
             (lower s')
  end.

(** [s.startswith(p)]. *)
Definition startswith (s p : string) : bool := String.prefix p s.

(** [sub in s]. *)
Fixpoint contains (s sub : string) : bool :=
  String.prefix sub s
  || match s with
     | EmptyString => false
     | String _ s' => contains s' sub
     end.

(** [s[1:]]. *)
Definition tail (s : string) : string :=
  match s with
  | EmptyString => EmptyString
  | String _ s' => s'
  end.

(** [s[:n]]. *)
Fixpoint take (n : nat) (s : string) : string :=
  match n, s with
  | S n', String c s' => String c (take n' s')
  | _, _ => EmptyString
  end.

Definition is_space (c : ascii) : bool :=
  let n := nat_of_ascii c in
  (n =? 32)%nat || ((9 <=? n)%nat && (n <=? 13)%nat).

Fixpoint lstrip (s : string) : string :=
  match s with
  | String c s' => if is_space c then lstrip s' else s
  | EmptyString => EmptyString
  end.

Fixpoint rstrip (s : string) : string :=
  match s with
  | EmptyString => EmptyString
  | String c s' =>
      match rstrip s' with
      | EmptyString => if is_space c then EmptyString else String c EmptyString
      | rest => String c rest
      end
  end.

(** [s.strip()]. *)
Definition strip (s : string) : string := rstrip (lstrip s).

(** [s.split(sep)] for a one-character separator. *)
Fixpoint split (sep : ascii) (s : string) : list string :=
  match s with
  | EmptyString => [EmptyString]
  | String c s' =>
      match split sep s' with
      | first :: rest =>
          if Ascii.eqb c sep then EmptyString :: first :: rest
          else String c first :: rest
      | [] => [String c EmptyString]
      end
  end.

(** [x in l] for a list of strings. *)
Definition mem (x : string) (l : list string) : bool := existsb (String.eqb x) l.

(** [Path(p).name] for a path without trailing separator: what follows the
    last ["/"]. *)
Fixpoint path_name (p : string) : string :=
  match p with
  | EmptyString => EmptyString
  | String c p' =>
      if contains p' "/" then path_name p'
      else if Ascii.eqb c "/" then p' else p
  end.

(** The part of [s] from its last ["."] on. *)
Fixpoint from_last_dot (s : string) : option string :=
  match s with
  | EmptyString => None
  | String c s' =>
      match from_last_dot s' with
      | Some t => Some t
      | None => if Ascii.eqb c "." then Some s else None
      end
  end.

(** [Path(p).suffix]: [name[i:]] for [i = name.rfind(".")] when
    [0 < i < len(name) - 1], and [""] otherwise. *)
Definition path_suffix (p : string) : string :=
  match path_name p with
  | EmptyString => EmptyString
  | String _ rest =>
      match from_last_dot rest with
      | Some t => if (String.length t =? 1)%nat then EmptyString else t
      | None => EmptyString
      end
  end.

(** [Path(p).stem]: the name without its suffix. *)
Definition path_stem (p : string) : string :=
  let name := path_name p in
  take (String.length name - String.length (path_suffix p)) name.

End Str.

(** ** config.py *)

Record Settings : Type := mkSettings {
  OPENAI_API_KEY : string;
  DID_API_KEY : string;
  DID_API_URL : string;
  HEYGEN_API_KEY : string;
  HEYGEN_API_URL : string;
  USE_HEYGEN : bool;
  ELEVENLABS_API_KEY : string;
  ELEVENLABS_VOICE_ID : string;
  VECTOR_DB_PROVIDER : string;
  PINECONE_API_KEY : string;
  S3_BUCKET_NAME : string;
  USE_S3 : bool;
  MAX_UPLOAD_SIZE : Z;
  ALLOWED_EXTENSIONS : string
}.

(** The literal defaults of [class Settings]. *)
Definition default_settings : Settings :=
  {| OPENAI_API_KEY := "";
     DID_API_KEY := "";
     DID_API_URL := "https://api.d-id.com";
     HEYGEN_API_KEY := "";
     HEYGEN_API_URL := "https://api.heygen.com/v2";
     USE_HEYGEN := false;
     ELEVENLABS_API_KEY := "";
     ELEVENLABS_VOICE_ID := "";
     VECTOR_DB_PROVIDER := "qdrant";
     PINECONE_API_KEY := "";
     S3_BUCKET_NAME := "";
     USE_S3 := false;
     MAX_UPLOAD_SIZE := 104857600;
     ALLOWED_EXTENSIONS := "jpg,jpeg,png,gif,mp4,mov,mp3,wav,pdf,txt" |}.

Definition allowed_extensions_list (settings : Settings) : list string :=
  map (fun ext => Str.lower (Str.strip ext))
      (Str.split "," (ALLOWED_EXTENSIONS settings)).

(** Python truthiness of a string. *)
Definition nonempty (s : string) : bool :=
  match s with EmptyString => false | _ => true end.

(** ** The local file system *)

(** File contents are byte strings; the file system maps a path to the
    contents of the file there. *)
Definition bytes : Type := string.

Definition len (b : bytes) : Z := Z.of_nat (String.length b).

Abbreviation Fs := (gmap string bytes).

(** ** api/memorials.py: media upload *)

Module Memorials.

Definition UPLOAD_DIR : string := "uploads".
Definition THUMBNAILS_DIR : string := "uploads/thumbnails".

(** [dir / name]. *)
Definition joinpath (dir name : string) : string := dir +:+ "/" +:+ name.

Definition get_media_type_from_mime (mime_type : string) : MediaType :=
  if Str.startswith mime_type "image/" then PHOTO
  else if Str.startswith mime_type "video/" then VIDEO
  else if Str.startswith mime_type "audio/" then AUDIO
  else DOCUMENT.

(** What ffprobe reports about the first video stream of a file. *)
Record video_info : Type := mkVideoInfo {
  duration : Z;
  width : Z;
  height : Z
}.

(** The image library, the ffprobe and ffmpeg programs and the object
    store, which the upload calls and this development does not look
    into. *)
Record Tools : Type := mkTools {
  (** [Image.open(f).verify()]: the error text when the image is refused. *)
  pil_verify : bytes -> option string;
  (** the re-encoded JPEG of [optimize_image], [None] when it fails *)
  pil_optimize : bytes -> option bytes;
  (** the JPEG of [generate_thumbnail] for a size name, [None] when it fails *)
  pil_thumbnail : bytes -> string -> option bytes;
  (** whether the ffprobe program can be started at all *)
  ffprobe_installed : bool;
  (** [get_video_info]: [None] when ffprobe fails or finds no video stream *)
  ffprobe : bytes -> option video_info;
  (** the frame of [generate_video_thumbnail], [None] when ffmpeg fails *)
  ffmpeg_frame : bytes -> option bytes;
  (** [upload_file_to_s3 path key] *)
  s3_upload : bytes -> string -> bool;
  (** [get_presigned_download_url key] *)
  s3_presign : string -> option string
}.

(** media_service.validate_image_file: any error of the image library is
    turned into [(False, str(e))]. *)
Definition validate_image_file (tools : Tools) (fs : Fs) (file_path : string)
    : bool * option string :=
  match fs !! file_path with
  | None => (false, Some "No such file or directory")
  | Some contents =>
      match pil_verify tools contents with
      | None => (true, None)
      | Some e => (false, Some e)
      end
  end.

(** media_service.optimize_image with [output_path=None]: the file is
    rewritten in place. *)
Definition optimize_image (tools : Tools) (fs : Fs) (file_path : string)
    : bool * Fs :=
  match fs !! file_path with
  | None => (false, fs)
  | Some contents =>
      match pil_optimize tools contents with
      | Some jpeg => (true, <[file_path := jpeg]> fs)
      | None => (false, fs)
      end
  end.

(** media_service.generate_all_thumbnails: the sizes that could be written,
    with their paths. *)
Definition generate_all_thumbnails (tools : Tools) (fs : Fs)
    (image_path base_output_dir : string) : list (string * string) * Fs :=
  fold_left
    (fun (acc : list (string * string) * Fs) (size_name : string) =>
       let thumbnail_path :=
         joinpath base_output_dir
           (Str.path_stem image_path +:+ "_" +:+ size_name +:+ ".jpg") in
       match snd acc !! image_path with
       | Some contents =>
           match pil_thumbnail tools contents size_name with
           | Some jpeg =>
               (fst acc ++ [(size_name, thumbnail_path)],
                <[thumbnail_path := jpeg]> (snd acc))
           | None => acc
           end
       | None => acc
       end)
    ["small"; "medium"; "large"] ([], fs).

(** video_service.validate_video_file. Starting ffprobe when it is not
    installed raises [FileNotFoundError], which [get_video_info] does not
    catch. *)
Definition validate_video_file (tools : Tools) (fs : Fs) (video_path : string)
    : result (bool * option string) :=
  match fs !! video_path with
  | None => Ok (false, Some "File does not exist")
  | Some contents =>
      if negb (ffprobe_installed tools)
      then Raise (FileNotFoundError "[Errno 2] No such file or directory: 'ffprobe'")
      else
        match ffprobe tools contents with
        | None =>
            Ok (false,
                Some "Invalid video file or unable to read video information")
        | Some info =>
            if duration info <=? 0
            then Ok (false, Some "Video has zero or negative duration")
            else if (width info <=? 0) || (height info <=? 0)
            then Ok (false, Some "Invalid video dimensions")
            else Ok (true, None)
        end
  end.

(** video_service.generate_video_thumbnail. *)
Definition generate_video_thumbnail (tools : Tools) (fs : Fs)
    (video_path output_path : string) : bool * Fs :=
  match fs !! video_path with
  | None => (false, fs)
  | Some contents =>
      match ffmpeg_frame tools contents with
      | Some jpeg => (true, <[output_path := jpeg]> fs)
      | None => (false, fs)
      end
  end.

Record UploadFile : Type := mkUploadFile {
  filename : string;
  content_type : option string;
  file_contents : bytes
}.

Definition set_media (db : Db) (rows : list Media.t) : Db :=
  mkDb (memorials db) rows (memories db) (family_relationships db).

(** The processing of a photo inside [upload_media]: the thumbnail path,
    the bytes whose length is stored, and the file system afterwards. *)
Definition process_photo (tools : Tools) (file_path : string) (contents : bytes)
    (fs : Fs) : result (option string * bytes) * Fs :=
  let '(is_valid, error_msg) := validate_image_file tools fs file_path in
  if negb is_valid
  then (Raise (HTTPException 400
                 ("Invalid image file: " +:+ default "None" error_msg)),
        delete file_path fs)
  else
    let '(contents, fs) :=
      if len contents >? 5 * 1024 * 1024
      then
        let fs := snd (optimize_image tools fs file_path) in
        (default contents (fs !! file_path), fs)
      else (contents, fs) in
    let '(thumbnails, fs) :=
      generate_all_thumbnails tools fs file_path THUMBNAILS_DIR in
    let thumbnail_path :=
      match List.find (fun kv => String.eqb (fst kv) "medium") thumbnails with
      | Some (_, path) => if nonempty path then Some path else None
      | None => None
      end in
    (Ok (thumbnail_path, contents), fs).

(** The processing of a video inside [upload_media]. *)
Definition process_video (tools : Tools) (file_path : string) (contents : bytes)
    (fs : Fs) : result (option string * bytes) * Fs :=
  match validate_video_file tools fs file_path with
  | Raise e => (Raise e, fs)
  | Ok (is_valid, error_msg) =>
      if negb is_valid
      then (Raise (HTTPException 400
                     ("Invalid video file: " +:+ default "None" error_msg)),
            delete file_path fs)
      else
        let video_preview_path :=
          joinpath THUMBNAILS_DIR (Str.path_stem file_path +:+ "_preview.jpg") in
        let '(made, fs) :=
          generate_video_thumbnail tools fs file_path video_preview_path in
        (Ok (if made then Some video_preview_path else None, contents), fs)
  end.

(** The body of the [try] block of [upload_media]. *)
Definition upload_media_try (settings : Settings) (tools : Tools)
    (now : datetime) (memorial_id : Z) (file : UploadFile)
    (file_name file_path : string) (db : Db) (fs : Fs)
    : result Media.t * Db * Fs :=
  let contents := file_contents file in
  if len contents >? MAX_UPLOAD_SIZE settings
  then (Raise (HTTPException 400
                 ("File size exceeds maximum allowed size of "
                  +:+ str_int (MAX_UPLOAD_SIZE settings) +:+ " bytes")),
        db, fs)
  else
    let fs := <[file_path := contents]> fs in
    let media_type :=
      get_media_type_from_mime
        (default "application/octet-stream"
           (match content_type file with
            | Some c => if nonempty c then Some c else None
            | None => None
            end)) in
    let '(processed, fs) :=
      match media_type with
      | PHOTO => process_photo tools file_path contents fs
      | VIDEO => process_video tools file_path contents fs
      | _ => (Ok (None, contents), fs)
      end in
    match processed with
    | Raise e => (Raise e, db, fs)
    | Ok (thumbnail_path, contents) =>
        let s3_key :=
          "memorials/" +:+ str_int memorial_id +:+ "/" +:+ file_name in
        let file_url :=
          if USE_S3 settings
          then if s3_upload tools (default contents (fs !! file_path)) s3_key
               then s3_presign tools s3_key
               else None
          else None in
        let db_media :=
          Media.mk (next_id (map Media.id (media db))) memorial_id
            (if USE_S3 settings then s3_key else file_path)
            file_url (filename file) (Some (len contents))
            (content_type file) media_type thumbnail_path false None now in
        (Ok db_media, set_media db (media db ++ [db_media]), fs)
    end.

(** POST /memorials/{memorial_id}/media/upload (status 201). [file_id] is
    the value of [uuid.uuid4()]. The [except Exception] clause around the
    body catches every exception raised in it, [HTTPException] included. *)
Definition upload_media (settings : Settings) (tools : Tools) (now : datetime)
    (file_id : string) (memorial_id : Z) (file : UploadFile) (db : Db) (fs : Fs)
    : result Media.t * Db * Fs :=
  match Family.memorial_by_id db memorial_id with
  | None => (Raise (HTTPException 404 "Memorial not found"), db, fs)
  | Some memorial =>
      let file_ext := Str.lower (Str.tail (Str.path_suffix (filename file))) in
      if negb (Str.mem file_ext (allowed_extensions_list settings))
      then (Raise (HTTPException 400
                     ("File extension '" +:+ file_ext +:+ "' not allowed. Allowed: "
                      +:+ ALLOWED_EXTENSIONS settings)),
            db, fs)
      else
        let file_name := file_id +:+ "_" +:+ filename file in
        let file_path := joinpath UPLOAD_DIR file_name in
        match upload_media_try settings tools now memorial_id file
                file_name file_path db fs with
        | (Ok db_media, db', fs') => (Ok db_media, db', fs')
        | (Raise e, _, fs') =>
            (Raise (HTTPException 500 ("Error uploading file: " +:+ str_exn e)),
             db,
             delete file_path fs')
        end
  end.

End Memorials.

(** ** uuid.uuid5 *)

Module Uuid.

(** Bytes are integers in [0, 255], 32-bit words integers in [0, 2^32). *)

Definition bytes_of_string (s : string) : list Z :=
  map (fun c => Z.of_nat (nat_of_ascii c)) (list_ascii_of_string s).

Definition mask32 : Z := 0xFFFFFFFF.

Definition add32 (a b : Z) : Z := Z.land (a + b) mask32.

Definition rotl32 (n x : Z) : Z :=
  Z.land (Z.lor (Z.shiftl x n) (Z.shiftr x (32 - n))) mask32.

Definition not32 (x : Z) : Z := Z.lxor x mask32.

(** Big-endian words of a byte list whose length is a multiple of 4. *)
Fixpoint be_words (bs : list Z) : list Z :=
  match bs with
  | a :: b :: c :: d :: rest =>
      Z.lor (Z.shiftl a 24) (Z.lor (Z.shiftl b 16) (Z.lor (Z.shiftl c 8) d))
      :: be_words rest
  | _ => []
  end.

Definition be_bytes (nbytes : nat) (x : Z) : list Z :=
  map (fun i => Z.land (Z.shiftr x (8 * Z.of_nat i)) 255) (rev (seq 0 nbytes)).

(** SHA-1 padding: a 1 bit, zeros up to 56 modulo 64 bytes, the bit length
    on 8 bytes. *)
Definition sha1_pad (msg : list Z) : list Z :=
  let l := Z.of_nat (length msg) in
  let zeros := Z.to_nat ((55 - l) mod 64) in
  msg ++ [128] ++ repeat 0 zeros ++ be_bytes 8 (8 * l).

Fixpoint chunks64 (n : nat) (bs : list Z) : list (list Z) :=
  match n with
  | O => []
  | S n' =>
      match bs with
      | [] => []
      | _ => firstn 64 bs :: chunks64 n' (skipn 64 bs)
      end
  end.

(** The message schedule, most recent word first. *)
Fixpoint schedule (n : nat) (rev_w : list Z) : list Z :=
  match n with
  | O => rev_w
  | S n' =>
      let w := rotl32 1 (Z.lxor (Z.lxor (nth 2 rev_w 0) (nth 7 rev_w 0))
                                (Z.lxor (nth 13 rev_w 0) (nth 15 rev_w 0))) in
      schedule n' (w :: rev_w)
  end.

Definition sha1_round (st : Z * Z * Z * Z * Z) (tw : Z * Z) : Z * Z * Z * Z * Z :=
  let '(a, b, c, d, e) := st in
  let '(t, w) := tw in
  let '(f, k) :=
    if t <? 20 then (Z.lor (Z.land b c) (Z.land (not32 b) d), 0x5A827999)
    else if t <? 40 then (Z.lxor (Z.lxor b c) d, 0x6ED9EBA1)
    else if t <? 60
    then (Z.lor (Z.lor (Z.land b c) (Z.land b d)) (Z.land c d), 0x8F1BBCDC)
    else (Z.lxor (Z.lxor b c) d, 0xCA62C1D6) in
  let temp := add32 (add32 (add32 (add32 (rotl32 5 a) f) e) k) w in
  (temp, a, rotl32 30 b, c, d).

Definition sha1_block (h : Z * Z * Z * Z * Z) (block : list Z) : Z * Z * Z * Z * Z :=
  let w := rev (schedule 64 (rev (be_words block))) in
  let '(h0, h1, h2, h3, h4) := h in
  let '(a, b, c, d, e) :=
    fold_left sha1_round (combine (map Z.of_nat (seq 0 80)) w) h in
  (add32 h0 a, add32 h1 b, add32 h2 c, add32 h3 d, add32 h4 e).

(** [hashlib.sha1(msg).digest()]. *)
Definition sha1 (msg : list Z) : list Z :=
  let padded := sha1_pad msg in
  let '(h0, h1, h2, h3, h4) :=
    fold_left sha1_block (chunks64 (length padded) padded)
      (0x67452301, 0xEFCDAB89, 0x98BADCFE, 0x10325476, 0xC3D2E1F0) in
  be_bytes 4 h0 ++ be_bytes 4 h1 ++ be_bytes 4 h2 ++ be_bytes 4 h3
  ++ be_bytes 4 h4.

(** [uuid.NAMESPACE_DNS], 6ba7b810-9dad-11d1-80b4-00c04fd430c8. *)
Definition NAMESPACE_DNS : list Z :=
  [0x6b; 0xa7; 0xb8; 0x10; 0x9d; 0xad; 0x11; 0xd1;
   0x80; 0xb4; 0x00; 0xc0; 0x4f; 0xd4; 0x30; 0xc8].

(** [uuid.uuid5(namespace, name).bytes]: the first 16 bytes of the SHA-1 of
    namespace and name, with the version set to 5 and the variant to
    RFC 4122. *)
Definition uuid5 (namespace : list Z) (name : string) : list Z :=
  let h := firstn 16 (sha1 (namespace ++ bytes_of_string name)) in
  map (fun ib : nat * Z =>
         let '(i, b) := ib in
         if (i =? 6)%nat then Z.lor (Z.land b 0x0f) 0x50
         else if (i =? 8)%nat then Z.lor (Z.land b 0x3f) 0x80
         else b)
      (combine (seq 0 16) h).

Definition hex_digit (n : Z) : ascii :=
  ascii_of_nat (Z.to_nat (if n <? 10 then 48 + n else 87 + n)).

Definition hex (bs : list Z) : string :=
  string_of_list_ascii
    (flat_map (fun b => [hex_digit (Z.shiftr b 4); hex_digit (Z.land b 15)]) bs).

(** [str(u)] for a UUID given by its 16 bytes. *)
Definition str (u : list Z) : string :=
  hex (firstn 4 u) +:+ "-" +:+ hex (firstn 2 (skipn 4 u)) +:+ "-"
  +:+ hex (firstn 2 (skipn 6 u)) +:+ "-" +:+ hex (firstn 2 (skipn 8 u)) +:+ "-"
  +:+ hex (skipn 10 u).

End Uuid.

(** ** JSON values and HTTP replies *)

(** What [response.json()] returns. Numbers are integers here. *)
Inductive json : Type :=
| JNull
| JBool (b : bool)
| JInt (n : Z)
| JStr (s : string)
| JList (l : list json)
| JDict (items : list (string * json)).

Module Py.

(** [bool(v)]. *)
Definition truthy (v : json) : bool :=
  match v with
  | JNull => false
  | JBool b => b
  | JInt n => negb (n =? 0)
  | JStr s => nonempty s
  | JList l => match l with [] => false | _ => true end
  | JDict d => match d with [] => false | _ => true end
  end.

(** [a or b]. *)
Definition or (a b : json) : json := if truthy a then a else b.

Definition type_name (v : json) : string :=
  match v with
  | JNull => "NoneType"
  | JBool _ => "bool"
  | JInt _ => "int"
  | JStr _ => "str"
  | JList _ => "list"
  | JDict _ => "dict"
  end.

Definition lookup (items : list (string * json)) (key : string) : option json :=
  match List.find (fun kv => String.eqb (fst kv) key) items with
  | Some (_, v) => Some v
  | None => None
  end.

(** [v.get(key, default)]: only a dict has the method. *)
Definition get (v : json) (key : string) (default : json) : result json :=
  match v with
  | JDict items => Ok (match lookup items key with Some x => x | None => default end)
  | _ => Raise (AttributeError
                  ("'" +:+ type_name v +:+ "' object has no attribute 'get'"))
  end.

(** [key in v] for a string [key]. *)
Definition contains (key : string) (v : json) : result bool :=
  match v with
  | JDict items => Ok (match lookup items key with Some _ => true | None => false end)
  | JList l =>
      Ok (existsb (fun x => match x with JStr s => String.eqb s key | _ => false end) l)
  | JStr s => Ok (Str.contains s key)
  | _ => Raise (TypeError
                  ("argument of type '" +:+ type_name v +:+ "' is not iterable"))
  end.

(** [v == s] for a string [s]. *)
Definition eq_str (v : json) (s : string) : bool :=
  match v with
  | JStr s' => String.eqb s' s
  | _ => false
  end.

(** [str(v)] where the code formats a value into a message; containers are
    not spelled out. *)
Definition str (v : json) : string :=
  match v with
  | JNull => "None"
  | JBool true => "True"
  | JBool false => "False"
  | JInt n => str_int n
  | JStr s => s
  | JList _ => "[...]"
  | JDict _ => "{...}"
  end.

End Py.

(** An [httpx] response: status code, body text, and what [.json()] gives
    (a [ValueError] when the body is not JSON). *)
Record Response : Type := mkResponse {
  status_code : Z;
  text : string;
  json_body : result json
}.

(** The outcome of a request: a response, or [httpx.RequestError] when the
    server could not be reached. *)
Inductive http_reply : Type :=
| Replied (response : Response)
| RequestError (msg : string).

(** [response.is_success], which decides [raise_for_status()]. *)
Definition is_success (response : Response) : bool :=
  (200 <=? status_code response) && (status_code response <=? 299).

(** ** services/ai_tasks.py *)

(** An embedding: the components are carried around and never computed
    with; each is the integer of its IEEE 754 encoding. *)
Definition vector : Type := list Z.

(** A point of the vector store with its payload (Qdrant) or metadata
    (Pinecone). *)
Record Point : Type := mkPoint {
  pt_vector : vector;
  pt_memory_id : Z;
  pt_memorial_id : Z;
  pt_text : string;
  pt_title : string
}.

(** The vector stores of the two providers, by point id, and whether the
    server answers. *)
Record VectorDb : Type := mkVectorDb {
  reachable : bool;
  qdrant_points : gmap string Point;
  pinecone_vectors : gmap string Point
}.

(** The external services behind [ai_tasks.py]. *)
Record Providers : Type := mkProviders {
  (** GET on a URL of the HeyGen or D-ID API *)
  http_get : string -> http_reply;
  (** the multipart POST to [/v1/voices/add]: file name, bytes, MIME type,
      voice name, description *)
  elevenlabs_add_voice :
    string -> bytes -> string -> string -> option string -> http_reply;
  (** [client.embeddings.create] on a text *)
  openai_embedding : string -> result vector;
  (** [client.chat.completions.create] for a question over context
      chunks [(memory_id, text)] and a memorial name *)
  openai_chat : string -> list (option Z * string) -> option string -> result string;
  (** [generate_speech_elevenlabs] on a text and a voice id *)
  elevenlabs_speech : string -> string -> result bytes;
  (** the nearest neighbours of a query among stored points, best first,
      with their scores *)
  nearest : gmap string Point -> vector -> list (string * Q)
}.

(** A request sent to an external service. *)
Inductive call : Type :=
| EmbeddingCall (text : string)
| SearchCall (memorial_id : Z)
| UpsertCall (vector_id : string)
| ChatCall (question : string)
| SpeechCall (text : string).

Module AiTasks.

(** The names bound at module level: the imports of lines 4-6 and the
    functions defined in the file. *)
Definition module_globals : list string :=
  ["httpx"; "Optional"; "List"; "Dict"; "Tuple"; "settings";
   "animate_photo_did"; "get_did_talk_status"; "upload_photo_to_heygen";
   "animate_photo_heygen"; "get_heygen_video_status"; "animate_photo";
   "get_animation_status"; "get_embedding"; "generate_rag_response";
   "create_custom_voice_elevenlabs"; "generate_speech_elevenlabs";
   "get_vector_db_client"; "get_pinecone_client"; "upsert_memory_embedding";
   "search_similar_memories"; "delete_memory_embedding"].

(** Looking up a global name that is neither bound in the module nor a
    built-in. *)
Definition global_name (name : string) : result unit :=
  if Str.mem name module_globals then Ok tt
  else Raise (NameError ("name '" +:+ name +:+ "' is not defined")).

Definition get_did_talk_status (settings : Settings) (net : Providers)
    (talk_id : string) : result json :=
  if negb (nonempty (DID_API_KEY settings))
  then Raise (ValueError "DID_API_KEY not configured")
  else
    let url := DID_API_URL settings +:+ "/talks/" +:+ talk_id in
    match http_get net url with
    | RequestError msg => Raise (ValueError ("D-ID API request failed: " +:+ msg))
    | Replied response =>
        if is_success response then json_body response
        else Raise (ValueError ("D-ID API error: "
                                +:+ str_int (status_code response) +:+ " - "
                                +:+ text response))
    end.

Definition get_heygen_video_status (settings : Settings) (net : Providers)
    (video_id : string) : result json :=
  if negb (nonempty (HEYGEN_API_KEY settings))
  then Raise (ValueError "HEYGEN_API_KEY not configured")
  else
    let url := HEYGEN_API_URL settings +:+ "/video/" +:+ video_id in
    match http_get net url with
    | RequestError msg => Raise (ValueError ("HeyGen API request failed: " +:+ msg))
    | Replied response =>
        if status_code response =? 404
        then Ok (JDict
                   [("data", JDict [("status", JStr "not_found");
                                    ("video_url", JNull)]);
                    ("error",
                     JStr "Video not found. It may still be processing or the ID is incorrect.")])
        else if is_success response then json_body response
        else Raise (ValueError ("HeyGen API error: "
                                +:+ str_int (status_code response) +:+ " - "
                                +:+ text response))
    end.

Definition status_dict (status video_url error : json) : json :=
  JDict [("status", status); ("video_url", video_url); ("error", error)].

Definition get_animation_status (settings : Settings) (net : Providers)
    (provider task_id : string) : result json :=
  if String.eqb provider "heygen"
  then
    match get_heygen_video_status settings net task_id with
    | Ok result =>
        has_data ← Py.contains "data" result;
        if has_data : bool
        then
          data ← Py.get result "data" (JDict []);
          status ← Py.get data "status" (JStr "unknown");
          let status :=
            if Py.eq_str status "not_found" then JStr "processing" else status in
          video_url ← Py.get data "video_url" JNull;
          url ← Py.get data "url" JNull;
          error ← Py.get result "error" JNull;
          Ok (status_dict status (Py.or video_url url) error)
        else
          status ← Py.get result "status" (JStr "unknown");
          video_url ← Py.get result "video_url" JNull;
          url ← Py.get result "url" JNull;
          error ← Py.get result "error" JNull;
          Ok (status_dict status (Py.or video_url url) error)
    | Raise (ValueError msg) =>
        if Str.contains msg "404" || Str.contains (Str.lower msg) "not found"
        then Ok (status_dict (JStr "processing") JNull JNull)
        else Raise (ValueError msg)
    | Raise e => Raise e
    end
  else
    result ← get_did_talk_status settings net task_id;
    status ← Py.get result "status" (JStr "unknown");
    video_url ← Py.get result "result_url" JNull;
    error ← Py.get result "error" JNull;
    Ok (status_dict status video_url error).

(** [get_embedding] with the default [max_length]. The provider is called
    only when the key is configured; every provider error becomes a
    [ValueError]. *)
Definition get_embedding (settings : Settings) (net : Providers) (text : string)
    : result vector * list call :=
  if negb (nonempty (OPENAI_API_KEY settings))
  then (Raise (ValueError "OPENAI_API_KEY not configured"), [])
  else
    let text := if len text >? 8000 then Str.take (Z.to_nat 8000) text else text in
    (match openai_embedding net text with
     | Ok v => Ok v
     | Raise e => Raise (ValueError ("OpenAI embedding error: " +:+ str_exn e))
     end,
     [EmbeddingCall text]).

(** A context chunk of the chat: the keys [text], [memory_id], [score] and
    [title] of the dicts the code passes around. *)
Record chunk : Type := mkChunk {
  chunk_text : string;
  chunk_memory_id : option Z;
  chunk_score : Q;
  chunk_title : string
}.

(** [generate_rag_response] with the default system prompt: the answer of
    the chat model and the source tags. The text of the prompts is left to
    the provider side. *)
Definition generate_rag_response (settings : Settings) (net : Providers)
    (question : string) (context_chunks : list chunk)
    (memorial_name : option string)
    : result (string * list string) * list call :=
  if negb (nonempty (OPENAI_API_KEY settings))
  then (Raise (ValueError "OPENAI_API_KEY not configured"), [])
  else
    let used := List.filter (fun c => nonempty (chunk_text c)) context_chunks in
    let sources :=
      flat_map (fun c => match chunk_memory_id c with
                         | Some i => if i =? 0 then [] else ["memory_" +:+ str_int i]
                         | None => []
                         end) used in
    (match openai_chat net question
             (map (fun c => (chunk_memory_id c, chunk_text c)) used)
             memorial_name with
     | Ok answer => Ok (answer, sources)
     | Raise e => Raise (ValueError ("OpenAI API error: " +:+ str_exn e))
     end,
     [ChatCall question]).

(** [create_custom_voice_elevenlabs]. [Path] is looked up as a global of
    the module when line 526 runs. The result is the provider's
    [voice_id]. *)
Definition create_custom_voice_elevenlabs (settings : Settings)
    (net : Providers) (fs : Fs) (audio_file_path voice_name : string)
    (description : option string) : result json :=
  if negb (nonempty (ELEVENLABS_API_KEY settings))
  then Raise (ValueError "ELEVENLABS_API_KEY not configured")
  else
    _ ← global_name "Path";
    let suffix := Str.lower (Str.path_suffix audio_file_path) in
    let mime_type :=
      if String.eqb suffix ".wav" then "audio/wav"
      else if String.eqb suffix ".m4a" then "audio/m4a"
      else "audio/mpeg" in
    audio_bytes ←
      match fs !! audio_file_path with
      | Some b => Ok b
      | None => Raise (FileNotFoundError
                         ("[Errno 2] No such file or directory: '"
                          +:+ audio_file_path +:+ "'"))
      end;
    match elevenlabs_add_voice net (Str.path_name audio_file_path) audio_bytes
            mime_type voice_name
            (match description with
             | Some d => if nonempty d then Some d else None
             | None => None
             end) with
    | RequestError msg =>
        Raise (ValueError ("ElevenLabs API request failed: " +:+ msg))
    | Replied response =>
        if negb (status_code response =? 200)
        then Raise (ValueError
                      ("ElevenLabs API error " +:+ str_int (status_code response)
                       +:+ ": "
                       +:+ (if nonempty (text response) then text response
                            else "No error details")))
        else
          result ← json_body response;
          voice_id ← Py.get result "voice_id" JNull;
          if negb (Py.truthy voice_id)
          then Raise (ValueError ("ElevenLabs did not return voice_id. Response: "
                                  +:+ Py.str result))
          else Ok voice_id
    end.

(** [get_vector_db_client]: the Pinecone client needs its key; creating
    the Qdrant collection is tried and its failure only logged. *)
Definition get_vector_db_client (settings : Settings) : result unit :=
  if String.eqb (VECTOR_DB_PROVIDER settings) "qdrant" then Ok tt
  else if negb (nonempty (PINECONE_API_KEY settings))
  then Raise (ValueError "PINECONE_API_KEY not configured")
  else Ok tt.

(** A call of the client on the server. *)
Definition on_server (vdb : VectorDb) : result unit :=
  if reachable vdb then Ok tt
  else Raise (ConnectionError "vector database unreachable").

Definition upsert_memory_embedding (settings : Settings)
    (memory_id memorial_id : Z) (text : string) (embedding : vector)
    (title : option string) (vdb : VectorDb) : result string * VectorDb :=
  let id_string := "memory_" +:+ str_int memorial_id +:+ "_" +:+ str_int memory_id in
  let vector_id_uuid := Uuid.uuid5 Uuid.NAMESPACE_DNS id_string in
  let vector_id := Uuid.str vector_id_uuid in
  if String.eqb (VECTOR_DB_PROVIDER settings) "qdrant"
  then
    match (_ ← get_vector_db_client settings; on_server vdb) with
    | Raise e => (Raise e, vdb)
    | Ok _ =>
        (Ok vector_id,
         mkVectorDb (reachable vdb)
           (<[vector_id :=
                mkPoint embedding memory_id memorial_id (Str.take 1000 text)
                  (default "" title)]> (qdrant_points vdb))
           (pinecone_vectors vdb))
    end
  else
    match (_ ← get_vector_db_client settings; on_server vdb) with
    | Raise e => (Raise e, vdb)
    | Ok _ =>
        (Ok vector_id,
         mkVectorDb (reachable vdb) (qdrant_points vdb)
           (<[vector_id :=
                mkPoint embedding memory_id memorial_id (Str.take 500 text)
                  (default "" title)]> (pinecone_vectors vdb)))
    end.

(** A search hit: the keys [id], [score], [text], [memory_id], [title]. *)
Record hit : Type := mkHit {
  hit_id : string;
  hit_score : Q;
  hit_text : string;
  hit_memory_id : Z;
  hit_title : string
}.

Definition hits_of (points : gmap string Point) (ranked : list (string * Q))
    : list (hit * Z) :=
  flat_map (fun r : string * Q =>
              match points !! fst r with
              | Some p => [(mkHit (fst r) (snd r) (pt_text p) (pt_memory_id p)
                              (pt_title p), pt_memorial_id p)]
              | None => []
              end) ranked.

(** [search_similar_memories]: every failure gives the empty list. *)
Definition search_similar_memories (settings : Settings) (net : Providers)
    (memorial_id : Z) (query_embedding : vector) (top_k : nat) (min_score : Q)
    (vdb : VectorDb) : list hit :=
  match (_ ← get_vector_db_client settings; on_server vdb) with
  | Raise _ => []
  | Ok _ =>
      if String.eqb (VECTOR_DB_PROVIDER settings) "qdrant"
      then
        let results :=
          firstn (top_k * 10)
            (List.filter (fun h => Qle_bool min_score (hit_score (fst h)))
               (hits_of (qdrant_points vdb)
                  (nearest net (qdrant_points vdb) query_embedding))) in
        firstn top_k
          (map fst
             (List.filter (fun h => (snd h =? memorial_id)
                                    && Qle_bool min_score (hit_score (fst h)))
                results))
      else
        let matches :=
          firstn (top_k * 2)
            (List.filter (fun h => snd h =? memorial_id)
               (hits_of (pinecone_vectors vdb)
                  (nearest net (pinecone_vectors vdb) query_embedding))) in
        firstn top_k
          (map fst
             (List.filter (fun h => Qle_bool min_score (hit_score (fst h)))
                matches))
  end.

Definition delete_memory_embedding (settings : Settings)
    (memory_id memorial_id : Z) (vdb : VectorDb) : bool * VectorDb :=
  let id_string := "memory_" +:+ str_int memorial_id +:+ "_" +:+ str_int memory_id in
  let vector_id_uuid := Uuid.uuid5 Uuid.NAMESPACE_DNS id_string in
  let vector_id := Uuid.str vector_id_uuid in
  if String.eqb (VECTOR_DB_PROVIDER settings) "qdrant"
  then
    match (_ ← get_vector_db_client settings; on_server vdb) with
    | Raise _ => (false, vdb)
    | Ok _ =>
        (true,
         mkVectorDb (reachable vdb) (delete vector_id (qdrant_points vdb))
           (pinecone_vectors vdb))
    end
  else
    match (_ ← get_vector_db_client settings; on_server vdb) with
    | Raise _ => (false, vdb)
    | Ok _ =>
        (true,
         mkVectorDb (reachable vdb) (qdrant_points vdb)
           (delete vector_id (pinecone_vectors vdb)))
    end.

End AiTasks.

(** ** api/embeddings.py *)

Module Embeddings.

Definition set_memories (db : Db) (rows : list Memory.t) : Db :=
  mkDb (memorials db) (media db) rows (family_relationships db).

(** Python truthiness of a nullable string column. *)
Definition some_nonempty (v : option string) : bool :=
  match v with
  | Some s => nonempty s
  | None => false
  end.

(** The UPDATE that [db.commit()] sends for a memory whose [embedding_id]
    was set: the new value, and [updated_at], which the column declares
    with [onupdate=func.now()]. *)
Definition update_embedding_id (now : datetime) (memory_id : Z)
    (embedding_id : option string) (rows : list Memory.t) : list Memory.t :=
  map (fun m =>
         if Memory.id m =? memory_id
         then Memory.mk (Memory.id m) (Memory.memorial_id m) (Memory.title m)
                (Memory.content m) embedding_id (Memory.source m)
                (Memory.created_at m) (Some now)
         else m)
      rows.

(** DELETE /embeddings/memories/{memory_id} (status 200). *)
Definition delete_memory_embedding_endpoint (settings : Settings)
    (now : datetime) (memory_id : Z) (db : Db) (vdb : VectorDb)
    : result json * Db * VectorDb :=
  match List.find (fun m => Memory.id m =? memory_id) (memories db) with
  | None => (Raise (HTTPException 404 "Memory not found"), db, vdb)
  | Some memory =>
      if negb (some_nonempty (Memory.embedding_id memory))
      then (Raise (HTTPException 400 "Memory has no embedding"), db, vdb)
      else
        let '(success, vdb') :=
          AiTasks.delete_memory_embedding settings memory_id
            (Memory.memorial_id memory) vdb in
        if success : bool
        then (Ok (JDict [("status", JStr "deleted");
                         ("message", JStr "Embedding deleted successfully")]),
              set_memories db
                (update_embedding_id now (Memory.id memory) None (memories db)),
              vdb')
        else (Raise (HTTPException 500 "Failed to delete embedding"), db, vdb')
  end.

End Embeddings.

(** ** schemas.py (AI) *)

(** [class AnimationStatusRequest(BaseModel)]: the two declared fields. *)
Record AnimationStatusRequest : Type := mkAnimationStatusRequest {
  task_id : string;
  provider : option string
}.

(** Reading an attribute of the request object. A pydantic model has its
    declared fields as attributes; other keys of the request body are
    dropped when the model is built, and reading a name that is not a field
    raises [AttributeError]. *)
Definition AnimationStatusRequest_getattr (request : AnimationStatusRequest)
    (name : string) : result json :=
  if String.eqb name "task_id" then Ok (JStr (task_id request))
  else if String.eqb name "provider"
  then Ok (match provider request with Some p => JStr p | None => JNull end)
  else Raise (AttributeError
                ("'AnimationStatusRequest' object has no attribute '"
                 +:+ name +:+ "'")).

Record AnimationStatusResponse : Type := mkAnimationStatusResponse {
  asr_task_id : string;
  asr_status : string;
  asr_video_url : option string;
  asr_error : option string;
  asr_provider : string
}.

Record AvatarChatRequest : Type := mkAvatarChatRequest {
  acr_memorial_id : Z;
  question : string;
  include_audio : bool
}.

Record AvatarChatResponse : Type := mkAvatarChatResponse {
  answer : string;
  audio_url : option string;
  sources : list string
}.

(** ** api/ai.py *)

Module Ai.

(** An optional string field of a response model takes a string or null. *)
Definition optional_str (v : json) : option (option string) :=
  match v with
  | JNull => Some None
  | JStr s => Some (Some s)
  | _ => None
  end.

(** Lines 473-495 of [get_animation_status_endpoint]: from the status dict
    to the response. Building the response model validates the field types
    and raises a [ValueError] (pydantic's [ValidationError]) otherwise. *)
Definition status_response (request_task_id provider : string)
    (status_result : json) : result AnimationStatusResponse :=
  let status_result :=
    match status_result with
    | JDict _ => status_result
    | _ => AiTasks.status_dict (JStr "processing") JNull JNull
    end in
  status ← Py.get status_result "status" (JStr "unknown");
  error ← Py.get status_result "error" JNull;
  let error :=
    if (Py.eq_str status "processing" || Py.eq_str status "pending")
       && Py.truthy error
    then JNull else error in
  video_url ← Py.get status_result "video_url" JNull;
  match status, optional_str video_url, optional_str error with
  | JStr status, Some video_url, Some error =>
      Ok (mkAnimationStatusResponse request_task_id status video_url error provider)
  | _, _, _ =>
      Raise (ValueError "validation error for AnimationStatusResponse")
  end.

(** The provider video id looked up in the media table, lines 448-466,
    given the value read for [request.media_id]. *)
Definition resolve_video_id (db : Db) (request : AnimationStatusRequest)
    (media_id : json) : string :=
  let video_id := task_id request in
  if Py.truthy media_id
  then
    match List.find (fun m => match media_id with
                              | JInt n => Media.id m =? n
                              | _ => false
                              end) (media db) with
    | Some media =>
        match Media.animation_task_id media with
        | Some t => if nonempty t then t else video_id
        | None => video_id
        end
    | None => video_id
    end
  else
    match List.find (fun m => match Media.animation_task_id m with
                              | Some t => String.eqb t (task_id request)
                              | None => false
                              end) (media db) with
    | Some media =>
        match Media.animation_task_id media with
        | Some t => if nonempty t then t else video_id
        | None => video_id
        end
    | None => video_id
    end.

(** POST /ai/animation/status. The name [status] is assigned at line 482
    and is therefore a local variable of the whole function: reading
    [status.HTTP_400_BAD_REQUEST] before that assignment raises
    [UnboundLocalError], and after it reads an attribute of the status
    value. *)
Definition get_animation_status_endpoint (settings : Settings)
    (net : Providers) (request : AnimationStatusRequest) (db : Db)
    : result AnimationStatusResponse :=
  if negb (nonempty (task_id request))
  then Raise (UnboundLocalError
                "cannot access local variable 'status' where it is not associated with a value")
  else
    let default_provider := if USE_HEYGEN settings then "heygen" else "d-id" in
    let provider :=
      match provider request with
      | Some p => if nonempty p then p else default_provider
      | None => default_provider
      end in
    media_id ← AnimationStatusRequest_getattr request "media_id";
    let video_id := resolve_video_id db request media_id in
    match AiTasks.get_animation_status settings net provider video_id with
    | Ok status_result =>
        match status_response (task_id request) provider status_result with
        | Ok response => Ok response
        | Raise (ValueError _) =>
            Raise (AttributeError
                     "object has no attribute 'HTTP_400_BAD_REQUEST'")
        | Raise e =>
            Ok (mkAnimationStatusResponse (task_id request) "error" None
                  (Some ("Error checking animation status: " +:+ str_exn e))
                  provider)
        end
    | Raise (ValueError _) =>
        Raise (UnboundLocalError
                 "cannot access local variable 'status' where it is not associated with a value")
    | Raise e =>
        Ok (mkAnimationStatusResponse (task_id request) "error" None
              (Some ("Error checking animation status: " +:+ str_exn e))
              provider)
    end.

(** The test of lines 211-216 and 237-242: a non-blank embedding id. *)
Definition has_embedding (embedding_id : option string) : bool :=
  match embedding_id with
  | Some s => nonempty (Str.strip s)
  | None => false
  end.

(** What the request has changed outside the relational store. *)
Record effects : Type := mkEffects {
  eff_vdb : VectorDb;
  eff_fs : Fs;
  eff_calls : list call
}.

(** The backfill loop of lines 235-261 over [all_memories]: the memories
    with the embedding ids set on them, the vector store, the calls made
    and the number of embeddings created. *)
Fixpoint backfill (settings : Settings) (net : Providers) (memorial_id : Z)
    (all_memories : list Memory.t) (vdb : VectorDb)
    : list Memory.t * VectorDb * list call * Z :=
  match all_memories with
  | [] => ([], vdb, [], 0)
  | memory :: rest =>
      let '(memory, vdb, calls, created) :=
        if has_embedding (Memory.embedding_id memory)
        then (memory, vdb, [], 0)
        else
          match AiTasks.get_embedding settings net (Memory.content memory) with
          | (Raise _, calls) => (memory, vdb, calls, 0)
          | (Ok embedding, calls) =>
              match AiTasks.upsert_memory_embedding settings (Memory.id memory)
                      memorial_id (Memory.content memory) embedding
                      (Memory.title memory) vdb with
              | (Raise _, vdb) => (memory, vdb, calls, 0)
              | (Ok vector_id, vdb) =>
                  (Memory.mk (Memory.id memory) (Memory.memorial_id memory)
                     (Memory.title memory) (Memory.content memory)
                     (Some vector_id) (Memory.source memory)
                     (Memory.created_at memory) (Memory.updated_at memory),
                   vdb, calls ++ [UpsertCall vector_id], 1)
              end
          end in
      let '(rest, vdb, calls', created') :=
        backfill settings net memorial_id rest vdb in
      (memory :: rest, vdb, calls ++ calls', created + created')
  end.

(** The commit of line 265: the embedding ids set by the backfill are
    written, with [updated_at] on the rows that changed. *)
Definition commit_backfill (now : datetime) (before after : list Memory.t)
    (rows : list Memory.t) : list Memory.t :=
  fold_left
    (fun rows (ba : Memory.t * Memory.t) =>
       if bool_decide (Memory.embedding_id (fst ba) = Memory.embedding_id (snd ba))
       then rows
       else Embeddings.update_embedding_id now (Memory.id (snd ba))
              (Memory.embedding_id (snd ba)) rows)
    (combine before after) rows.

Definition no_information_yet : string :=
  "У меня пока нет информации об этом человеке. Пожалуйста, добавьте воспоминания, чтобы я мог отвечать на вопросы.".

Definition no_information_on_topic : string :=
  "У меня нет информации на эту тему.".

(** The [try] block of lines 304-412. *)
Definition answer_question (settings : Settings) (net : Providers)
    (hash : string -> Z) (request : AvatarChatRequest) (memorial : Memorial.t)
    (db : Db) (eff : effects) : result AvatarChatResponse * effects :=
  match AiTasks.get_embedding settings net (question request) with
  | (Raise e, calls) =>
      (Raise e, mkEffects (eff_vdb eff) (eff_fs eff) (eff_calls eff ++ calls))
  | (Ok question_embedding, calls) =>
      let similar_memories :=
        AiTasks.search_similar_memories settings net (acr_memorial_id request)
          question_embedding 5 (2 # 10) (eff_vdb eff) in
      let calls := eff_calls eff ++ calls ++ [SearchCall (acr_memorial_id request)] in
      match similar_memories with
      | [] => (Ok (mkAvatarChatResponse no_information_on_topic None []),
               mkEffects (eff_vdb eff) (eff_fs eff) calls)
      | _ =>
          let context_chunks :=
            flat_map
              (fun mem =>
                 if negb (AiTasks.hit_memory_id mem =? 0)
                 then
                   match List.find (fun m => Memory.id m =? AiTasks.hit_memory_id mem)
                           (memories db) with
                   | Some memory =>
                       [AiTasks.mkChunk (Memory.content memory)
                          (Some (Memory.id memory)) (AiTasks.hit_score mem)
                          (default "" (Memory.title memory))]
                   | None => []
                   end
                 else if nonempty (AiTasks.hit_text mem)
                 then [AiTasks.mkChunk (AiTasks.hit_text mem)
                         (Some (AiTasks.hit_memory_id mem)) (AiTasks.hit_score mem)
                         (AiTasks.hit_title mem)]
                 else [])
              similar_memories in
          match context_chunks with
          | [] => (Ok (mkAvatarChatResponse no_information_on_topic None []),
                   mkEffects (eff_vdb eff) (eff_fs eff) calls)
          | _ =>
              match AiTasks.generate_rag_response settings net (question request)
                      context_chunks (Some (Memorial.name memorial)) with
              | (Raise e, calls') =>
                  (Raise e, mkEffects (eff_vdb eff) (eff_fs eff) (calls ++ calls'))
              | (Ok (answer, source_ids), calls') =>
                  let sources :=
                    flat_map
                      (fun c =>
                         match AiTasks.chunk_memory_id c with
                         | Some i =>
                             if i =? 0 then []
                             else ["Воспоминание #" +:+ str_int i
                                   +:+ (if nonempty (AiTasks.chunk_title c)
                                        then ": " +:+ AiTasks.chunk_title c
                                        else "")]
                         | None => []
                         end)
                      context_chunks in
                  let calls := calls ++ calls' in
                  if include_audio request
                  then
                    let voice_id :=
                      match Memorial.voice_id memorial with
                      | Some v => if nonempty v then v else ELEVENLABS_VOICE_ID settings
                      | None => ELEVENLABS_VOICE_ID settings
                      end in
                    match elevenlabs_speech net answer voice_id with
                    | Raise _ =>
                        (Ok (mkAvatarChatResponse answer None sources),
                         mkEffects (eff_vdb eff) (eff_fs eff)
                           (calls ++ [SpeechCall answer]))
                    | Ok audio_bytes =>
                        let audio_filename :=
                          "chat_" +:+ str_int (acr_memorial_id request) +:+ "_"
                          +:+ str_int (hash (question request)) +:+ ".mp3" in
                        let audio_path := "uploads/audio/" +:+ audio_filename in
                        let audio_url :=
                          if USE_S3 settings
                          then "s3://" +:+ S3_BUCKET_NAME settings +:+ "/audio/"
                               +:+ audio_filename
                          else "/api/v1/media/audio/" +:+ audio_filename in
                        (Ok (mkAvatarChatResponse answer (Some audio_url) sources),
                         mkEffects (eff_vdb eff)
                           (<[audio_path := audio_bytes]> (eff_fs eff))
                           (calls ++ [SpeechCall answer]))
                    end
                  else (Ok (mkAvatarChatResponse answer None sources),
                        mkEffects (eff_vdb eff) (eff_fs eff) calls)
              end
          end
      end
  end.

(** POST /ai/avatar/chat (status 200). *)
Definition avatar_chat (settings : Settings) (net : Providers)
    (hash : string -> Z) (now : datetime) (request : AvatarChatRequest)
    (db : Db) (eff : effects) : result AvatarChatResponse * Db * effects :=
  match Family.memorial_by_id db (acr_memorial_id request) with
  | None => (Raise (HTTPException 404 "Memorial not found"), db, eff)
  | Some memorial =>
      let all_memories :=
        List.filter (fun m => Memory.memorial_id m =? acr_memorial_id request)
          (memories db) in
      match all_memories with
      | [] => (Ok (mkAvatarChatResponse no_information_yet None []), db, eff)
      | _ =>
          let memories_with_embeddings :=
            List.filter (fun m => has_embedding (Memory.embedding_id m))
              all_memories in
          let '(memories_with_embeddings, all_memories', db, eff) :=
            if (length memories_with_embeddings <? length all_memories)%nat
            then
              let '(updated, vdb, calls, created) :=
                backfill settings net (acr_memorial_id request) all_memories
                  (eff_vdb eff) in
              let eff := mkEffects vdb (eff_fs eff) (eff_calls eff ++ calls) in
              if created >? 0
              then
                (List.filter
                   (fun m => Embeddings.some_nonempty (Memory.embedding_id m))
                   updated,
                 updated,
                 Embeddings.set_memories db
                   (commit_backfill now all_memories updated (memories db)),
                 eff)
              else (memories_with_embeddings, updated, db, eff)
            else (memories_with_embeddings, all_memories, db, eff) in
          match memories_with_embeddings with
          | [] =>
              let total_count := Z.of_nat (length all_memories') in
              let without_embeddings := total_count - 0 in
              (Ok (mkAvatarChatResponse
                     ("Воспоминания добавлены (" +:+ str_int total_count
                      +:+ "), но embeddings еще не созданы ("
                      +:+ str_int without_embeddings +:+ " без embeddings)."
                      +:+ (if without_embeddings >? 0
                           then " Пожалуйста, подождите несколько секунд и попробуйте снова. Если проблема сохраняется, проверьте логи сервера."
                           else ""))
                     None []),
               db, eff)
          | _ =>
              match answer_question settings net hash request memorial db eff with
              | (Ok response, eff) => (Ok response, db, eff)
              | (Raise e, eff) =>
                  (Raise (HTTPException 500
                            ("Error processing chat request: " +:+ str_exn e)),
                   db, eff)
              end
          end
      end
  end.

End Ai.

(** ** The task queue and the event loop *)

(** The two tasks of [workers/worker.py], as [.delay(...)] sends them. *)
Inductive task : Type :=
| AnimatePhotoTask (media_id : Z) (image_url : string) (script : option string)
| CreateMemoryEmbeddingTask (memory_id memorial_id : Z) (text : string).

(** The broker of the Celery application: the text of the connection error
    when it cannot be reached, and the tasks sent so far with their ids. *)
Record Broker : Type := mkBroker {
  broker_down : option string;
  queued : list (string * task)
}.

(** [some_task.delay(...)]: the task is sent and its id returned, or the
    connection error of the broker is raised. [task_id] is the id that
    Celery draws for the task. *)
Definition delay (task_id : string) (t : task) (broker : Broker)
    : result string * Broker :=
  match broker_down broker with
  | Some msg => (Raise (ConnectionError msg), broker)
  | None => (Ok task_id, mkBroker None (queued broker ++ [(task_id, t)]))
  end.

(** The test the handlers make on [str(e)] of a failed [.delay]. *)
Definition looks_like_broker_error (with_operational_error : bool)
    (error_msg : string) : bool :=
  Str.contains error_msg "Connection refused"
  || Str.contains (Str.lower error_msg) "redis"
  || (with_operational_error && Str.contains error_msg "OperationalError").

(** [asyncio.run(coro)] called from an [async def] handler. The handler
    runs inside the event loop of the server, and [asyncio.run] refuses to
    start when a loop is running in the thread: it raises [RuntimeError]
    with the message below and the coroutine is never started. The
    exception is always caught on the spot by the handlers, which use its
    text only, so the outcome is that text and the untouched state. *)
Definition asyncio_run_error : string :=
  "asyncio.run() cannot be called from a running event loop".

Definition asyncio_run_in_handler {S A : Type} (coroutine : S -> A * S) (s : S)
    : (string + A) * S :=
  (inl asyncio_run_error, s).

(** ** api/memorials.py: memorials and memories *)

Record MemorialCreate : Type := mkMemorialCreate {
  mc_name : string;
  mc_description : option string;
  mc_birth_date : option datetime;
  mc_death_date : option datetime;
  mc_is_public : bool
}.

(** [MemorialDetailResponse]: the memorial with its media and memories. *)
Record MemorialDetail : Type := mkMemorialDetail {
  md_memorial : Memorial.t;
  md_media : list Media.t;
  md_memories : list Memory.t
}.

Record MemoryCreate : Type := mkMemoryCreate {
  mec_title : option string;
  mec_content : string
}.

(** [MemoryUpdate]: for each field, [None] when the request does not
    carry it ([exclude_unset]), otherwise the value sent, which may be
    null. *)
Record MemoryUpdate : Type := mkMemoryUpdate {
  mu_title : option (option string);
  mu_content : option (option string)
}.

Module MemorialApi.

Definition set_memorials (db : Db) (rows : list Memorial.t) : Db :=
  mkDb rows (media db) (memories db) (family_relationships db).

(** POST /memorials/ (status 201); [owner_id] is 1 unless given. *)
Definition create_memorial (now : datetime) (memorial : MemorialCreate)
    (owner_id : Z) (db : Db) : Memorial.t * Db :=
  let db_memorial :=
    Memorial.mk (next_id (map Memorial.id (memorials db)))
      (mc_name memorial) (mc_description memorial) (mc_birth_date memorial)
      (mc_death_date memorial) owner_id (mc_is_public memorial) None now None in
  (db_memorial, set_memorials db (memorials db ++ [db_memorial])).

(** GET /memorials/{memorial_id}. *)
Definition get_memorial (memorial_id : Z) (db : Db) : result MemorialDetail :=
  match Family.memorial_by_id db memorial_id with
  | None => Raise (HTTPException 404 "Memorial not found")
  | Some memorial =>
      Ok (mkMemorialDetail memorial
            (List.filter (fun m => Media.memorial_id m =? Memorial.id memorial)
               (media db))
            (List.filter (fun m => Memory.memorial_id m =? Memorial.id memorial)
               (memories db)))
  end.

(** GET /memorials/{memorial_id}/memories. *)
Definition get_memorial_memories (memorial_id : Z) (db : Db)
    : result (list Memory.t) :=
  match Family.memorial_by_id db memorial_id with
  | None => Raise (HTTPException 404 "Memorial not found")
  | Some memorial =>
      Ok (List.filter (fun m => Memory.memorial_id m =? Memorial.id memorial)
            (memories db))
  end.

(** The state a memory handler works on besides the store. *)
Record outside : Type := mkOutside {
  out_broker : Broker;
  out_vdb : VectorDb
}.

(** The UPDATE that [db.commit()] sends for a memory whose title or
    content was set; [updated_at] is set by the column's [onupdate]. *)
Definition update_memory_row (now : datetime) (memory_id : Z)
    (title : option string) (content : string)
    (rows : list Memory.t) : list Memory.t :=
  map (fun m =>
         if Memory.id m =? memory_id
         then Memory.mk (Memory.id m) (Memory.memorial_id m) title content
                (Memory.embedding_id m) (Memory.source m) (Memory.created_at m)
                (Some now)
         else m)
      rows.

(** The coroutine [create_embedding_sync] / [recreate_embedding]: embed the
    content, store the vector, write the id on the row. *)
Definition embed_memory_now (settings : Settings) (net : Providers)
    (now : datetime) (memorial_id : Z) (db_memory : Memory.t)
    (st : Db * VectorDb) : result unit * (Db * VectorDb) :=
  let '(db, vdb) := st in
  match fst (AiTasks.get_embedding settings net (Memory.content db_memory)) with
  | Raise e => (Raise e, st)
  | Ok embedding =>
      match AiTasks.upsert_memory_embedding settings (Memory.id db_memory)
              memorial_id (Memory.content db_memory) embedding
              (Memory.title db_memory) vdb with
      | (Raise e, vdb) => (Raise e, (db, vdb))
      | (Ok vector_id, vdb) =>
          (Ok tt,
           (Embeddings.set_memories db
              (Embeddings.update_embedding_id now (Memory.id db_memory)
                 (Some vector_id) (memories db)),
            vdb))
      end
  end.

(** POST /memorials/{memorial_id}/memories (status 201). [task_id] is the
    id Celery draws if the task is sent. *)
Definition create_memory (settings : Settings) (net : Providers)
    (now : datetime) (task_id : string) (memorial_id : Z) (memory : MemoryCreate)
    (db : Db) (out : outside) : result Memory.t * Db * outside :=
  match Family.memorial_by_id db memorial_id with
  | None => (Raise (HTTPException 404 "Memorial not found"), db, out)
  | Some memorial =>
      let db_memory :=
        Memory.mk (next_id (map Memory.id (memories db))) memorial_id
          (mec_title memory) (mec_content memory) None (Some "user") now None in
      let db := Embeddings.set_memories db (memories db ++ [db_memory]) in
      match delay task_id
              (CreateMemoryEmbeddingTask (Memory.id db_memory) memorial_id
                 (Memory.content db_memory))
              (out_broker out) with
      | (Ok _, broker) => (Ok db_memory, db, mkOutside broker (out_vdb out))
      | (Raise e, broker) =>
          if looks_like_broker_error true (str_exn e)
          then
            let '(_, (db, vdb)) :=
              asyncio_run_in_handler
                (embed_memory_now settings net now memorial_id db_memory)
                (db, out_vdb out) in
            (Ok db_memory, db, mkOutside broker vdb)
          else (Ok db_memory, db, mkOutside broker (out_vdb out))
      end
  end.

Definition memory_of (db : Db) (memorial_id memory_id : Z) : option Memory.t :=
  List.find (fun m => (Memory.id m =? memory_id)
                      && (Memory.memorial_id m =? memorial_id))
    (memories db).

(** PATCH /memorials/{memorial_id}/memories/{memory_id}. A null [content]
    violates the column's NOT NULL at the commit. *)
Definition update_memory (settings : Settings) (net : Providers)
    (now : datetime) (task_id : string) (memorial_id memory_id : Z)
    (memory_update : MemoryUpdate) (db : Db) (out : outside)
    : result Memory.t * Db * outside :=
  match Family.memorial_by_id db memorial_id with
  | None => (Raise (HTTPException 404 "Memorial not found"), db, out)
  | Some memorial =>
  match memory_of db memorial_id memory_id with
  | None => (Raise (HTTPException 404 "Memory not found"), db, out)
  | Some db_memory =>
      let old_content := Memory.content db_memory in
      let content_changed :=
        match mu_content memory_update with
        | Some value => negb (bool_decide (value = Some old_content))
        | None => false
        end in
      let title := default (Memory.title db_memory) (mu_title memory_update) in
      match default (Some old_content) (mu_content memory_update) with
      | None =>
          (Raise (IntegrityError "NOT NULL constraint failed: memories.content"),
           db, out)
      | Some content =>
          let dirty :=
            negb (bool_decide (title = Memory.title db_memory))
            || negb (bool_decide (content = old_content)) in
          let db :=
            if dirty
            then Embeddings.set_memories db
                   (update_memory_row now (Memory.id db_memory) title content
                      (memories db))
            else db in
          let db_memory :=
            if dirty
            then Memory.mk (Memory.id db_memory) (Memory.memorial_id db_memory)
                   title content (Memory.embedding_id db_memory)
                   (Memory.source db_memory) (Memory.created_at db_memory)
                   (Some now)
            else db_memory in
          if content_changed
          then
            let '(failure, db, out) :=
              if Embeddings.some_nonempty (Memory.embedding_id db_memory)
              then
                match asyncio_run_in_handler
                        (AiTasks.delete_memory_embedding settings memory_id
                           memorial_id)
                        (out_vdb out) with
                | (inl error_msg, vdb) =>
                    (Some error_msg, db, mkOutside (out_broker out) vdb)
                | (inr _, vdb) =>
                    match delay task_id
                            (CreateMemoryEmbeddingTask (Memory.id db_memory)
                               memorial_id (Memory.content db_memory))
                            (out_broker out) with
                    | (Ok _, broker) => (None, db, mkOutside broker vdb)
                    | (Raise e, broker) =>
                        (Some (str_exn e), db, mkOutside broker vdb)
                    end
                end
              else
                match delay task_id
                        (CreateMemoryEmbeddingTask (Memory.id db_memory)
                           memorial_id (Memory.content db_memory))
                        (out_broker out) with
                | (Ok _, broker) => (None, db, mkOutside broker (out_vdb out))
                | (Raise e, broker) =>
                    (Some (str_exn e), db, mkOutside broker (out_vdb out))
                end in
            match failure with
            | Some error_msg =>
                if looks_like_broker_error false error_msg
                then
                  let '(_, (db, vdb)) :=
                    asyncio_run_in_handler
                      (embed_memory_now settings net now memorial_id db_memory)
                      (db, out_vdb out) in
                  (Ok db_memory, db, mkOutside (out_broker out) vdb)
                else (Ok db_memory, db, out)
            | None => (Ok db_memory, db, out)
            end
          else (Ok db_memory, db, out)
      end
  end
  end.

(** DELETE /memorials/{memorial_id}/memories/{memory_id} (status 204). *)
Definition delete_memory (settings : Settings) (memorial_id memory_id : Z)
    (db : Db) (out : outside) : result unit * Db * outside :=
  match Family.memorial_by_id db memorial_id with
  | None => (Raise (HTTPException 404 "Memorial not found"), db, out)
  | Some memorial =>
  match memory_of db memorial_id memory_id with
  | None => (Raise (HTTPException 404 "Memory not found"), db, out)
  | Some db_memory =>
      let out :=
        if Embeddings.some_nonempty (Memory.embedding_id db_memory)
        then
          let '(_, vdb) :=
            asyncio_run_in_handler
              (AiTasks.delete_memory_embedding settings memory_id memorial_id)
              (out_vdb out) in
          mkOutside (out_broker out) vdb
        else out in
      (Ok tt,
       Embeddings.set_memories db
         (List.filter (fun m => negb (Memory.id m =? Memory.id db_memory))
            (memories db)),
       out)
  end
  end.

End MemorialApi.

(** ** api/embeddings.py: queueing the embedding task *)

Module EmbeddingsApi.

(** POST /embeddings/memories/{memory_id}/recreate. The [.delay] is not
    guarded: an unreachable broker ends the request with its error. *)
Definition recreate_memory_embedding (task_id : string) (memory_id : Z)
    (db : Db) (broker : Broker) : result json * Broker :=
  match List.find (fun m => Memory.id m =? memory_id) (memories db) with
  | None => (Raise (HTTPException 404 "Memory not found"), broker)
  | Some memory =>
      match delay task_id
              (CreateMemoryEmbeddingTask memory_id (Memory.memorial_id memory)
                 (Memory.content memory))
              broker with
      | (Raise e, broker) => (Raise e, broker)
      | (Ok task_id, broker) =>
          (Ok (JDict [("status", JStr "queued"); ("task_id", JStr task_id);
                      ("message", JStr "Embedding recreation task queued")]),
           broker)
      end
  end.

(** The loop of [recreate_all_memorial_embeddings]; [fresh i] is the id
    Celery draws for the task of the [i]-th memory. *)
Fixpoint queue_all (fresh : nat -> string) (i : nat) (memorial_id : Z)
    (memories : list Memory.t) (broker : Broker) : result (list string) * Broker :=
  match memories with
  | [] => (Ok [], broker)
  | memory :: rest =>
      match delay (fresh i)
              (CreateMemoryEmbeddingTask (Memory.id memory) memorial_id
                 (Memory.content memory))
              broker with
      | (Raise e, broker) => (Raise e, broker)
      | (Ok task_id, broker) =>
          match queue_all fresh (S i) memorial_id rest broker with
          | (Raise e, broker) => (Raise e, broker)
          | (Ok task_ids, broker) => (Ok (task_id :: task_ids), broker)
          end
      end
  end.

(** POST /embeddings/memorials/{memorial_id}/recreate-all. *)
Definition recreate_all_memorial_embeddings (fresh : nat -> string)
    (memorial_id : Z) (db : Db) (broker : Broker) : result json * Broker :=
  match Family.memorial_by_id db memorial_id with
  | None => (Raise (HTTPException 404 "Memorial not found"), broker)
  | Some memorial =>
      let memories :=
        List.filter (fun m => Memory.memorial_id m =? memorial_id) (memories db) in
      match queue_all fresh 0 memorial_id memories broker with
      | (Raise e, broker) => (Raise e, broker)
      | (Ok task_ids, broker) =>
          (Ok (JDict [("status", JStr "queued");
                      ("memorial_id", JInt memorial_id);
                      ("memories_count", JInt (Z.of_nat (length memories)));
                      ("task_ids", JList (map JStr task_ids));
                      ("message",
                       JStr ("Queued " +:+ str_int (Z.of_nat (length memories))
                             +:+ " embedding recreation tasks"))]),
           broker)
      end
  end.

End EmbeddingsApi.

(** ** services/ai_tasks.py: starting an animation *)

(** The settings of [config.py] that only the code below reads. *)
Record UrlSettings : Type := mkUrlSettings {
  PUBLIC_API_URL : string;
  DID_WEBHOOK_URL : string
}.

(** The POST requests of the animation providers. *)
Record Animators : Type := mkAnimators {
  (** [client.post(url, json=payload, headers=...)] *)
  post_json : string -> json -> http_reply;
  (** the multipart POST of image data to [/talking_photo/upload] *)
  post_photo : string -> bytes -> http_reply
}.

Module Animation.

Definition default_script : string := "Hello, I'm here to share memories with you.".

Definition animate_photo_did (settings : Settings) (urls : UrlSettings)
    (anim : Animators) (image_url : string) (script voice_id webhook_url : option string)
    : result json :=
  if negb (nonempty (DID_API_KEY settings))
  then Raise (ValueError "DID_API_KEY not configured")
  else
    let url := DID_API_URL settings +:+ "/talks" in
    let payload :=
      [("source_url", JStr image_url);
       ("script",
        JDict [("type", JStr "text");
               ("input",
                JStr (if Embeddings.some_nonempty script then default "" script
                      else default_script))])]
      ++ (if Embeddings.some_nonempty voice_id
          then [("config", JDict [("voice", JStr (default "" voice_id))])]
          else [])
      ++ (if Embeddings.some_nonempty webhook_url
          then [("webhook", JStr (default "" webhook_url))]
          else if nonempty (DID_WEBHOOK_URL urls)
          then [("webhook", JStr (DID_WEBHOOK_URL urls))]
          else []) in
    match post_json anim url (JDict payload) with
    | RequestError msg => Raise (ValueError ("D-ID API request failed: " +:+ msg))
    | Replied response =>
        if is_success response then json_body response
        else Raise (ValueError ("D-ID API error: "
                                +:+ str_int (status_code response) +:+ " - "
                                +:+ text response))
    end.

(** [upload_photo_to_heygen]: every failure is logged and gives [None]. *)
Definition upload_photo_to_heygen (settings : Settings) (net : Providers)
    (anim : Animators) (image_url : string) : option json :=
  if negb (nonempty (HEYGEN_API_KEY settings)) then None
  else
    match http_get net image_url with
    | RequestError _ => None
    | Replied image_response =>
        if negb (is_success image_response) then None
        else
          let image_data := text image_response in
          let upload_url := HEYGEN_API_URL settings +:+ "/talking_photo/upload" in
          match post_photo anim upload_url image_data with
          | RequestError _ => None
          | Replied upload_response =>
              if status_code upload_response =? 200
              then
                match
                  (result ← json_body upload_response;
                   data ← Py.get result "data" (JDict []);
                   nested ← Py.get data "talking_photo_id" JNull;
                   if Py.truthy nested then Ok nested
                   else Py.get result "talking_photo_id" JNull)
                with
                | Ok talking_photo_id =>
                    if Py.truthy talking_photo_id then Some talking_photo_id
                    else None
                | Raise _ => None
                end
              else None
          end
    end.

Definition animate_photo_heygen (settings : Settings) (net : Providers)
    (anim : Animators) (image_url : string) (script voice_id : option string)
    : result json :=
  if negb (nonempty (HEYGEN_API_KEY settings))
  then Raise (ValueError "HEYGEN_API_KEY not configured")
  else
    let url := HEYGEN_API_URL settings +:+ "/video/generate" in
    let talking_photo_id := upload_photo_to_heygen settings net anim image_url in
    let character_payload :=
      match talking_photo_id with
      | Some talking_photo_id =>
          JDict [("type", JStr "talking_photo");
                 ("talking_photo", JDict [("talking_photo_id", talking_photo_id)])]
      | None =>
          JDict [("type", JStr "talking_photo");
                 ("talking_photo", JDict [("photo_url", JStr image_url)])]
      end in
    let payload :=
      JDict
        [("video_inputs",
          JList
            [JDict
               [("character", character_payload);
                ("voice",
                 JDict
                   [("type", JStr "text");
                    ("input_text",
                     JStr (if Embeddings.some_nonempty script then default "" script
                           else default_script));
                    ("voice_id",
                     JStr (if Embeddings.some_nonempty voice_id
                           then default "" voice_id
                           else if nonempty (ELEVENLABS_VOICE_ID settings)
                           then ELEVENLABS_VOICE_ID settings
                           else "default"))])]]);
         ("dimension", JDict [("width", JInt 1280); ("height", JInt 720)])] in
    match post_json anim url payload with
    | RequestError msg => Raise (ValueError ("HeyGen API request failed: " +:+ msg))
    | Replied response =>
        if is_success response then json_body response
        else Raise (ValueError ("HeyGen API error: "
                                +:+ str_int (status_code response) +:+ " - "
                                +:+ text response))
    end.

(** [animate_photo]: the unified interface. With HeyGen the id of the
    video is looked for in five places of the reply, in this order. *)
Definition animate_photo (settings : Settings) (urls : UrlSettings)
    (net : Providers) (anim : Animators) (image_url : string)
    (script voice_id webhook_url : option string) : result json :=
  if USE_HEYGEN settings
  then
    result ← animate_photo_heygen settings net anim image_url script voice_id;
    video_id ←
      (data ← Py.get result "data" (JDict []);
       v1 ← Py.get data "video_id" JNull;
       if Py.truthy v1 then Ok v1
       else
         data ← Py.get result "data" (JDict []);
         v2 ← Py.get data "id" JNull;
         if Py.truthy v2 then Ok v2
         else
           v3 ← Py.get result "video_id" JNull;
           if Py.truthy v3 then Ok v3
           else
             v4 ← Py.get result "id" JNull;
             if Py.truthy v4 then Ok v4
             else
               data ← Py.get result "data" (JDict []);
               video ← Py.get data "video" (JDict []);
               Py.get video "id" JNull);
    if negb (Py.truthy video_id)
    then Raise (ValueError ("HeyGen API did not return video_id. Response: "
                            +:+ Py.str result))
    else Ok (JDict [("provider", JStr "heygen");
                    ("task_id", video_id);
                    ("status", JStr "processing")])
  else
    result ← animate_photo_did settings urls anim image_url script voice_id webhook_url;
    task_id ← Py.get result "id" JNull;
    status ← Py.get result "status" (JStr "processing");
    Ok (JDict [("provider", JStr "d-id"); ("task_id", task_id); ("status", status)]).

End Animation.

(** ** api/ai.py: starting an animation, uploading a voice *)

Record PhotoAnimateRequest : Type := mkPhotoAnimateRequest {
  par_media_id : Z;
  par_prompt : option string
}.

Record PhotoAnimateResponse : Type := mkPhotoAnimateResponse {
  pa_task_id : string;
  pa_status : string;
  pa_message : string;
  pa_provider : option string
}.

Module AiApi.

(** The UPDATE of [animation_task_id] on a media row. *)
Definition set_animation_task_id (media_id : Z) (task_id : option string)
    (rows : list Media.t) : list Media.t :=
  map (fun m =>
         if Media.id m =? media_id
         then Media.mk (Media.id m) (Media.memorial_id m) (Media.file_path m)
                (Media.file_url m) (Media.file_name m) (Media.file_size m)
                (Media.mime_type m) (Media.media_type m) (Media.thumbnail_path m)
                (Media.is_animated m) task_id (Media.created_at m)
         else m)
      rows.

(** A JSON value written to a string column. *)
Definition as_column (v : json) : option string :=
  match v with
  | JNull => None
  | JStr s => Some s
  | _ => Some (Py.str v)
  end.

(** POST /ai/photo/animate (status 200). [task_id] is the id Celery draws
    if the task is sent. *)
Definition animate_photo (settings : Settings) (urls : UrlSettings)
    (net : Providers) (anim : Animators) (task_id : string)
    (request : PhotoAnimateRequest) (db : Db) (broker : Broker)
    : result PhotoAnimateResponse * Db * Broker :=
  let media_rows := media db in
  match List.find (fun m => Media.id m =? par_media_id request) media_rows with
  | None => (Raise (HTTPException 404 "Media not found"), db, broker)
  | Some media =>
      if negb (bool_decide (Media.media_type media = PHOTO))
      then (Raise (HTTPException 400 "Media is not a photo"), db, broker)
      else if Media.is_animated media
      then (Raise (HTTPException 400 "Photo is already animated"), db, broker)
      else
        let image_url :=
          if USE_S3 settings && Embeddings.some_nonempty (Media.file_url media)
          then default "" (Media.file_url media)
          else
            let public_api_url := PUBLIC_API_URL urls in
            let file_extension :=
              if nonempty (Media.file_name media)
              then
                match Str.from_last_dot (Media.file_name media) with
                | Some from_dot =>
                    let file_extension := "." +:+ Str.lower (Str.tail from_dot) in
                    if Str.mem file_extension [".jpg"; ".jpeg"; ".png"]
                    then file_extension
                    else ".jpg"
                | None => ".jpg"
                end
              else ".jpg" in
            if nonempty public_api_url
            then public_api_url +:+ "/api/v1/media/" +:+ str_int (Media.id media)
                 +:+ file_extension
            else "http://localhost:8000/api/v1/media/" +:+ str_int (Media.id media)
                 +:+ file_extension in
        match delay task_id
                (AnimatePhotoTask (par_media_id request) image_url (par_prompt request))
                broker with
        | (Ok task_id, broker) =>
            let provider := if USE_HEYGEN settings then "heygen" else "d-id" in
            (Ok (mkPhotoAnimateResponse task_id "pending"
                   ("Animation task started with " +:+ provider
                    +:+ ". Check status later.")
                   (Some provider)),
             db, broker)
        | (Raise e, broker) =>
            let error_msg := str_exn e in
            if looks_like_broker_error true error_msg
            then
              let unavailable (error_detail : string) :=
                HTTPException 503
                  ("Redis/Celery worker не запущен. Для анимации фото необходимо запустить Redis и Celery worker. См. документацию. Ошибка: "
                   +:+ Str.take 200 error_detail) in
              match asyncio_run_in_handler
                      (fun st : unit =>
                         (Animation.animate_photo settings urls net anim image_url
                            (par_prompt request) None None, st))
                      tt with
              | (inl error_detail, _) => (Raise (unavailable error_detail), db, broker)
              | (inr (Raise sync_error), _) =>
                  (Raise (unavailable (str_exn sync_error)), db, broker)
              | (inr (Ok result), _) =>
                  match
                    (provider ←
                       Py.get result "provider"
                         (JStr (if USE_HEYGEN settings then "heygen" else "d-id"));
                     task_id ← Py.get result "task_id" JNull;
                     Ok (provider, task_id))
                  with
                  | Raise sync_error =>
                      (Raise (unavailable (str_exn sync_error)), db, broker)
                  | Ok (provider, task_id) =>
                      let db :=
                        if bool_decide (Media.animation_task_id media
                                        = as_column task_id)
                        then db
                        else Memorials.set_media db
                               (set_animation_task_id (Media.id media)
                                  (as_column task_id) media_rows) in
                      match Py.or task_id (JStr "sync") with
                      | JStr task_id =>
                          (Ok (mkPhotoAnimateResponse task_id "processing"
                                 ("Animation started synchronously with "
                                  +:+ Py.str provider
                                  +:+ " (Redis not available). This may take longer.")
                                 None),
                           db, broker)
                      | _ =>
                          (Raise (unavailable
                                    "1 validation error for PhotoAnimateResponse"),
                           db, broker)
                      end
                  end
              end
            else
              (Raise (HTTPException 500
                        ("Ошибка при запуске задачи анимации: "
                         +:+ Str.take 200 error_msg)),
               db, broker)
        end
  end.

Definition set_voice_id (now : datetime) (memorial_id : Z) (voice_id : option string)
    (rows : list Memorial.t) : list Memorial.t :=
  map (fun m =>
         if Memorial.id m =? memorial_id
         then Memorial.mk (Memorial.id m) (Memorial.name m) (Memorial.description m)
                (Memorial.birth_date m) (Memorial.death_date m) (Memorial.owner_id m)
                (Memorial.is_public m) voice_id (Memorial.created_at m) (Some now)
         else m)
      rows.

(** POST /ai/voice/upload (status 200). [hex] is [uuid.uuid4().hex]. The
    sample is written to a temporary file, which is removed again on every
    way out. *)
Definition upload_voice (settings : Settings) (net : Providers) (now : datetime)
    (hex : string) (memorial_id : Z) (audio_file : Memorials.UploadFile)
    (voice_name : option string) (db : Db) (fs : Fs) : result json * Db * Fs :=
  match Family.memorial_by_id db memorial_id with
  | None => (Raise (HTTPException 404 "Memorial not found"), db, fs)
  | Some memorial =>
      if negb (Embeddings.some_nonempty (Memorials.content_type audio_file))
         || negb (Str.startswith (default "" (Memorials.content_type audio_file))
                    "audio/")
      then (Raise (HTTPException 400
                     "File must be an audio file (MP3, WAV, M4A, etc.)"),
            db, fs)
      else
        let voice_dir := "uploads/voices" in
        let file_extension :=
          if nonempty (Str.path_suffix (Memorials.filename audio_file))
          then Str.path_suffix (Memorials.filename audio_file)
          else ".mp3" in
        let temp_filename :=
          "voice_" +:+ str_int memorial_id +:+ "_" +:+ hex +:+ file_extension in
        let temp_path := Memorials.joinpath voice_dir temp_filename in
        let fs := <[temp_path := Memorials.file_contents audio_file]> fs in
        let voice_name_final :=
          if Embeddings.some_nonempty voice_name then default "" voice_name
          else Memorial.name memorial +:+ " Voice" in
        match AiTasks.create_custom_voice_elevenlabs settings net fs temp_path
                voice_name_final
                (Some ("Custom voice for " +:+ Memorial.name memorial)) with
        | Ok voice_id =>
            let db :=
              if bool_decide (Memorial.voice_id memorial = as_column voice_id)
              then db
              else MemorialApi.set_memorials db
                     (set_voice_id now (Memorial.id memorial) (as_column voice_id)
                        (memorials db)) in
            (Ok (JDict [("success", JBool true);
                        ("voice_id", voice_id);
                        ("voice_name", JStr voice_name_final);
                        ("message",
                         JStr ("Голос успешно создан и сохранен для мемориала '"
                               +:+ Memorial.name memorial +:+ "'"))]),
             db, delete temp_path fs)
        | Raise (ValueError msg) =>
            (Raise (HTTPException 400 msg), db, delete temp_path fs)
        | Raise e =>
            (Raise (HTTPException 500
                      ("Error creating custom voice: " +:+ str_exn e)),
             db, delete temp_path fs)
        end
  end.

End AiApi.

(** ** workers/worker.py *)

Module Worker.


(** The UPDATE of a finished animation on a media row. *)
Definition mark_animated (media_id : Z) (video_url : string)
    (rows : list Media.t) : list Media.t :=
  map (fun m =>
         if Media.id m =? media_id
         then Media.mk (Media.id m) (Media.memorial_id m) (Media.file_path m)
                (Some video_url) (Media.file_name m) (Media.file_size m)
                (Media.mime_type m) VIDEO (Media.thumbnail_path m) true None
                (Media.created_at m)
         else m)
      rows.

Definition max_attempts : nat := 120.

(** One pass of the polling loop of [animate_photo_task], inside its
    [try]: [Ok (Some r)] when the task returns [r], [Ok None] when the
    loop goes on after its sleep, [Raise e] for an exception. An error of
    [httpx] is not a [ValueError]; it is given as [ConnectionError]. *)
Definition poll_once (settings : Settings) (tools : Memorials.Tools)
    (net : Providers) (provider task_id : json) (row : Media.t)
    (db : Db) (fs : Fs) : result (option json) * Db * Fs :=
  match
    (status_result ←
       AiTasks.get_animation_status settings net
         (match provider with JStr name => name | _ => Py.str provider end)
         (Py.str task_id);
     status ← Py.get status_result "status" (JStr "");
     status ←
       match status with
       | JStr status => Ok (Str.lower status)
       | _ => Raise (AttributeError
                       ("'" +:+ Py.type_name status
                        +:+ "' object has no attribute 'lower'"))
       end;
     Ok (status_result, status))
  with
  | Raise e => (Raise e, db, fs)
  | Ok (status_result, status) =>
      if Str.mem status ["done"; "completed"; "success"]
      then
        match Py.get status_result "video_url" JNull with
        | Raise e => (Raise e, db, fs)
        | Ok video_url =>
            if Py.truthy video_url
            then
              match video_url with
              | JStr video_url =>
                  match http_get net video_url with
                  | RequestError msg => (Raise (ConnectionError msg), db, fs)
                  | Replied video_response =>
                      if negb (is_success video_response)
                      then (Raise (ConnectionError
                                     ("Client error '"
                                      +:+ str_int (status_code video_response)
                                      +:+ "' for url '" +:+ video_url +:+ "'")),
                            db, fs)
                      else
                        let video_data := text video_response in
                        let video_filename :=
                          Str.path_stem (Media.file_path row) +:+ "_animated.mp4" in
                        let video_path := Memorials.joinpath "uploads" video_filename in
                        let fs := <[video_path := video_data]> fs in
                        let video_url :=
                          if USE_S3 settings
                          then
                            let s3_key :=
                              "memorials/" +:+ str_int (Media.memorial_id row)
                              +:+ "/" +:+ video_filename in
                            if Memorials.s3_upload tools video_data s3_key
                            then "s3://" +:+ S3_BUCKET_NAME settings +:+ "/" +:+ s3_key
                            else video_url
                          else video_url in
                        (Ok (Some (JDict [("status", JStr "completed");
                                          ("video_url", JStr video_url);
                                          ("provider", provider)])),
                         Memorials.set_media db
                           (mark_animated (Media.id row) video_url (media db)),
                         fs)
                  end
              | _ =>
                  (Raise (TypeError
                            ("Invalid type for url. Expected str or httpx.URL, got "
                             +:+ Py.type_name video_url)),
                   db, fs)
              end
            else (Ok None, db, fs)
        end
      else if Str.mem status ["error"; "failed"]
      then
        match Py.get status_result "error" (JStr "Animation failed") with
        | Raise e => (Raise e, db, fs)
        | Ok error_msg =>
            (Ok (Some (JDict [("status", JStr "error");
                              ("message", error_msg);
                              ("provider", provider)])),
             db, fs)
        end
      else (Ok None, db, fs)
  end.

(** The polling loop from pass [attempt] on, [remaining] passes being
    left; [polls i] is the network as pass [i] finds it. *)
Fixpoint poll (settings : Settings) (tools : Memorials.Tools)
    (polls : nat -> Providers) (provider task_id : json) (row : Media.t)
    (remaining attempt : nat) (db : Db) (fs : Fs) : result json * Db * Fs :=
  match remaining with
  | O =>
      (Ok (JDict [("status", JStr "timeout");
                  ("message", JStr "Animation took too long");
                  ("provider", provider)]),
       db, fs)
  | S remaining =>
      match poll_once settings tools (polls attempt) provider task_id row db fs with
      | (Ok (Some returned), db, fs) => (Ok returned, db, fs)
      | (Ok None, db, fs) =>
          poll settings tools polls provider task_id row remaining (S attempt) db fs
      | (Raise e, db, fs) =>
          if (attempt <? max_attempts - 1)%nat
          then poll settings tools polls provider task_id row remaining (S attempt)
                 db fs
          else (Raise e, db, fs)
      end
  end.

(** [animate_photo_task], run once by the Celery worker: [Ok r] when the
    task returns the dict [r], [Raise e] when it asks for a retry with
    [self.retry(exc=e)]. *)
Definition animate_photo_task (settings : Settings) (urls : UrlSettings)
    (tools : Memorials.Tools) (net : Providers) (anim : Animators)
    (polls : nat -> Providers) (media_id : Z) (image_url : string)
    (script : option string) (db : Db) (fs : Fs) : result json * Db * Fs :=
  match List.find (fun m => Media.id m =? media_id) (media db) with
  | None =>
      (Ok (JDict [("status", JStr "error"); ("message", JStr "Media not found")]),
       db, fs)
  | Some row =>
      let outcome :=
        match Animation.animate_photo settings urls net anim image_url script
                None None with
        | Raise e => (Raise e, db, fs)
        | Ok result =>
            match (provider ← Py.get result "provider" JNull;
                   task_id ← Py.get result "task_id" JNull;
                   Ok (provider, task_id)) with
            | Raise e => (Raise e, db, fs)
            | Ok (provider, task_id) =>
                if negb (Py.truthy task_id)
                then (Ok (JDict [("status", JStr "error");
                                 ("message", JStr "Failed to start animation")]),
                      db, fs)
                else
                  let db :=
                    Memorials.set_media db
                      (AiApi.set_animation_task_id (Media.id row)
                         (AiApi.as_column task_id) (media db)) in
                  poll settings tools polls provider task_id row max_attempts 0 db fs
            end
        end in
      match outcome with
      | (Raise (ValueError msg), db, fs) =>
          (Ok (JDict [("status", JStr "error"); ("message", JStr msg)]), db, fs)
      | _ => outcome
      end
  end.

End Worker.

(** ** api/media.py *)

(** A [FileResponse]: the path served, its media type and the file name
    offered for the download. *)
Record FileResponse : Type := mkFileResponse {
  fr_path : string;
  fr_media_type : string;
  fr_filename : string
}.

Module MediaApi.

Definition UPLOAD_DIR : string := "uploads".

Definition is_digit (c : ascii) : bool :=
  let n := nat_of_ascii c in (48 <=? n)%nat && (n <=? 57)%nat.

(** Decimal digits, between which single underscores may stand. *)
Fixpoint well_grouped (after_digit : bool) (s : string) : bool :=
  match s with
  | EmptyString => after_digit
  | String c s' =>
      if is_digit c then well_grouped true s'
      else Ascii.eqb c "_" && after_digit && well_grouped false s'
  end.

Fixpoint without_underscores (s : string) : string :=
  match s with
  | EmptyString => EmptyString
  | String c s' =>
      if Ascii.eqb c "_" then without_underscores s'
      else String c (without_underscores s')
  end.

(** [int(s)] for a string, [None] for its [ValueError]: blanks around are
    dropped, then come an optional sign and the decimal digits. The digits
    and blanks are those of ASCII. *)
Definition int_of_str (s : string) : option Z :=
  let s := Str.strip s in
  let '(negative, digits) :=
    match s with
    | String "-" rest => (true, rest)
    | String "+" rest => (false, rest)
    | _ => (false, s)
    end in
  if well_grouped false digits
  then
    match NilEmpty.uint_of_string (without_underscores digits) with
    | Some d => Some (if negative : bool then - Z.of_uint d else Z.of_uint d)
    | None => None
    end
  else None.

Definition exists_ (fs : Fs) (path : string) : bool :=
  match fs !! path with Some _ => true | None => false end.

(** GET /media/{media_id_path:path}. [guess_type] is
    [mimetypes.guess_type(...)[0]]. *)
Definition get_media_file (guess_type : string -> option string)
    (media_id_path : string) (thumbnail : option string) (db : Db) (fs : Fs)
    : result FileResponse :=
  let media_id_str := hd EmptyString (Str.split "." media_id_path) in
  match int_of_str media_id_str with
  | None => Raise (HTTPException 404 "Invalid media ID")
  | Some media_id =>
      match List.find (fun m => Media.id m =? media_id) (media db) with
      | None => Raise (HTTPException 404 "Media not found")
      | Some media =>
          let file_path := Media.file_path media in
          let original :=
            if negb (exists_ fs file_path)
            then Raise (HTTPException 404 "Media file not found on disk")
            else
              let mime_type :=
                if Embeddings.some_nonempty (Media.mime_type media)
                then default "" (Media.mime_type media)
                else if Embeddings.some_nonempty (guess_type file_path)
                then default "" (guess_type file_path)
                else "application/octet-stream" in
              Ok (mkFileResponse file_path mime_type (Media.file_name media)) in
          if Embeddings.some_nonempty thumbnail
             && bool_decide (Media.media_type media = PHOTO)
          then
            let thumbnail := default "" thumbnail in
            if Str.mem thumbnail ["small"; "medium"; "large"]
            then
              let thumbnail_path :=
                Memorials.joinpath (Memorials.joinpath UPLOAD_DIR "thumbnails")
                  (Str.path_stem file_path +:+ "_" +:+ thumbnail +:+ ".jpg") in
              if exists_ fs thumbnail_path
              then Ok (mkFileResponse thumbnail_path "image/jpeg"
                         (Media.file_name media +:+ "_thumb_" +:+ thumbnail
                          +:+ ".jpg"))
              else original
            else original
          else original
      end
  end.

(** GET /media/audio/{filename}. *)
Definition get_audio_file (filename : string) (fs : Fs) : result FileResponse :=
  let audio_path := Memorials.joinpath (Memorials.joinpath UPLOAD_DIR "audio") filename in
  if negb (exists_ fs audio_path)
  then Raise (HTTPException 404 "Audio file not found")
  else Ok (mkFileResponse audio_path "audio/mpeg" filename).

End MediaApi.

(* ================================================================== *)
(** * The vocabulary of the properties, and sample data *)
(* ================================================================== *)

Section FamilyTerms.
Import Family.

(** The type of the edge written back from [related_memorial_id] to
    [memorial_id]. *)
Definition mirrored_type (t : RelationshipType) : RelationshipType :=
  match t with
  | PARENT => CHILD
  | CHILD => PARENT
  | SPOUSE => SPOUSE
  | SIBLING => SIBLING
  end.

Definition has_edge (db : Db) (m r : Z) (t : RelationshipType) : bool :=
  existsb (same_triple m r t) (family_relationships db).

Definition count_edges (db : Db) (m r : Z) (t : RelationshipType) : nat :=
  length (List.filter (same_triple m r t) (family_relationships db)).

Definition a_memorial (i : Z) (n : string) : Memorial.t :=
  Memorial.mk i n None None None 1 false None 0 None.

Definition db0 : Db :=
  mkDb [a_memorial 1 "Anna"; a_memorial 2 "Boris"; a_memorial 3 "Vera"] [] [] [].

Definition db_parent_1_2 : Db :=
  set_relationships db0
    [FamilyRelationship.mk 1 1 2 PARENT None 7;
     FamilyRelationship.mk 2 2 1 CHILD None 7].

(** The recursion budget [build_tree] needs at depth [depth]: one call for
    each level from [depth] to [max_depth], and the call that returns at
    once beyond it. *)
Definition enough_fuel (max_depth depth : Z) : nat :=
  S (Z.to_nat (max_depth + 1 - depth)).

(** The statement of the specification, with the path length counted over
    the whole returned tree. *)
Definition tree_paths_within_max_depth (db : Db) (memorial_id D : Z) : Prop :=
  forall fuel resp,
    get_family_tree fuel db memorial_id D = Some (Ok resp) ->
    (height (root resp) <= Z.to_nat D)%nat.

Definition db_spouses : Db :=
  set_relationships db0
    [FamilyRelationship.mk 1 1 2 SPOUSE None 7;
     FamilyRelationship.mk 2 2 1 SPOUSE None 7].

(** A store whose child edges form a cycle 1 -> 2 -> 1. *)
Definition db_cycle : Db :=
  set_relationships db0
    [FamilyRelationship.mk 1 1 2 CHILD None 7;
     FamilyRelationship.mk 2 2 1 PARENT None 7;
     FamilyRelationship.mk 3 2 1 CHILD None 7;
     FamilyRelationship.mk 4 1 2 PARENT None 7].

End FamilyTerms.

Section UploadTerms.
Import Memorials.

(** The media type [upload_media] derives from the declared content type. *)
Definition declared_media_type (file : UploadFile) : MediaType :=
  get_media_type_from_mime
    (default "application/octet-stream"
       (match content_type file with
        | Some c => if nonempty c then Some c else None
        | None => None
        end)).

(** The path [upload_media] writes the upload to. *)
Definition upload_path (file_id : string) (file : UploadFile) : string :=
  joinpath UPLOAD_DIR (file_id +:+ "_" +:+ filename file).

(** The three ways an upload is refused inside the [try] block: too large,
    a photo the image library rejects, a video ffprobe cannot validate. *)
Definition fails_validation (settings : Settings) (tools : Tools)
    (file : UploadFile) : Prop :=
  len (file_contents file) > MAX_UPLOAD_SIZE settings
  \/ (len (file_contents file) <= MAX_UPLOAD_SIZE settings
      /\ declared_media_type file = PHOTO
      /\ is_Some (pil_verify tools (file_contents file)))
  \/ (len (file_contents file) <= MAX_UPLOAD_SIZE settings
      /\ declared_media_type file = VIDEO
      /\ ffprobe_installed tools = true
      /\ match ffprobe tools (file_contents file) with
         | None => True
         | Some info => duration info <= 0 \/ width info <= 0 \/ height info <= 0
         end).

(** An image library that refuses every file, and no ffprobe. *)
Definition strict_tools : Tools :=
  mkTools (fun _ => Some "cannot identify image file") (fun _ => None)
    (fun _ _ => None) false (fun _ => None) (fun _ => None)
    (fun _ _ => false) (fun _ => None).

Definition broken_photo : UploadFile :=
  mkUploadFile "portrait.jpg" (Some "image/jpeg") "not a jpeg".

End UploadTerms.

Section VectorStoreTerms.
Import AiTasks.

(** The store of the configured provider. *)
Definition points (settings : Settings) (vdb : VectorDb) : gmap string Point :=
  if String.eqb (VECTOR_DB_PROVIDER settings) "qdrant"
  then qdrant_points vdb else pinecone_vectors vdb.

End VectorStoreTerms.

Section EmbeddingTerms.
Import Embeddings.

(** A memory row after its embedding id was cleared by a commit at [now]. *)
Definition cleared (now : datetime) (m : Memory.t) : Memory.t :=
  Memory.mk (Memory.id m) (Memory.memorial_id m) (Memory.title m)
    (Memory.content m) None (Memory.source m) (Memory.created_at m) (Some now).

(** The same row with nothing but [embedding_id] changed. *)
Definition only_embedding_id_cleared (m : Memory.t) : Memory.t :=
  Memory.mk (Memory.id m) (Memory.memorial_id m) (Memory.title m)
    (Memory.content m) None (Memory.source m) (Memory.created_at m)
    (Memory.updated_at m).

(** The statement of the specification for a successful deletion: the row
    of the memory differs from the old one in [embedding_id] only. *)
Definition deletion_changes_embedding_id_only (settings : Settings)
    (now : datetime) (memory_id : Z) (db : Db) (vdb : VectorDb) : Prop :=
  forall memory response db' vdb',
    List.find (fun m => Memory.id m =? memory_id) (memories db) = Some memory ->
    delete_memory_embedding_endpoint settings now memory_id db vdb
      = (Ok response, db', vdb') ->
    List.find (fun m => Memory.id m =? memory_id) (memories db')
      = Some (only_embedding_id_cleared memory).

Definition db_one_memory : Db :=
  mkDb [a_memorial 1 "Anna"] []
    [Memory.mk 1 1 (Some "Garden") "She loved her garden."
       (Some "19de628f-e627-534c-8da1-b296d06782a9") (Some "user") 3 None]
    [].

End EmbeddingTerms.

Section AiTerms.
Import AiTasks Ai.

(** Providers that cannot be reached and answer nothing. *)
Definition offline : Providers :=
  mkProviders (fun _ => RequestError "connection refused")
    (fun _ _ _ _ _ => RequestError "connection refused")
    (fun _ => Raise (ConnectionError "connection refused"))
    (fun _ _ _ => Raise (ConnectionError "connection refused"))
    (fun _ _ => Raise (ConnectionError "connection refused"))
    (fun _ _ => []).

Definition no_effects : effects := mkEffects (mkVectorDb true ∅ ∅) ∅ [].

Definition settings_with_elevenlabs : Settings :=
  mkSettings "" "" "https://api.d-id.com" "" "https://api.heygen.com/v2" false
    "xi-key" "" "qdrant" "" "" false 104857600
    "jpg,jpeg,png,gif,mp4,mov,mp3,wav,pdf,txt".

(** A provider that accepts every voice sample. *)
Definition voice_provider : Providers :=
  mkProviders (fun _ => RequestError "connection refused")
    (fun _ _ _ _ _ =>
       Replied (mkResponse 200 "{}" (Ok (JDict [("voice_id", JStr "v123")]))))
    (fun _ => Raise (ConnectionError "connection refused"))
    (fun _ _ _ => Raise (ConnectionError "connection refused"))
    (fun _ _ => Raise (ConnectionError "connection refused"))
    (fun _ _ => []).

Definition heygen_status_url (settings : Settings) (task_id : string) : string :=
  HEYGEN_API_URL settings +:+ "/video/" +:+ task_id.

Definition did_status_url (settings : Settings) (task_id : string) : string :=
  DID_API_URL settings +:+ "/talks/" +:+ task_id.

(** The provider answers the status request for [task_id] with a 404. *)
Definition replies_404 (settings : Settings) (net : Providers)
    (provider task_id : string) : Prop :=
  exists response,
    http_get net (if String.eqb provider "heygen"
                  then heygen_status_url settings task_id
                  else did_status_url settings task_id) = Replied response
    /\ status_code response = 404.

Definition video_not_found : string :=
  "Video not found. It may still be processing or the ID is incorrect.".

(** The sentence of the specification about one status request: a 404 of
    the provider gives status processing, and a result whose status is
    processing or pending carries a null error. *)
Definition status_normalized_as_specified (settings : Settings)
    (net : Providers) (provider task_id : string) : Prop :=
  (replies_404 settings net provider task_id ->
   exists video_url error,
     get_animation_status settings net provider task_id
     = Ok (status_dict (JStr "processing") video_url error))
  /\ (forall status video_url error,
        get_animation_status settings net provider task_id
        = Ok (status_dict status video_url error) ->
        status = JStr "processing" \/ status = JStr "pending" ->
        error = JNull).

Definition settings_with_keys : Settings :=
  mkSettings "" "did-key" "https://api.d-id.com" "heygen-key"
    "https://api.heygen.com/v2" false "" "" "qdrant" "" "" false 104857600
    "jpg,jpeg,png,gif,mp4,mov,mp3,wav,pdf,txt".

(** Providers that do not know the video. *)
Definition not_found_provider : Providers :=
  mkProviders
    (fun _ => Replied (mkResponse 404 "Not Found"
                         (Raise (ValueError "Expecting value"))))
    (fun _ _ _ _ _ => RequestError "connection refused")
    (fun _ => Raise (ConnectionError "connection refused"))
    (fun _ _ _ => Raise (ConnectionError "connection refused"))
    (fun _ _ => Raise (ConnectionError "connection refused"))
    (fun _ _ => []).

End AiTerms.

Section FamilyTableTerms.
Import Family.

(** The three columns of [uq_relationship] of a row. *)
Definition triple_of (r : FamilyRelationship.t) : Z * Z * RelationshipType :=
  (FamilyRelationship.memorial_id r, FamilyRelationship.related_memorial_id r,
   FamilyRelationship.relationship_type r).

(** Every edge of the table has its mirrored edge in the table. *)
Definition mirror_closed (rows : list FamilyRelationship.t) : Prop :=
  forall r, In r rows ->
    existsb (same_triple (FamilyRelationship.related_memorial_id r)
               (FamilyRelationship.memorial_id r)
               (mirrored_type (FamilyRelationship.relationship_type r)))
            rows = true.

(** A relationship table as the API keeps it: primary keys are unique, no
    triple occurs twice, and every edge has its mirror. *)
Definition table_ok (rows : list FamilyRelationship.t) : Prop :=
  List.NoDup (map FamilyRelationship.id rows)
  /\ List.NoDup (map triple_of rows)
  /\ mirror_closed rows.

(** [related] is listed among the relationships of type [t] of [memorial_id]. *)
Definition listed (db : Db) (memorial_id : Z) (t : RelationshipType)
    (related : Z) : Prop :=
  exists items item,
    get_relationships memorial_id (Some t) db = Ok items
    /\ In item items
    /\ frr_related_memorial_id item = related.

(** No memorial occurs twice on a path of [children] links below [node],
    nor is one of [seen]. *)
Fixpoint no_repeat (seen : gset Z) (node : FamilyTreeNode) : bool :=
  match node with
  | mkFamilyTreeNode memorial_id _ _ _ _ children _ =>
      negb (bool_decide (memorial_id ∈ seen))
      && forallb (no_repeat ({[memorial_id]} ∪ seen)) children
  end.

Definition node_memorial_id (node : FamilyTreeNode) : Z :=
  match node with mkFamilyTreeNode memorial_id _ _ _ _ _ _ => memorial_id end.

(** The number of nodes of a tree, over [children] and [spouses] links. *)
Fixpoint tree_size (node : FamilyTreeNode) : Z :=
  match node with
  | mkFamilyTreeNode _ _ _ _ _ children spouses =>
      1 + sum_list (map tree_size children) + sum_list (map tree_size spouses)
  end.

End FamilyTableTerms.

Section MemorialApiTerms.

(** Every media row and every memory belongs to a memorial of the store. *)
Definition references_exist (db : Db) : Prop :=
  (forall m, In m (media db) ->
     is_Some (Family.memorial_by_id db (Media.memorial_id m)))
  /\ (forall m, In m (memories db) ->
        is_Some (Family.memorial_by_id db (Memory.memorial_id m))).

(** The rows of the memories table other than those with key [memory_id]. *)
Definition other_memories (memory_id : Z) (db : Db) : list Memory.t :=
  List.filter (fun m => negb (Memory.id m =? memory_id)) (memories db).

Definition broker_up : Broker := mkBroker None [].

Definition broker_unreachable : Broker :=
  mkBroker (Some "Error 111 connecting to localhost:6379. Connection refused.") [].

(** A vector store that holds the point of memory 1 of memorial 1. *)
Definition vdb_one_point : VectorDb :=
  mkVectorDb true
    {[ "26e04f40-009d-51ac-b02d-2d736a77f721" :=
         mkPoint [1; 2] 1 1 "She loved her garden." "Garden" ]}
    ∅.

End MemorialApiTerms.

Section QueueTerms.

(** The embedding tasks of the memories [rows] of a memorial, in order,
    with the ids drawn for them from the [i]-th on. *)
Definition embedding_tasks (fresh : nat -> string) (i : nat) (memorial_id : Z)
    (rows : list Memory.t) : list (string * task) :=
  imap (fun j m =>
          (fresh (i + j)%nat,
           CreateMemoryEmbeddingTask (Memory.id m) memorial_id (Memory.content m)))
    rows.


Definition settings_with_openai : Settings :=
  mkSettings "sk-key" "" "https://api.d-id.com" "" "https://api.heygen.com/v2" false
    "" "" "qdrant" "" "" false 104857600
    "jpg,jpeg,png,gif,mp4,mov,mp3,wav,pdf,txt".



Definition db_two_memories : Db :=
  mkDb [a_memorial 1 "Anna"; a_memorial 2 "Boris"] []
    [Memory.mk 1 1 (Some "Garden") "She loved her garden." None (Some "user") 3 None;
     Memory.mk 2 2 None "He built boats." None (Some "user") 4 None;
     Memory.mk 3 1 None "She sang in a choir." None (Some "user") 5 None]
    [].

End QueueTerms.

Section MediaTerms.

(** Every character of [s] satisfies [p]. *)
Fixpoint all_chars (p : ascii -> bool) (s : string) : bool :=
  match s with
  | EmptyString => true
  | String c s' => p c && all_chars p s'
  end.

(** A character of [str(n)]: a digit or the sign. *)
Definition decimal (c : ascii) : bool := MediaApi.is_digit c || Ascii.eqb c "-".

Definition db_photo : Db :=
  mkDb [a_memorial 1 "Anna"]
    [Media.mk 1 1 "uploads/ab12_portrait.JPG" None "portrait.JPG" (Some 9)
       (Some "image/jpeg") PHOTO None false None 3]
    [] [].

Definition fs_photo : Fs :=
  {[ "uploads/ab12_portrait.JPG" := "JFIF-data";
     "uploads/thumbnails/ab12_portrait_small.jpg" := "JFIF-small" ]}.

Definition public_urls : UrlSettings := mkUrlSettings "https://memorial.example" "".

Definition no_animators : Animators :=
  mkAnimators (fun _ _ => RequestError "connection refused")
    (fun _ _ => RequestError "connection refused").

Definition no_guess : string -> option string := fun _ => None.

(** Providers for a chat with speech: every text is embedded, the store
    ranks the point of memory 1 of memorial 1 first, the chat model and
    the speech service answer. *)
Definition chat_providers : Providers :=
  mkProviders (fun _ => RequestError "connection refused")
    (fun _ _ _ _ _ => RequestError "connection refused")
    (fun _ => Ok [3; 4])
    (fun _ _ _ => Ok "She loved her garden.")
    (fun _ _ => Ok "ID3-data")
    (fun _ _ => [("26e04f40-009d-51ac-b02d-2d736a77f721", 9 # 10)]).

End MediaTerms.

Section AnimationTerms.


(** The media row [row] once its animation is finished with [video_url]. *)
Definition animated_row (row : Media.t) (video_url : string) : Media.t :=
  Media.mk (Media.id row) (Media.memorial_id row) (Media.file_path row)
    (Some video_url) (Media.file_name row) (Media.file_size row)
    (Media.mime_type row) VIDEO (Media.thumbnail_path row) true None
    (Media.created_at row).

(** The rows of the media table other than those with key [media_id]. *)
Definition other_media (media_id : Z) (db : Db) : list Media.t :=
  List.filter (fun m => negb (Media.id m =? media_id)) (media db).

(** A D-ID service that accepts the talk [tlk_1] ... *)
Definition did_animators : Animators :=
  mkAnimators
    (fun _ _ =>
       Replied (mkResponse 201 "created"
                  (Ok (JDict [("id", JStr "tlk_1"); ("status", JStr "created")]))))
    (fun _ _ => RequestError "connection refused").

(** ... and reports it done at once; every other URL is the video. *)
Definition did_polls : nat -> Providers :=
  fun _ =>
    mkProviders
      (fun url =>
         if String.eqb url "https://api.d-id.com/talks/tlk_1"
         then Replied (mkResponse 200 "done"
                         (Ok (JDict [("status", JStr "done");
                                     ("result_url", JStr "https://cdn.example/v.mp4")])))
         else Replied (mkResponse 200 "MP4-data" (Raise (ValueError "not JSON"))))
      (fun _ _ _ _ _ => RequestError "connection refused")
      (fun _ => Raise (ConnectionError "connection refused"))
      (fun _ _ _ => Raise (ConnectionError "connection refused"))
      (fun _ _ => Raise (ConnectionError "connection refused"))
      (fun _ _ => []).

End AnimationTerms.

(* ================================================================== *)
(** * Properties *)
(* ================================================================== *)

(** ** Family relationships *)

Section FamilyFacts.
Import Family.

(** *** Primary keys *)

Lemma fold_max_ge (i : Z) (l : list Z) :
  i <= fold_right Z.max i l /\ Forall (fun j => j <= fold_right Z.max i l) l.
Proof.
  induction l as [|j l [IH1 IH2]]; cbn [fold_right].
  - split; [lia | constructor].
  - split; [lia|]. constructor; [lia|].
    eapply List.Forall_impl; [|exact IH2]. cbn. intros; lia.
Qed.

Lemma next_id_above (ids : list Z) : Forall (fun j => j < next_id ids) ids.
Proof.
  destruct ids as [|i l]; [constructor|]. unfold next_id.
  destruct (fold_max_ge i l) as [H1 H2]. constructor; [lia|].
  eapply List.Forall_impl; [|exact H2]. cbn. intros; lia.
Qed.

Lemma fold_max_snoc (i : Z) (l : list Z) (n : Z) :
  fold_right Z.max i l < n -> fold_right Z.max i (l ++ [n]) = n.
Proof.
  revert n. induction l as [|j l IH]; intros n Hn; cbn [fold_right app] in *.
  - lia.
  - rewrite IH by lia. lia.
Qed.

Lemma next_id_snoc (ids : list Z) :
  next_id (ids ++ [next_id ids]) = next_id ids + 1.
Proof.
  destruct ids as [|i l]; [reflexivity|].
  cbn [next_id app]. rewrite fold_max_snoc; [reflexivity | lia].
Qed.

(** *** Queries over a table *)

Lemma find_none_existsb {A : Type} (f : A -> bool) (l : list A) :
  List.find f l = None <-> existsb f l = false.
Proof.
  induction l as [|a l IH]; cbn; [tauto|].
  destruct (f a); cbn; [split; discriminate | exact IH].
Qed.

Lemma find_app_none {A : Type} (f : A -> bool) (l l' : list A) :
  existsb f l = false -> List.find f (l ++ l') = List.find f l'.
Proof.
  induction l as [|a l IH]; cbn; [reflexivity|].
  destruct (f a); cbn; [discriminate | exact IH].
Qed.

Lemma filter_none {A : Type} (f : A -> bool) (l : list A) :
  existsb f l = false -> List.filter f l = [].
Proof.
  induction l as [|a l IH]; cbn; [reflexivity|].
  destruct (f a); cbn; [discriminate | exact IH].
Qed.

Lemma filter_all {A : Type} (f : A -> bool) (l : list A) :
  Forall (fun a => f a = true) l -> List.filter f l = l.
Proof.
  induction 1 as [|a l Ha _ IH]; cbn; [reflexivity|].
  rewrite Ha, IH. reflexivity.
Qed.

Lemma ids_below_not_found (rows : list FamilyRelationship.t) (n : Z) :
  next_id (map FamilyRelationship.id rows) <= n ->
  existsb (fun r => FamilyRelationship.id r =? n) rows = false.
Proof.
  intros Hn. pose proof (next_id_above (map FamilyRelationship.id rows)) as H.
  rewrite List.Forall_map in H.
  induction H as [|r l Hr _ IH]; cbn; [reflexivity|].
  cbn in Hr. rewrite IH. replace (FamilyRelationship.id r =? n) with false; [reflexivity|].
  symmetry. apply Z.eqb_neq. lia.
Qed.

(** *** The rows written by [create_relationship] *)

Lemma same_triple_mk i m r t n c m' r' t' :
  same_triple m' r' t' (FamilyRelationship.mk i m r t n c)
  = (m =? m') && (r =? r') && bool_decide (t = t').
Proof. reflexivity. Qed.

Lemma set_relationships_same (db : Db) :
  set_relationships db (family_relationships db) = db.
Proof. destruct db; reflexivity. Qed.

Lemma set_relationships_twice (db : Db) rows rows' :
  set_relationships (set_relationships db rows) rows' = set_relationships db rows'.
Proof. reflexivity. Qed.

(** What a successful creation is: both memorials are there, they differ,
    neither the edge nor its mirror was in the table, and the table grows
    by exactly these two rows, numbered consecutively. *)
Lemma create_relationship_ok now A B t notes db resp db' :
  create_relationship now A (mkFamilyRelationshipCreate B t notes) db
    = (Ok resp, db') ->
  let n := next_id (map FamilyRelationship.id (family_relationships db)) in
  A <> B
  /\ has_edge db A B t = false
  /\ has_edge db B A (mirrored_type t) = false
  /\ frr_id resp = n
  /\ db' = set_relationships db
             (family_relationships db
              ++ [FamilyRelationship.mk n A B t notes now;
                  FamilyRelationship.mk (n + 1) B A (mirrored_type t) notes now]).
Proof.
  unfold create_relationship. cbn [frc_related_memorial_id frc_relationship_type frc_notes].
  destruct (memorial_by_id db A) as [mA|]; [|discriminate].
  destruct (memorial_by_id db B) as [mB|]; [|discriminate].
  destruct (A =? B) eqn:HAB; [discriminate|]. apply Z.eqb_neq in HAB.
  destruct (List.find _ _) eqn:Hdup; [discriminate|].
  apply find_none_existsb in Hdup.
  set (rows := family_relationships db) in *.
  assert (Hrev : (match t with
                  | PARENT => mkPending B A CHILD notes
                  | CHILD => mkPending B A PARENT notes
                  | SPOUSE => mkPending B A SPOUSE notes
                  | SIBLING => mkPending B A SIBLING notes
                  end) = mkPending B A (mirrored_type t) notes)
    by (destruct t; reflexivity).
  rewrite Hrev. clear Hrev.
  cbn [flush p_memorial_id p_related_memorial_id p_relationship_type p_notes].
  rewrite Hdup.
  rewrite existsb_app. cbn [existsb]. rewrite same_triple_mk.
  replace (A =? B) with false by (symmetry; apply Z.eqb_neq; lia).
  cbn [andb orb]. rewrite orb_false_r.
  destruct (existsb (same_triple B A (mirrored_type t)) rows) eqn:Hmir; [discriminate|].
  rewrite map_app. cbn [map FamilyRelationship.id]. rewrite next_id_snoc.
  intros H. injection H as <- <-. cbn zeta.
  repeat split; try assumption.
  rewrite <- app_assoc. reflexivity.
Qed.

(** Conversely these conditions are enough for the request to succeed. *)
Lemma create_relationship_succeeds now A B t notes db :
  is_Some (memorial_by_id db A) ->
  is_Some (memorial_by_id db B) ->
  A <> B ->
  has_edge db A B t = false ->
  has_edge db B A (mirrored_type t) = false ->
  exists resp db',
    create_relationship now A (mkFamilyRelationshipCreate B t notes) db
      = (Ok resp, db').
Proof.
  intros [mA HA] [mB HB] HAB Hdup Hmir.
  unfold create_relationship. cbn [frc_related_memorial_id frc_relationship_type frc_notes].
  rewrite HA, HB.
  replace (A =? B) with false by (symmetry; apply Z.eqb_neq; lia).
  apply find_none_existsb in Hdup as Hfind. unfold has_edge in *.
  rewrite Hfind.
  replace (match t with
           | PARENT => mkPending B A CHILD notes
           | CHILD => mkPending B A PARENT notes
           | SPOUSE => mkPending B A SPOUSE notes
           | SIBLING => mkPending B A SIBLING notes
           end) with (mkPending B A (mirrored_type t) notes)
    by (destruct t; reflexivity).
  cbn [flush p_memorial_id p_related_memorial_id p_relationship_type p_notes].
  rewrite Hdup, existsb_app, Hmir. cbn [existsb]. rewrite same_triple_mk.
  replace (A =? B) with false by (symmetry; apply Z.eqb_neq; lia).
  cbn [andb orb]. eauto.
Qed.

Lemma count_edges_added (rows : list FamilyRelationship.t) m r t extra :
  existsb (same_triple m r t) rows = false ->
  length (List.filter (same_triple m r t) (rows ++ extra))
  = length (List.filter (same_triple m r t) extra).
Proof.
  intros H. rewrite List.filter_app, (filter_none _ _ H). reflexivity.
Qed.

(** Deleting either of the two rows just written removes both and gives
    the table back as it was. *)
Lemma delete_created_pair now A B t notes db rid :
  A <> B ->
  has_edge db A B t = false ->
  has_edge db B A (mirrored_type t) = false ->
  let n := next_id (map FamilyRelationship.id (family_relationships db)) in
  rid = n \/ rid = n + 1 ->
  delete_relationship rid
    (set_relationships db
       (family_relationships db
        ++ [FamilyRelationship.mk n A B t notes now;
            FamilyRelationship.mk (n + 1) B A (mirrored_type t) notes now]))
  = (Ok tt, db).
Proof.
  intros HAB Hdup Hmir n Hrid. unfold has_edge in *.
  set (rows := family_relationships db) in *.
  assert (HBA : (B =? A) = false) by (apply Z.eqb_neq; lia).
  assert (HAB' : (A =? B) = false) by (apply Z.eqb_neq; lia).
  assert (Hn : existsb (fun r => FamilyRelationship.id r =? n) rows = false)
    by (apply ids_below_not_found; subst n; lia).
  assert (Hn1 : existsb (fun r => FamilyRelationship.id r =? n + 1) rows = false)
    by (apply ids_below_not_found; subst n; lia).
  assert (Hkeep : forall d, (d = [n + 1; n] \/ d = [n; n + 1]) ->
            List.filter (fun r => negb (existsb (Z.eqb (FamilyRelationship.id r)) d)) rows
            = rows).
  { intros d Hd. apply filter_all.
    pose proof (next_id_above (map FamilyRelationship.id rows)) as H.
    rewrite List.Forall_map in H. eapply List.Forall_impl; [|exact H].
    cbn. intros r Hr. fold n in Hr.
    destruct Hd as [-> | ->]; cbn [existsb];
      replace (FamilyRelationship.id r =? n) with false
        by (symmetry; apply Z.eqb_neq; lia);
      replace (FamilyRelationship.id r =? n + 1) with false
        by (symmetry; apply Z.eqb_neq; lia); reflexivity. }
  unfold delete_relationship. cbn [family_relationships set_relationships].
  destruct Hrid as [-> | ->].
  - rewrite (find_app_none _ _ _ Hn). cbn [List.find FamilyRelationship.id].
    rewrite Z.eqb_refl.
    cbn [FamilyRelationship.relationship_type FamilyRelationship.related_memorial_id
         FamilyRelationship.memorial_id].
    assert (Hfind : List.find (same_triple B A (mirrored_type t))
              (rows ++ [FamilyRelationship.mk n A B t notes now;
                        FamilyRelationship.mk (n + 1) B A (mirrored_type t) notes now])
            = Some (FamilyRelationship.mk (n + 1) B A (mirrored_type t) notes now)).
    { rewrite (find_app_none _ _ _ Hmir). cbn [List.find].
      rewrite !same_triple_mk, HAB', !Z.eqb_refl. cbn [andb].
      rewrite (bool_decide_eq_true_2 (mirrored_type t = mirrored_type t)) by reflexivity.
      reflexivity. }
    replace (match t with
             | PARENT => Some CHILD | CHILD => Some PARENT
             | SPOUSE => Some SPOUSE | SIBLING => Some SIBLING
             end) with (Some (mirrored_type t)) by (destruct t; reflexivity).
    rewrite Hfind. cbn [FamilyRelationship.id app].
    rewrite List.filter_app, (Hkeep _ (or_introl eq_refl)).
    cbn [List.filter existsb FamilyRelationship.id].
    rewrite !Z.eqb_refl. cbn [orb negb].
    rewrite orb_true_r. cbn [negb]. rewrite app_nil_r.
    rewrite set_relationships_twice. f_equal. apply set_relationships_same.
  - rewrite (find_app_none _ _ _ Hn1). cbn [List.find FamilyRelationship.id].
    replace (n =? n + 1) with false by (symmetry; apply Z.eqb_neq; lia).
    rewrite Z.eqb_refl.
    cbn [FamilyRelationship.relationship_type FamilyRelationship.related_memorial_id
         FamilyRelationship.memorial_id].
    assert (Hfind : List.find (same_triple A B t)
              (rows ++ [FamilyRelationship.mk n A B t notes now;
                        FamilyRelationship.mk (n + 1) B A (mirrored_type t) notes now])
            = Some (FamilyRelationship.mk n A B t notes now)).
    { rewrite (find_app_none _ _ _ Hdup). cbn [List.find].
      rewrite !same_triple_mk, !Z.eqb_refl. cbn [andb].
      rewrite (bool_decide_eq_true_2 (t = t)) by reflexivity.
      reflexivity. }
    replace (match mirrored_type t with
             | PARENT => Some CHILD | CHILD => Some PARENT
             | SPOUSE => Some SPOUSE | SIBLING => Some SIBLING
             end) with (Some t) by (destruct t; reflexivity).
    rewrite Hfind. cbn [FamilyRelationship.id app].
    rewrite List.filter_app, (Hkeep _ (or_intror eq_refl)).
    cbn [List.filter existsb FamilyRelationship.id].
    rewrite !Z.eqb_refl. cbn [orb negb].
    rewrite orb_true_r. cbn [negb]. rewrite app_nil_r.
    rewrite set_relationships_twice. f_equal. apply set_relationships_same.
Qed.

Example create_parent_db0 :
  map (fun r => (FamilyRelationship.id r, FamilyRelationship.memorial_id r,
                 FamilyRelationship.related_memorial_id r,
                 FamilyRelationship.relationship_type r))
      (family_relationships
         (snd (create_relationship 7 1 (mkFamilyRelationshipCreate 2 PARENT None) db0)))
  = [(1, 1, 2, PARENT); (2, 2, 1, CHILD)].
Proof. reflexivity. Qed.

(** C1 (relationship symmetry). A successful
    POST /family/memorials/{A}/relationships with related_memorial_id = B
    and type parent writes the parent edge A->B and exactly one child edge
    B->A; with type spouse or sibling it writes exactly one mirrored edge
    B->A of the same type. A and B differ. DELETE /family/relationships/{id}
    on either of the two rows succeeds and removes both: the store is again
    the store before the POST, in which neither edge existed. *)
Theorem relationship_symmetry now A B t notes db resp db' :
  t = PARENT \/ t = SPOUSE \/ t = SIBLING ->
  create_relationship now A (mkFamilyRelationshipCreate B t notes) db
    = (Ok resp, db') ->
  let mirror := match t with PARENT => CHILD | _ => t end in
  let n := frr_id resp in
  A <> B
  /\ family_relationships db'
     = family_relationships db
       ++ [FamilyRelationship.mk n A B t notes now;
           FamilyRelationship.mk (n + 1) B A mirror notes now]
  /\ count_edges db' A B t = 1%nat
  /\ count_edges db' B A mirror = 1%nat
  /\ (forall rid, rid = n \/ rid = n + 1 ->
        delete_relationship rid db' = (Ok tt, db))
  /\ has_edge db A B t = false
  /\ has_edge db B A mirror = false.
Proof.
  intros Ht Hcreate mirror n.
  assert (Hm : mirror = mirrored_type t)
    by (subst mirror; destruct Ht as [-> | [-> | ->]]; reflexivity).
  rewrite Hm. clear Hm mirror.
  destruct (create_relationship_ok _ _ _ _ _ _ _ _ Hcreate)
    as (HAB & Hdup & Hmir & Hid & ->).
  subst n. rewrite Hid.
  assert (HAB' : (A =? B) = false) by (apply Z.eqb_neq; lia).
  assert (HBA : (B =? A) = false) by (apply Z.eqb_neq; lia).
  split; [exact HAB|]. split; [reflexivity|].
  unfold count_edges, has_edge in *. cbn [family_relationships set_relationships].
  split; [|split; [|split; [|split; assumption]]].
  - rewrite (count_edges_added _ _ _ _ _ Hdup). cbn [List.filter].
    rewrite !same_triple_mk, !Z.eqb_refl, HBA. cbn [andb].
    rewrite (bool_decide_eq_true_2 (t = t)) by reflexivity. reflexivity.
  - rewrite (count_edges_added _ _ _ _ _ Hmir). cbn [List.filter].
    rewrite !same_triple_mk, !Z.eqb_refl, HAB'. cbn [andb].
    rewrite (bool_decide_eq_true_2 (mirrored_type t = mirrored_type t)) by reflexivity.
    reflexivity.
  - intros rid Hrid. apply delete_created_pair; assumption.
Qed.

Lemma relationship_symmetry_witness :
  (PARENT = PARENT \/ PARENT = SPOUSE \/ PARENT = SIBLING)
  /\ create_relationship 7 1 (mkFamilyRelationshipCreate 2 PARENT None) db0
     = (Ok (mkFamilyRelationshipResponse 1 1 2 PARENT None (Some "Boris") 7),
        set_relationships db0
          [FamilyRelationship.mk 1 1 2 PARENT None 7;
           FamilyRelationship.mk 2 2 1 CHILD None 7])
  /\ count_edges
       (set_relationships db0
          [FamilyRelationship.mk 1 1 2 PARENT None 7;
           FamilyRelationship.mk 2 2 1 CHILD None 7]) 2 1 CHILD = 1%nat
  /\ delete_relationship 2
       (set_relationships db0
          [FamilyRelationship.mk 1 1 2 PARENT None 7;
           FamilyRelationship.mk 2 2 1 CHILD None 7]) = (Ok tt, db0).
Proof.
  pose proof (relationship_symmetry 7 1 2 PARENT None db0
                (mkFamilyRelationshipResponse 1 1 2 PARENT None (Some "Boris") 7)
                (set_relationships db0
                   [FamilyRelationship.mk 1 1 2 PARENT None 7;
                    FamilyRelationship.mk 2 2 1 CHILD None 7])
                (or_introl eq_refl) eq_refl) as H.
  cbv zeta in H. destruct H as (_ & _ & _ & Hc & Hd & _).
  split; [left; reflexivity|]. split; [reflexivity|].
  split; [exact Hc|]. apply Hd. right. reflexivity.
Defined.

(** C10 (the duplicate check looks at the exact triple only). In a store
    where A and B are distinct memorials, B is recorded as parent of A
    (edge A->B of type parent, with its child edge B->A) and the edges
    A->B child and B->A parent are not there: a second parent request for
    A->B is refused with 400, but a child request for A->B is accepted with
    201 and writes the child edge A->B and the parent edge B->A next to the
    existing ones, so that the store then holds B both as parent and as
    child of A. *)
Theorem duplicate_check_exact_triple now A B notes db :
  is_Some (memorial_by_id db A) ->
  is_Some (memorial_by_id db B) ->
  A <> B ->
  has_edge db A B PARENT = true ->
  has_edge db B A CHILD = true ->
  has_edge db A B CHILD = false ->
  has_edge db B A PARENT = false ->
  fst (create_relationship now A (mkFamilyRelationshipCreate B PARENT notes) db)
    = Raise (HTTPException 400 "Relationship already exists")
  /\ exists resp db',
       create_relationship now A (mkFamilyRelationshipCreate B CHILD notes) db
         = (Ok resp, db')
       /\ http_status 201 (Ok resp) = 201
       /\ family_relationships db'
          = family_relationships db
            ++ [FamilyRelationship.mk (frr_id resp) A B CHILD notes now;
                FamilyRelationship.mk (frr_id resp + 1) B A PARENT notes now]
       /\ has_edge db' A B PARENT = true
       /\ has_edge db' B A CHILD = true
       /\ has_edge db' A B CHILD = true
       /\ has_edge db' B A PARENT = true.
Proof.
  intros HA HB HAB Hp Hc Hnc Hnp. split.
  - destruct HA as [mA HA], HB as [mB HB].
    unfold create_relationship.
    cbn [frc_related_memorial_id frc_relationship_type frc_notes].
    rewrite HA, HB.
    replace (A =? B) with false by (symmetry; apply Z.eqb_neq; lia).
    destruct (List.find _ _) eqn:Hfind; [reflexivity|].
    apply find_none_existsb in Hfind. unfold has_edge in Hp. congruence.
  - destruct (create_relationship_succeeds now A B CHILD notes db HA HB HAB Hnc Hnp)
      as (resp & db' & Hcreate).
    exists resp, db'. split; [exact Hcreate|]. split; [reflexivity|].
    destruct (create_relationship_ok _ _ _ _ _ _ _ _ Hcreate)
      as (_ & _ & _ & Hid & ->).
    rewrite Hid. cbn [mirrored_type].
    unfold has_edge in *. cbn [family_relationships set_relationships].
    rewrite !existsb_app, Hp, Hc. cbn [existsb orb].
    rewrite !same_triple_mk, !Z.eqb_refl. cbn [andb].
    rewrite (bool_decide_eq_true_2 (CHILD = CHILD)) by reflexivity.
    rewrite (bool_decide_eq_true_2 (PARENT = PARENT)) by reflexivity.
    rewrite !orb_true_r. repeat split; reflexivity.
Qed.

Lemma duplicate_check_exact_triple_witness :
  fst (create_relationship 8 1 (mkFamilyRelationshipCreate 2 PARENT None)
         db_parent_1_2)
    = Raise (HTTPException 400 "Relationship already exists")
  /\ exists resp db',
       create_relationship 8 1 (mkFamilyRelationshipCreate 2 CHILD None)
         db_parent_1_2 = (Ok resp, db')
       /\ has_edge db' 1 2 PARENT = true
       /\ has_edge db' 1 2 CHILD = true.
Proof.
  destruct (duplicate_check_exact_triple 8 1 2 None db_parent_1_2)
    as (Hdup & resp & db' & Hcreate & _ & _ & Hp & _ & Hc & _);
    try reflexivity; try (eexists; reflexivity); try lia.
  split; [exact Hdup|]. exists resp, db'. repeat split; assumption.
Defined.

(** *** The family tree *)

Lemma collect_Forall {A B : Type} (P : B -> Prop) (f : A -> option (option B))
    (l : list A) (out : list B) :
  (forall a b, In a l -> f a = Some (Some b) -> P b) ->
  collect f l = Some out -> Forall P out.
Proof.
  revert out. induction l as [|a l IH]; intros out Hf; cbn [collect].
  - intros [= <-]. constructor.
  - destruct (f a) as [r|] eqn:Ha; [|discriminate].
    destruct (collect f l) as [out'|] eqn:Hl; [|discriminate].
    intros [= <-].
    assert (Forall P out') by (apply IH; [intros; eapply Hf; eauto; right; auto | reflexivity]).
    destruct r as [b|]; [constructor; [eapply Hf; [left; reflexivity | exact Ha] | assumption] | assumption].
Qed.

Lemma collect_total {A B : Type} (f : A -> option (option B)) (l : list A) :
  (forall a, In a l -> exists r, f a = Some r) ->
  exists out, collect f l = Some out.
Proof.
  induction l as [|a l IH]; intros Hf; cbn [collect]; [eauto|].
  destruct (Hf a (or_introl eq_refl)) as [r ->].
  destruct IH as [out ->]; [intros; apply Hf; right; assumption|]. eauto.
Qed.

Lemma collect_more {A B : Type} (f g : A -> option (option B)) (l : list A) out :
  (forall a r, In a l -> f a = Some r -> g a = Some r) ->
  collect f l = Some out -> collect g l = Some out.
Proof.
  revert out. induction l as [|a l IH]; intros out Hfg; cbn [collect]; [auto|].
  destruct (f a) as [r|] eqn:Ha; [|discriminate].
  rewrite (Hfg a r (or_introl eq_refl) Ha).
  destruct (collect f l) as [out'|] eqn:Hl; [|discriminate].
  rewrite (IH out'); [auto | intros; apply Hfg; [right|]; assumption | reflexivity].
Qed.

(** The recursion of [build_tree] is well-founded: with the budget above
    every call returns. *)
Lemma build_tree_returns fuel db max_depth node_id depth visited :
  (enough_fuel max_depth depth <= fuel)%nat ->
  exists r, build_tree fuel db max_depth node_id depth visited = Some r.
Proof.
  unfold enough_fuel.
  revert node_id depth visited.
  induction fuel as [|fuel IH]; intros node_id depth visited Hfuel; [lia|].
  cbn [build_tree].
  destruct (depth >? max_depth) eqn:Hd; cbn [orb]; [eauto|].
  destruct (bool_decide (node_id ∈ visited)); [eauto|].
  destruct (memorial_by_id db node_id); [|eauto].
  rewrite Z.gtb_ltb in Hd; apply Z.ltb_ge in Hd.
  match goal with |- context [collect ?f ?l] =>
    destruct (collect_total f l) as [children ->]
  end; [|eauto].
  intros rel _. apply IH. lia.
Qed.

(** A larger budget does not change what a call returns. *)
Lemma build_tree_more_fuel fuel fuel' db max_depth node_id depth visited r :
  (fuel <= fuel')%nat ->
  build_tree fuel db max_depth node_id depth visited = Some r ->
  build_tree fuel' db max_depth node_id depth visited = Some r.
Proof.
  revert fuel' node_id depth visited r.
  induction fuel as [|fuel IH]; intros fuel' node_id depth visited r Hle;
    [discriminate|].
  destruct fuel' as [|fuel']; [lia|]. cbn [build_tree].
  destruct ((depth >? max_depth) || bool_decide (node_id ∈ visited)); [auto|].
  destruct (memorial_by_id db node_id); [|auto].
  lazymatch goal with |- match collect ?f ?l with _ => _ end = _ -> _ =>
    destruct (collect f l) as [children|] eqn:Hc; [|discriminate];
    rewrite (collect_more f
               (fun rel => build_tree fuel' db max_depth
                             (FamilyRelationship.related_memorial_id rel)
                             (depth + 1) ({[node_id]} ∪ visited)) l children);
    [auto | | exact Hc]
  end.
  intros rel r' _ Hr'. apply IH; [lia | exact Hr'].
Qed.

Lemma spouses_are_leaves {A : Type} (f : A -> list FamilyTreeNode) (l : list A) :
  (forall a s, In s (f a) -> height s = 0%nat) ->
  Forall (fun s => height s = 0%nat) (flat_map f l).
Proof.
  intros Hf. apply List.Forall_forall. intros s Hs.
  apply in_flat_map in Hs as (a & _ & Hs). eauto.
Qed.

(** A returned node was built at a depth within [max_depth]; below it,
    [children] links go at most [max_depth - depth] deep, and any path of
    [children] and [spouses] links is at most one edge longer. *)
Lemma build_tree_bounds fuel db max_depth node_id depth visited node :
  build_tree fuel db max_depth node_id depth visited = Some (Some node) ->
  depth <= max_depth
  /\ (child_depth node <= Z.to_nat (max_depth - depth))%nat
  /\ (height node <= Z.to_nat (max_depth - depth) + 1)%nat.
Proof.
  revert node_id depth visited node.
  induction fuel as [|fuel IH]; intros node_id depth visited node; [discriminate|].
  cbn [build_tree].
  destruct (depth >? max_depth) eqn:Hd; cbn [orb]; [discriminate|].
  destruct (bool_decide (node_id ∈ visited)); [discriminate|].
  destruct (memorial_by_id db node_id) as [node_memorial|]; [|discriminate].
  rewrite Z.gtb_ltb in Hd; apply Z.ltb_ge in Hd.
  match goal with |- context [collect ?f ?l] =>
    destruct (collect f l) as [children|] eqn:Hc; [|discriminate]
  end.
  intros [= <-]. split; [exact Hd|].
  apply (collect_Forall
           (fun c => (child_depth c <= Z.to_nat (max_depth - (depth + 1)))%nat
                     /\ (height c <= Z.to_nat (max_depth - (depth + 1)) + 1)%nat
                     /\ depth + 1 <= max_depth)) in Hc.
  2:{ intros rel c _ Hrel. cbn beta in Hrel.
      destruct (IH _ _ _ _ Hrel) as (? & ? & ?). auto. }
  cbn [child_depth height]. split.
  - apply list_max_le, List.Forall_map.
    eapply List.Forall_impl; [|exact Hc]. cbn beta. intros c (H1 & _ & H3). lia.
  - apply Nat.max_lub.
    + apply list_max_le, List.Forall_map.
      eapply List.Forall_impl; [|exact Hc]. cbn beta. intros c (_ & H2 & H3). lia.
    + apply list_max_le, List.Forall_map.
      match goal with |- Forall _ (flat_map ?f ?l) =>
        eapply List.Forall_impl; [|apply (spouses_are_leaves f l)]
      end.
      * cbn beta. intros s Hs. rewrite Hs. lia.
      * intros rel s. destruct (memorial_by_id db _); cbn [In]; [|tauto].
        intros [<- | []]. reflexivity.
Qed.

Example tree_of_db_spouses :
  get_family_tree 2 db_spouses 1 0
  = Some (Ok (mkFamilyTreeResponse
                (mkFamilyTreeNode 1 "Anna" None None None []
                   [mkFamilyTreeNode 2 "Boris" None None (Some SPOUSE) [] []])
                2)).
Proof. vm_compute. reflexivity. Qed.

(** C5, as stated, fails: with max_depth = 0 the tree of a memorial that
    has a spouse is the root with that spouse attached, a path of one
    edge. *)
Lemma tree_paths_within_max_depth_fails :
  ~ tree_paths_within_max_depth db_spouses 1 0.
Proof.
  intros H. specialize (H 2%nat _ tree_of_db_spouses).
  vm_compute in H. lia.
Qed.

(** C5 (family tree termination), amended. For every store, memorial id and
    max_depth D >= 0 the request returns: one outcome is produced by every
    recursion budget from [enough_fuel D 0] on, whatever cycles the
    relationship table has. When that outcome is a tree, no path along
    [children] links is longer than D edges, and no path along [children]
    and [spouses] links is longer than D + 1 edges (spouses are attached as
    leaves at every level, also at depth D). *)
Theorem family_tree_terminates_bounded db memorial_id D :
  0 <= D ->
  exists outcome,
    (forall fuel, (enough_fuel D 0 <= fuel)%nat ->
       get_family_tree fuel db memorial_id D = Some outcome)
    /\ (forall resp, outcome = Ok resp ->
          (child_depth (root resp) <= Z.to_nat D)%nat
          /\ (height (root resp) <= Z.to_nat D + 1)%nat
          /\ total_nodes resp = count_nodes (root resp)).
Proof.
  intros HD. unfold get_family_tree.
  destruct (memorial_by_id db memorial_id) as [memorial|].
  2:{ eexists. split; [reflexivity | discriminate]. }
  destruct (build_tree_returns (enough_fuel D 0) db D memorial_id 0 ∅ (le_n _))
    as [r Hr].
  assert (Hall : forall fuel, (enough_fuel D 0 <= fuel)%nat ->
            build_tree fuel db D memorial_id 0 ∅ = Some r)
    by (intros; eapply build_tree_more_fuel; eauto).
  destruct r as [node|].
  - eexists. split.
    + intros fuel Hfuel. rewrite (Hall fuel Hfuel). reflexivity.
    + intros resp [= <-]. cbn [root total_nodes].
      destruct (build_tree_bounds _ _ _ _ _ _ _ Hr) as (_ & H1 & H2).
      rewrite Z.sub_0_r in H1, H2. auto.
  - eexists. split.
    + intros fuel Hfuel. rewrite (Hall fuel Hfuel). reflexivity.
    + discriminate.
Qed.

Lemma family_tree_terminates_bounded_witness :
  0 <= 5
  /\ exists outcome,
       get_family_tree (enough_fuel 5 0) db_cycle 1 5 = Some outcome
       /\ (forall resp, outcome = Ok resp ->
             (child_depth (root resp) <= 5)%nat).
Proof.
  split; [discriminate|].
  destruct (family_tree_terminates_bounded db_cycle 1 5) as (outcome & Hrun & Hb);
    [discriminate|].
  exists outcome. split; [apply Hrun; apply le_n|].
  intros resp Hresp. exact (proj1 (Hb resp Hresp)).
Defined.

Example tree_of_db_cycle :
  get_family_tree (enough_fuel 5 0) db_cycle 1 5
  = Some (Ok (mkFamilyTreeResponse
                (mkFamilyTreeNode 1 "Anna" None None None
                   [mkFamilyTreeNode 2 "Boris" None None None [] []] [])
                2)).
Proof. vm_compute. reflexivity. Qed.

End FamilyFacts.

(** ** Media upload *)

Section UploadFacts.
Import Memorials.

(** Whatever the [try] block raises, the handler removes the uploaded file,
    keeps the store and answers 500. *)
Lemma upload_media_handler settings tools now file_id memorial_id file db fs :
  is_Some (Family.memorial_by_id db memorial_id) ->
  Str.mem (Str.lower (Str.tail (Str.path_suffix (filename file))))
          (allowed_extensions_list settings) = true ->
  forall e db1 fs1,
    upload_media_try settings tools now memorial_id file
      (file_id +:+ "_" +:+ filename file) (upload_path file_id file) db fs
      = (Raise e, db1, fs1) ->
    upload_media settings tools now file_id memorial_id file db fs
    = (Raise (HTTPException 500 ("Error uploading file: " +:+ str_exn e)),
       db, delete (upload_path file_id file) fs1).
Proof.
  intros [m Hm] Hext e db1 fs1 Htry. unfold upload_media.
  rewrite Hm, Hext. cbn [negb]. unfold upload_path in Htry. rewrite Htry.
  reflexivity.
Qed.

(** The [try] block on an upload that fails validation: it raises an
    [HTTPException] with status 400. *)
Lemma upload_media_try_refuses settings tools now file_id memorial_id file db fs :
  fails_validation settings tools file ->
  exists detail fs1,
    upload_media_try settings tools now memorial_id file
      (file_id +:+ "_" +:+ filename file) (upload_path file_id file) db fs
      = (Raise (HTTPException 400 detail), db, fs1).
Proof.
  intros Hfail. unfold upload_media_try.
  fold (declared_media_type file).
  destruct Hfail as [Hbig | [(Hsize & Hty & [err Herr]) | (Hsize & Hty & Hinst & Hinfo)]].
  - replace (len (file_contents file) >? MAX_UPLOAD_SIZE settings) with true
      by (symmetry; apply Z.gtb_lt; lia).
    eauto.
  - replace (len (file_contents file) >? MAX_UPLOAD_SIZE settings) with false
      by (symmetry; rewrite Z.gtb_ltb; apply Z.ltb_ge; lia).
    rewrite Hty. unfold process_photo, validate_image_file.
    rewrite lookup_insert_eq, Herr. cbn [negb].
    do 2 eexists. reflexivity.
  - replace (len (file_contents file) >? MAX_UPLOAD_SIZE settings) with false
      by (symmetry; rewrite Z.gtb_ltb; apply Z.ltb_ge; lia).
    rewrite Hty. unfold process_video, validate_video_file.
    rewrite lookup_insert_eq, Hinst. cbn [negb].
    destruct (ffprobe tools (file_contents file)) as [info|].
    + destruct (duration info <=? 0) eqn:Hd.
      { cbn [negb]. do 2 eexists. reflexivity. }
      destruct ((width info <=? 0) || (height info <=? 0)) eqn:Hwh.
      { cbn [negb]. do 2 eexists. reflexivity. }
      apply Z.leb_gt in Hd. apply orb_false_iff in Hwh as [Hw Hh].
      apply Z.leb_gt in Hw. apply Z.leb_gt in Hh. lia.
    + cbn [negb]. do 2 eexists. reflexivity.
Qed.

(** C2: what the code does on a validation failure. For an existing
    memorial and an allowed extension, an upload that is too large, or a
    photo that fails image validation, or a video that fails video
    validation, is answered with status 500 and not with the 400 the
    handler raises: the [HTTPException] is raised inside the [try] block and
    the [except Exception] clause turns it into a 500. The store is
    unchanged and no file is left at the upload path. *)
Theorem upload_validation_failure_answers_500
    settings tools now file_id memorial_id file db fs :
  is_Some (Family.memorial_by_id db memorial_id) ->
  Str.mem (Str.lower (Str.tail (Str.path_suffix (filename file))))
          (allowed_extensions_list settings) = true ->
  fails_validation settings tools file ->
  let '(outcome, db', fs') :=
    upload_media settings tools now file_id memorial_id file db fs in
  http_status 201 outcome = 500
  /\ http_status 201 outcome <> 400
  /\ db' = db
  /\ fs' !! upload_path file_id file = None.
Proof.
  intros Hm Hext Hfail.
  destruct (upload_media_try_refuses settings tools now file_id memorial_id
              file db fs Hfail) as (detail & fs1 & Htry).
  rewrite (upload_media_handler _ _ _ _ _ _ _ _ Hm Hext _ _ _ Htry).
  cbn [http_status]. repeat split; [discriminate|].
  apply lookup_delete_eq.
Qed.

Example upload_broken_photo :
  upload_media default_settings strict_tools 7 "f81d4fae" 1 broken_photo db0 ∅
  = (Raise (HTTPException 500
       "Error uploading file: 400: Invalid image file: cannot identify image file"),
     db0, ∅).
Proof. vm_compute. reflexivity. Qed.

Lemma upload_validation_failure_answers_500_witness :
  fails_validation default_settings strict_tools broken_photo
  /\ http_status 201
       (fst (fst (upload_media default_settings strict_tools 7 "f81d4fae" 1
                    broken_photo db0 ∅))) = 500.
Proof.
  assert (Hfail : fails_validation default_settings strict_tools broken_photo).
  { right; left. split; [vm_compute; discriminate|].
    split; [reflexivity | eexists; reflexivity]. }
  split; [exact Hfail|].
  pose proof (upload_validation_failure_answers_500 default_settings strict_tools
                7 "f81d4fae" 1 broken_photo db0 ∅
                (ex_intro _ _ eq_refl) eq_refl Hfail) as H.
  destruct (upload_media default_settings strict_tools 7 "f81d4fae" 1
              broken_photo db0 ∅) as [[outcome db'] fs'].
  exact (proj1 H).
Defined.

(** A failure that is not a validation failure: the upload is a video and
    ffprobe is not installed. The file is removed and the answer is 500. *)
Example upload_video_without_ffprobe :
  upload_media default_settings strict_tools 7 "f81d4fae" 1
    (mkUploadFile "clip.mp4" (Some "video/mp4") "....") db0 ∅
  = (Raise (HTTPException 500
       "Error uploading file: [Errno 2] No such file or directory: 'ffprobe'"),
     db0, ∅).
Proof. vm_compute. reflexivity. Qed.

End UploadFacts.

(** ** uuid5 against the values of the reference implementation *)

Example sha1_abc :
  Uuid.hex (Uuid.sha1 (Uuid.bytes_of_string "abc"))
  = "a9993e364706816aba3e25717850c26c9cd0d89d".
Proof. vm_compute. reflexivity. Qed.

Example sha1_two_blocks :
  Uuid.hex (Uuid.sha1 (repeat 97 70))
  = "ed6c69d9e8b4373af86303dfaa3528dfbc129902".
Proof. vm_compute. reflexivity. Qed.

Example uuid5_python_org :
  Uuid.str (Uuid.uuid5 Uuid.NAMESPACE_DNS "python.org")
  = "886313e1-3b8a-5372-9b90-0c9aee199e5d".
Proof. vm_compute. reflexivity. Qed.

(** ** The vector store *)

Section VectorStoreFacts.
Import AiTasks.

Example vector_id_1_2 :
  fst (upsert_memory_embedding default_settings 2 1 "text" [] None
         (mkVectorDb true ∅ ∅))
  = Ok "19de628f-e627-534c-8da1-b296d06782a9".
Proof. vm_compute. reflexivity. Qed.

(** C6 (upsert and delete agree on the vector id). When
    [upsert_memory_embedding] stores a vector for (memory_id, memorial_id),
    the id it returns is the version-5 UUID, over the DNS namespace, of
    "memory_{memorial_id}_{memory_id}", and the point is stored under that
    id. [delete_memory_embedding] for the same pair then succeeds and
    removes exactly that point: the store of the configured provider is
    the one after the upsert without this id, and the other store is
    untouched. *)
Theorem delete_targets_upserted_point
    settings memory_id memorial_id text embedding title vdb vector_id vdb' :
  upsert_memory_embedding settings memory_id memorial_id text embedding title vdb
    = (Ok vector_id, vdb') ->
  vector_id
    = Uuid.str (Uuid.uuid5 Uuid.NAMESPACE_DNS
                  ("memory_" +:+ str_int memorial_id +:+ "_" +:+ str_int memory_id))
  /\ (exists p, points settings vdb' !! vector_id = Some p
                /\ pt_memory_id p = memory_id /\ pt_memorial_id p = memorial_id
                /\ pt_vector p = embedding)
  /\ exists vdb'',
       delete_memory_embedding settings memory_id memorial_id vdb' = (true, vdb'')
       /\ points settings vdb'' = delete vector_id (points settings vdb')
       /\ points settings vdb'' !! vector_id = None
       /\ (forall other, other <> vector_id ->
             points settings vdb'' !! other = points settings vdb' !! other)
       /\ (forall other, other <> vector_id ->
             points settings vdb'' !! other = points settings vdb !! other).
Proof.
  unfold upsert_memory_embedding, delete_memory_embedding, points.
  destruct (String.eqb (VECTOR_DB_PROVIDER settings) "qdrant") eqn:Hprov.
  - destruct (get_vector_db_client settings) as [[]|e]; cbn [mbind result_bind];
      [|discriminate].
    unfold on_server. destruct (reachable vdb) eqn:Hup; [|discriminate].
    intros [= <- <-]. cbn [reachable qdrant_points pinecone_vectors].
    split; [reflexivity|]. split.
    + eexists. split; [apply lookup_insert_eq|]. auto.
    + eexists. split; [reflexivity|]. cbn [qdrant_points].
      split; [reflexivity|]. split; [apply lookup_delete_eq|].
      split; intros other Hother.
      * rewrite lookup_delete_ne by congruence. reflexivity.
      * rewrite lookup_delete_ne, lookup_insert_ne by congruence. reflexivity.
  - destruct (get_vector_db_client settings) as [[]|e]; cbn [mbind result_bind];
      [|discriminate].
    unfold on_server. destruct (reachable vdb) eqn:Hup; [|discriminate].
    intros [= <- <-]. cbn [reachable qdrant_points pinecone_vectors].
    split; [reflexivity|]. split.
    + eexists. split; [apply lookup_insert_eq|]. auto.
    + eexists. split; [reflexivity|]. cbn [pinecone_vectors].
      split; [reflexivity|]. split; [apply lookup_delete_eq|].
      split; intros other Hother.
      * rewrite lookup_delete_ne by congruence. reflexivity.
      * rewrite lookup_delete_ne, lookup_insert_ne by congruence. reflexivity.
Qed.

Lemma delete_targets_upserted_point_witness :
  upsert_memory_embedding default_settings 2 1 "text" [] None
    (mkVectorDb true ∅ ∅)
  = (Ok "19de628f-e627-534c-8da1-b296d06782a9",
     mkVectorDb true
       {["19de628f-e627-534c-8da1-b296d06782a9" := mkPoint [] 2 1 "text" ""]} ∅)
  /\ delete_memory_embedding default_settings 2 1
       (mkVectorDb true
          {["19de628f-e627-534c-8da1-b296d06782a9" := mkPoint [] 2 1 "text" ""]}
          ∅)
     = (true, mkVectorDb true ∅ ∅).
Proof.
  assert (Hup : upsert_memory_embedding default_settings 2 1 "text" [] None
                  (mkVectorDb true ∅ ∅)
                = (Ok "19de628f-e627-534c-8da1-b296d06782a9",
                   mkVectorDb true
                     {["19de628f-e627-534c-8da1-b296d06782a9"
                       := mkPoint [] 2 1 "text" ""]} ∅))
    by (vm_compute; reflexivity).
  split; [exact Hup|].
  destruct (delete_targets_upserted_point _ _ _ _ _ _ _ _ _ Hup)
    as (_ & _ & vdb'' & Hdel & Hpoints & _).
  rewrite Hdel. f_equal. destruct vdb'' as [up q pc].
  unfold delete_memory_embedding in Hdel. vm_compute in Hdel.
  injection Hdel as <- <- <-. reflexivity.
Defined.

End VectorStoreFacts.

(** ** Embedding deletion *)

Section EmbeddingFacts.
Import Embeddings.

Lemma update_embedding_id_rows now memory_id rows :
  Forall2 (fun m m' => if Memory.id m =? memory_id then m' = cleared now m
                       else m' = m)
          rows (update_embedding_id now memory_id None rows).
Proof.
  induction rows as [|m rows IH]; cbn [update_embedding_id map]; constructor.
  - destruct (Memory.id m =? memory_id); reflexivity.
  - exact IH.
Qed.

Example delete_embedding_db_one_memory :
  delete_memory_embedding_endpoint default_settings 9 1 db_one_memory
    (mkVectorDb true ∅ ∅)
  = (Ok (JDict [("status", JStr "deleted");
                ("message", JStr "Embedding deleted successfully")]),
     mkDb [a_memorial 1 "Anna"] []
       [Memory.mk 1 1 (Some "Garden") "She loved her garden." None
          (Some "user") 3 (Some 9)]
       [],
     mkVectorDb true ∅ ∅).
Proof. vm_compute. reflexivity. Qed.

(** C8, as stated, fails: the commit that clears [embedding_id] also sets
    [updated_at] (declared with [onupdate=func.now()] in models.py), so the
    row does not stay otherwise unchanged. *)
Lemma deletion_changes_embedding_id_only_fails :
  ~ deletion_changes_embedding_id_only default_settings 9 1 db_one_memory
      (mkVectorDb true ∅ ∅).
Proof.
  intros H.
  specialize (H _ _ _ _ eq_refl delete_embedding_db_one_memory).
  vm_compute in H. discriminate H.
Qed.

(** C8 (embedding deletion), amended. For an existing memory:
    - without an embedding id the answer is 400 and neither the store nor
      the vector store changes;
    - with an embedding id, when the vector-store deletion succeeds the
      answer is 200 and in the memories table the row of this memory has
      [embedding_id] null, [updated_at] set to the time of the commit and
      every other field as before, all other rows and tables being
      unchanged;
    - with an embedding id, when the vector-store deletion fails the
      answer is 500 and the store is unchanged. *)
Theorem embedding_deletion settings now memory_id db vdb memory :
  List.find (fun m => Memory.id m =? memory_id) (memories db) = Some memory ->
  let '(outcome, db', vdb') :=
    delete_memory_embedding_endpoint settings now memory_id db vdb in
  (some_nonempty (Memory.embedding_id memory) = false ->
     outcome = Raise (HTTPException 400 "Memory has no embedding")
     /\ db' = db /\ vdb' = vdb)
  /\ (some_nonempty (Memory.embedding_id memory) = true ->
      fst (AiTasks.delete_memory_embedding settings memory_id
             (Memory.memorial_id memory) vdb) = true ->
      http_status 200 outcome = 200
      /\ Forall2 (fun m m' => if Memory.id m =? memory_id
                              then m' = cleared now m else m' = m)
                 (memories db) (memories db')
      /\ memorials db' = memorials db /\ media db' = media db
      /\ family_relationships db' = family_relationships db)
  /\ (some_nonempty (Memory.embedding_id memory) = true ->
      fst (AiTasks.delete_memory_embedding settings memory_id
             (Memory.memorial_id memory) vdb) = false ->
      outcome = Raise (HTTPException 500 "Failed to delete embedding")
      /\ db' = db).
Proof.
  intros Hfind. unfold delete_memory_embedding_endpoint. rewrite Hfind.
  destruct (some_nonempty (Memory.embedding_id memory)) eqn:Hemb; cbn [negb].
  - destruct (AiTasks.delete_memory_embedding settings memory_id
                (Memory.memorial_id memory) vdb) as [success vdb'] eqn:Hdel.
    cbn [fst]. destruct success.
    + split; [discriminate|]. split; [|discriminate].
      intros _ _. split; [reflexivity|]. cbn [memories set_memories].
      apply List.find_some in Hfind as [_ Hid]. apply Z.eqb_eq in Hid.
      rewrite Hid. split; [apply update_embedding_id_rows|]. auto.
    + split; [discriminate|]. split; [discriminate|]. auto.
  - split; [auto|]. split; discriminate.
Qed.

Lemma embedding_deletion_witness :
  List.find (fun m => Memory.id m =? 1) (memories db_one_memory)
    = Some (Memory.mk 1 1 (Some "Garden") "She loved her garden."
              (Some "19de628f-e627-534c-8da1-b296d06782a9") (Some "user") 3 None)
  /\ Forall2 (fun m m' => if Memory.id m =? 1 then m' = cleared 9 m else m' = m)
       (memories db_one_memory)
       (memories
          (snd (fst (delete_memory_embedding_endpoint default_settings 9 1
                       db_one_memory (mkVectorDb true ∅ ∅))))).
Proof.
  split; [reflexivity|].
  pose proof (embedding_deletion default_settings 9 1 db_one_memory
                (mkVectorDb true ∅ ∅) _ eq_refl) as H.
  destruct (delete_memory_embedding_endpoint default_settings 9 1 db_one_memory
              (mkVectorDb true ∅ ∅)) as [[outcome db'] vdb'].
  destruct H as (_ & H & _). exact (proj1 (proj2 (H eq_refl eq_refl))).
Defined.

End EmbeddingFacts.

(** ** The AI endpoints *)

Section AiFacts.
Import AiTasks Ai.

(** C7 (chat grounding). For an existing memorial without Memory rows,
    POST /ai/avatar/chat answers 200 with the fixed "no information yet"
    text and an empty sources list. Nothing else happens: no call is added
    to the record of external calls (no embedding is computed, the vector
    database is not searched), and the store, the vector store and the
    files are as before. *)
Theorem chat_without_memories settings net hash now request db eff :
  is_Some (Family.memorial_by_id db (acr_memorial_id request)) ->
  List.filter (fun m => Memory.memorial_id m =? acr_memorial_id request)
    (memories db) = [] ->
  let '(outcome, db', eff') := avatar_chat settings net hash now request db eff in
  outcome = Ok (mkAvatarChatResponse no_information_yet None [])
  /\ http_status 200 outcome = 200
  /\ eff_calls eff' = eff_calls eff
  /\ db' = db /\ eff' = eff.
Proof.
  intros [memorial Hm] Hnone. unfold avatar_chat. rewrite Hm, Hnone.
  repeat split.
Qed.

Lemma chat_without_memories_witness :
  is_Some (Family.memorial_by_id db0 2)
  /\ avatar_chat default_settings offline (fun _ => 0) 9
       (mkAvatarChatRequest 2 "Кто ты?" true) db0 no_effects
     = (Ok (mkAvatarChatResponse no_information_yet None []), db0, no_effects).
Proof.
  assert (Hm : is_Some (Family.memorial_by_id db0 2)) by (eexists; reflexivity).
  split; [exact Hm|].
  pose proof (chat_without_memories default_settings offline (fun _ => 0) 9
                (mkAvatarChatRequest 2 "Кто ты?" true) db0 no_effects
                Hm eq_refl) as H.
  destruct (avatar_chat default_settings offline (fun _ => 0) 9
              (mkAvatarChatRequest 2 "Кто ты?" true) db0 no_effects)
    as [[outcome db'] eff'].
  destruct H as (-> & _ & _ & -> & ->). reflexivity.
Defined.

(** With a memory present the embedding provider is called. *)
Example chat_with_one_memory_calls_out :
  eff_calls
    (snd (avatar_chat
            (mkSettings "sk-test" "" "" "" "" false "" "" "qdrant" "" "" false 10 "")
            offline (fun _ => 0) 9 (mkAvatarChatRequest 1 "Кто ты?" false)
            (mkDb [a_memorial 1 "Anna"] []
               [Memory.mk 1 1 None "She loved her garden." None None 3 None] [])
            no_effects))
  = [EmbeddingCall "She loved her garden."].
Proof. vm_compute. reflexivity. Qed.

(** C3: what the code does. [AnimationStatusRequest] declares [task_id]
    and [provider] only, so for every request with a non-empty task_id the
    read of [request.media_id] at line 451 raises [AttributeError], before
    any Media row or provider is consulted; the endpoint answers 500 and
    no status response is built. *)
Theorem animation_status_raises settings net request db :
  nonempty (task_id request) = true ->
  get_animation_status_endpoint settings net request db
  = Raise (AttributeError
             "'AnimationStatusRequest' object has no attribute 'media_id'")
  /\ http_status 200 (get_animation_status_endpoint settings net request db) = 500.
Proof.
  intros Htask. unfold get_animation_status_endpoint. rewrite Htask.
  cbn. split; reflexivity.
Qed.

Lemma animation_status_raises_witness :
  nonempty (task_id (mkAnimationStatusRequest "a1b2c3" (Some "heygen"))) = true
  /\ get_animation_status_endpoint default_settings offline
       (mkAnimationStatusRequest "a1b2c3" (Some "heygen")) db0
     = Raise (AttributeError
                "'AnimationStatusRequest' object has no attribute 'media_id'").
Proof.
  split; [reflexivity|].
  exact (proj1 (animation_status_raises default_settings offline
                  (mkAnimationStatusRequest "a1b2c3" (Some "heygen")) db0
                  eq_refl)).
Defined.

(** C4: what the code does. [ai_tasks.py] does not import [Path], so with
    the ElevenLabs key configured [create_custom_voice_elevenlabs] raises
    [NameError] at line 526 for every audio path and voice name, before the
    file is read or the provider called; no voice identifier is ever
    returned. *)
Theorem create_custom_voice_raises
    settings net fs audio_file_path voice_name description :
  nonempty (ELEVENLABS_API_KEY settings) = true ->
  create_custom_voice_elevenlabs settings net fs audio_file_path voice_name
    description
  = Raise (NameError "name 'Path' is not defined").
Proof.
  intros Hkey. unfold create_custom_voice_elevenlabs. rewrite Hkey.
  reflexivity.
Qed.

Lemma create_custom_voice_raises_witness :
  nonempty (ELEVENLABS_API_KEY settings_with_elevenlabs) = true
  /\ create_custom_voice_elevenlabs settings_with_elevenlabs voice_provider
       {["uploads/voices/voice_1_ab.wav" := "RIFF"]}
       "uploads/voices/voice_1_ab.wav" "Anna Voice" None
     = Raise (NameError "name 'Path' is not defined").
Proof.
  split; [reflexivity|].
  exact (create_custom_voice_raises settings_with_elevenlabs voice_provider
           {["uploads/voices/voice_1_ab.wav" := "RIFF"]}
           "uploads/voices/voice_1_ab.wav" "Anna Voice" None eq_refl).
Defined.

(** *** The animation status *)

(** Whenever [get_animation_status] returns, the result is a dict with the
    keys [status], [video_url] and [error], in this order. *)
Lemma get_animation_status_shape settings net provider task_id result :
  get_animation_status settings net provider task_id = Ok result ->
  exists status video_url error, result = status_dict status video_url error.
Proof.
  unfold get_animation_status, mbind, result_bind. intros H.
  destruct (String.eqb provider "heygen").
  - destruct (get_heygen_video_status settings net task_id) as [r|e].
    + repeat match type of H with
             | match ?x with _ => _ end = Ok _ => destruct x; try discriminate H
             | (if ?x then _ else _) = Ok _ => destruct x
             end;
        injection H as <-; eauto.
    + destruct e; try discriminate H.
      destruct (_ || _); [|discriminate H]. injection H as <-. eauto.
  - repeat match type of H with
           | match ?x with _ => _ end = Ok _ => destruct x; try discriminate H
           end.
    injection H as <-. eauto.
Qed.

Lemma heygen_404_is_processing settings net task_id :
  nonempty (HEYGEN_API_KEY settings) = true ->
  replies_404 settings net "heygen" task_id ->
  get_animation_status settings net "heygen" task_id
  = Ok (status_dict (JStr "processing") JNull (JStr video_not_found)).
Proof.
  intros Hkey (response & Hget & Hcode).
  change (String.eqb "heygen" "heygen") with true in Hget. cbv iota in Hget.
  unfold get_animation_status, get_heygen_video_status.
  change (String.eqb "heygen" "heygen") with true. cbv iota.
  rewrite Hkey. cbn [negb]. fold (heygen_status_url settings task_id).
  rewrite Hget, Hcode. reflexivity.
Qed.

(** The D-ID path has no case for a 404: it is raised like every other
    error status. *)
Lemma did_404_raises settings net provider task_id response :
  nonempty (DID_API_KEY settings) = true ->
  String.eqb provider "heygen" = false ->
  http_get net (did_status_url settings task_id) = Replied response ->
  status_code response = 404 ->
  get_animation_status settings net provider task_id
  = Raise (ValueError ("D-ID API error: 404 - " +:+ text response)).
Proof.
  intros Hkey Hprov Hget Hcode.
  unfold get_animation_status, get_did_talk_status. rewrite Hprov, Hkey.
  cbn [negb]. fold (did_status_url settings task_id). rewrite Hget.
  unfold is_success. rewrite Hcode. reflexivity.
Qed.

(** The response built from a status dict reports no error text while the
    status is processing or pending. *)
Lemma status_response_suppresses_error task_id provider status_result response :
  status_response task_id provider status_result = Ok response ->
  asr_status response = "processing" \/ asr_status response = "pending" ->
  asr_error response = None \/ asr_error response = Some "".
Proof.
  unfold status_response, mbind, result_bind. intros H Hst.
  repeat match type of H with
         | match ?x with _ => _ end = Ok _ =>
             destruct x eqn:?; try discriminate H
         end.
  injection H as <-. cbn [asr_status asr_error] in *.
  match goal with
  | Herr : optional_str (if ?c && _ then _ else _) = Some _ |- _ =>
      assert (Hs : c = true) by (destruct Hst as [-> | ->]; reflexivity);
      rewrite Hs in Herr; cbn [andb] in Herr;
      match type of Herr with
      | context [Py.truthy ?v] =>
          destruct v as [| [] | n | [] | [] | []]; cbn in Herr;
          try destruct (n =? 0); cbn in Herr; try discriminate Herr;
          injection Herr as <-; auto
      end
  end.
Qed.

Example did_404 :
  get_animation_status settings_with_keys not_found_provider "d-id" "tlk_1"
  = Raise (ValueError "D-ID API error: 404 - Not Found").
Proof. vm_compute. reflexivity. Qed.

Example heygen_404 :
  get_animation_status settings_with_keys not_found_provider "heygen" "v_1"
  = Ok (status_dict (JStr "processing") JNull (JStr video_not_found)).
Proof. vm_compute. reflexivity. Qed.

(** C9, as stated, fails for the provider d-id: its 404 is raised as a
    [ValueError], not turned into status processing. *)
Lemma status_normalized_as_specified_fails :
  ~ status_normalized_as_specified settings_with_keys not_found_provider
      "d-id" "tlk_1".
Proof.
  intros [H _].
  destruct H as (video_url & error & H).
  - eexists. split; reflexivity.
  - rewrite did_404 in H. discriminate H.
Qed.

(** It fails for heygen as well, in its last part: on a 404 the status is
    processing and the error text is kept. *)
Example heygen_404_keeps_error :
  ~ status_normalized_as_specified settings_with_keys not_found_provider
      "heygen" "v_1".
Proof.
  intros [_ H].
  specialize (H _ _ _ heygen_404 (or_introl eq_refl)). discriminate H.
Qed.

(** C9 (unified status), amended. For every provider and task id, a result
    of [get_animation_status] has the shape {status, video_url, error}.
    For the provider heygen, with its key configured, a 404 of the provider
    gives status processing instead of an exception, with the text "Video
    not found..." in the error field. The error is not withheld by
    [get_animation_status] but by the status endpoint when it builds its
    response (ai.py 482-495): a response whose status is processing or
    pending carries no error text. *)
Theorem animation_status_normalized settings net task_id :
  (forall provider result,
     get_animation_status settings net provider task_id = Ok result ->
     exists status video_url error, result = status_dict status video_url error)
  /\ (nonempty (HEYGEN_API_KEY settings) = true ->
      replies_404 settings net "heygen" task_id ->
      get_animation_status settings net "heygen" task_id
      = Ok (status_dict (JStr "processing") JNull (JStr video_not_found)))
  /\ (forall provider status_result response,
        status_response task_id provider status_result = Ok response ->
        asr_status response = "processing" \/ asr_status response = "pending" ->
        asr_error response = None \/ asr_error response = Some "").
Proof.
  split; [intros provider result; apply get_animation_status_shape|].
  split; [apply heygen_404_is_processing|].
  intros provider status_result response.
  apply status_response_suppresses_error.
Qed.

Lemma animation_status_normalized_witness :
  nonempty (HEYGEN_API_KEY settings_with_keys) = true
  /\ replies_404 settings_with_keys not_found_provider "heygen" "v_1"
  /\ get_animation_status settings_with_keys not_found_provider "heygen" "v_1"
     = Ok (status_dict (JStr "processing") JNull (JStr video_not_found))
  /\ (forall response,
        status_response "v_1" "heygen"
          (status_dict (JStr "processing") JNull (JStr video_not_found))
        = Ok response ->
        asr_status response = "processing" \/ asr_status response = "pending" ->
        asr_error response = None \/ asr_error response = Some "").
Proof.
  assert (H404 : replies_404 settings_with_keys not_found_provider "heygen" "v_1")
    by (eexists; split; reflexivity).
  destruct (animation_status_normalized settings_with_keys not_found_provider "v_1")
    as (_ & Hheygen & Hresp).
  split; [reflexivity|]. split; [exact H404|].
  split; [exact (Hheygen eq_refl H404)|].
  intros response. apply Hresp.
Defined.

Example status_response_of_heygen_404 :
  status_response "v_1" "heygen"
    (status_dict (JStr "processing") JNull (JStr video_not_found))
  = Ok (mkAnimationStatusResponse "v_1" "processing" None None "heygen").
Proof. vm_compute. reflexivity. Qed.

End AiFacts.

(* ================================================================== *)
(** * Further properties of the code *)
(* ================================================================== *)

(** ** The relationship table as the API keeps it *)

Section FamilyTableFacts.
Import Family.

Lemma same_triple_spec m r t x :
  same_triple m r t x = true <-> triple_of x = (m, r, t).
Proof.
  unfold same_triple, triple_of. rewrite !andb_true_iff, !Z.eqb_eq.
  rewrite bool_decide_eq_true. split.
  - intros [[-> ->] ->]. reflexivity.
  - intros [= -> -> ->]. auto.
Qed.

Lemma existsb_same_triple m r t rows :
  existsb (same_triple m r t) rows = true <-> In (m, r, t) (map triple_of rows).
Proof.
  rewrite existsb_exists, in_map_iff. split.
  - intros (x & Hx & Hs). exists x. split; [apply same_triple_spec, Hs | exact Hx].
  - intros (x & Hs & Hx). exists x. split; [exact Hx | apply same_triple_spec, Hs].
Qed.

Lemma mirrored_type_involutive t : mirrored_type (mirrored_type t) = t.
Proof. destruct t; reflexivity. Qed.

Lemma NoDup_map_eq {A B : Type} (f : A -> B) (l : list A) (x y : A) :
  List.NoDup (map f l) -> In x l -> In y l -> f x = f y -> x = y.
Proof.
  induction l as [|a l IH]; cbn [map]; intros Hnd Hx Hy Hf; [destruct Hx|].
  apply List.NoDup_cons_iff in Hnd as [Hnotin Hnd].
  destruct Hx as [-> | Hx], Hy as [-> | Hy]; auto.
  - exfalso. apply Hnotin. rewrite Hf. apply in_map, Hy.
  - exfalso. apply Hnotin. rewrite <- Hf. apply in_map, Hx.
Qed.

Lemma NoDup_map_filter {A B : Type} (f : A -> B) (p : A -> bool) (l : list A) :
  List.NoDup (map f l) -> List.NoDup (map f (List.filter p l)).
Proof.
  induction l as [|a l IH]; cbn [map List.filter]; intros Hnd; [constructor|].
  apply List.NoDup_cons_iff in Hnd as [Hnotin Hnd].
  destruct (p a); cbn [map]; [|auto].
  apply List.NoDup_cons_iff. split; [|auto].
  intros Hin. apply Hnotin. apply in_map_iff in Hin as (x & Hx & Hin).
  apply List.filter_In in Hin as [Hin _]. rewrite <- Hx. apply in_map, Hin.
Qed.

(** A request that is not answered with 201 writes nothing. *)
Lemma create_relationship_refused now A relationship db e db' :
  create_relationship now A relationship db = (Raise e, db') -> db' = db.
Proof.
  unfold create_relationship.
  repeat match goal with
         | |- context [match ?x with _ => _ end] =>
             lazymatch x with
             | context [match _ with _ => _ end] => fail
             | _ => destruct x eqn:?
             end
         end; intros [= <- <-] || intros [= <-] || discriminate; reflexivity.
Qed.

Lemma ids_below_next (rows : list FamilyRelationship.t) (n : Z) :
  next_id (map FamilyRelationship.id rows) <= n ->
  ~ In n (map FamilyRelationship.id rows).
Proof.
  intros Hn Hin.
  pose proof (next_id_above (map FamilyRelationship.id rows)) as H.
  rewrite List.Forall_forall in H. specialize (H n Hin). lia.
Qed.

(** X1. [create_relationship] keeps the relationship table well formed:
    whatever the request and its outcome, a table with unique primary
    keys, no repeated (memorial_id, related_memorial_id, type) triple and a
    mirror for every edge is again such a table afterwards. *)
Theorem create_relationship_keeps_table now A relationship db :
  table_ok (family_relationships db) ->
  table_ok (family_relationships
              (snd (create_relationship now A relationship db))).
Proof.
  intros Hok.
  destruct (create_relationship now A relationship db) as [[resp|e] db'] eqn:Hc;
    cbn [snd].
  2:{ apply create_relationship_refused in Hc. subst db'. exact Hok. }
  destruct relationship as [B t notes].
  destruct (create_relationship_ok _ _ _ _ _ _ _ _ Hc)
    as (HAB & Hdup & Hmir & _ & ->).
  cbn [family_relationships set_relationships].
  destruct Hok as (Hids & Htriples & Hclosed).
  set (rows := family_relationships db) in *.
  set (n := next_id (map FamilyRelationship.id rows)).
  unfold has_edge in Hdup, Hmir. fold rows in Hdup, Hmir.
  assert (Hnew1 : ~ In (A, B, t) (map triple_of rows)).
  { rewrite <- existsb_same_triple. rewrite Hdup. discriminate. }
  assert (Hnew2 : ~ In (B, A, mirrored_type t) (map triple_of rows)).
  { rewrite <- existsb_same_triple. rewrite Hmir. discriminate. }
  split; [|split].
  - rewrite map_app. cbn [map FamilyRelationship.id].
    apply List.NoDup_app; [exact Hids | |].
    + apply List.NoDup_cons_iff. split.
      * cbn [In]. intros [H | []]. lia.
      * apply List.NoDup_cons_iff. split; [intros [] | constructor].
    + intros i Hi [<- | [<- | []]].
      * revert Hi. apply ids_below_next. subst n. lia.
      * revert Hi. apply ids_below_next. subst n. lia.
  - rewrite map_app. cbn [map triple_of FamilyRelationship.memorial_id
                            FamilyRelationship.related_memorial_id
                            FamilyRelationship.relationship_type].
    apply List.NoDup_app; [exact Htriples | |].
    + apply List.NoDup_cons_iff. split.
      * cbn [In]. intros [[= H1 H2 H3] | []]. congruence.
      * apply List.NoDup_cons_iff. split; [intros [] | constructor].
    + intros tr Htr [<- | [<- | []]]; contradiction.
  - intros r Hr. rewrite existsb_app. apply in_app_iff in Hr as [Hr | Hr].
    + rewrite (Hclosed r Hr). reflexivity.
    + apply orb_true_iff. right. cbn [existsb].
      destruct Hr as [<- | [<- | []]];
        cbn [FamilyRelationship.memorial_id FamilyRelationship.related_memorial_id
             FamilyRelationship.relationship_type];
        rewrite !same_triple_mk, ?mirrored_type_involutive, !Z.eqb_refl.
      * rewrite (bool_decide_eq_true_2 (mirrored_type t = mirrored_type t))
          by reflexivity.
        cbn [andb]. rewrite !orb_true_r. reflexivity.
      * rewrite (bool_decide_eq_true_2 (t = t)) by reflexivity. reflexivity.
Qed.

Lemma table_ok_db_parent_1_2 : table_ok (family_relationships db_parent_1_2).
Proof.
  cbn. split; [|split].
  - repeat constructor; cbn; intuition discriminate.
  - repeat constructor; cbn; intuition discriminate.
  - intros r [<- | [<- | []]]; reflexivity.
Qed.

Lemma create_relationship_keeps_table_witness :
  table_ok (family_relationships db_parent_1_2)
  /\ table_ok (family_relationships
                 (snd (create_relationship 8 1
                         (mkFamilyRelationshipCreate 3 SIBLING None)
                         db_parent_1_2))).
Proof.
  split; [exact table_ok_db_parent_1_2|].
  exact (create_relationship_keeps_table 8 1
           (mkFamilyRelationshipCreate 3 SIBLING None) db_parent_1_2
           table_ok_db_parent_1_2).
Defined.

Lemma mirrored_type_inj t t' : mirrored_type t = mirrored_type t' -> t = t'.
Proof. destruct t, t'; cbn; congruence. Qed.

(** X2. [delete_relationship] keeps the relationship table well formed:
    after the deletion of a row and of its mirror, every remaining edge
    still has its mirror, and keys and triples are still unique. *)
Theorem delete_relationship_keeps_table rid db :
  table_ok (family_relationships db) ->
  table_ok (family_relationships (snd (delete_relationship rid db))).
Proof.
  intros (Hids & Htr & Hcl). unfold delete_relationship.
  set (rows := family_relationships db) in *.
  destruct (List.find (fun r => FamilyRelationship.id r =? rid) rows)
    as [rel|] eqn:Hfind; cbn [snd]; [|repeat split; assumption].
  cbn [family_relationships set_relationships].
  apply List.find_some in Hfind as [Hrel _].
  replace (match FamilyRelationship.relationship_type rel with
           | PARENT => Some CHILD | CHILD => Some PARENT
           | SPOUSE => Some SPOUSE | SIBLING => Some SIBLING
           end)
    with (Some (mirrored_type (FamilyRelationship.relationship_type rel)))
    by (destruct (FamilyRelationship.relationship_type rel); reflexivity).
  set (rev_query := same_triple (FamilyRelationship.related_memorial_id rel)
                      (FamilyRelationship.memorial_id rel)
                      (mirrored_type (FamilyRelationship.relationship_type rel))).
  split; [apply NoDup_map_filter, Hids|].
  split; [apply NoDup_map_filter, Htr|].
  intros r Hr. apply List.filter_In in Hr as [Hr Hkeep].
  pose proof (Hcl r Hr) as Hm. apply existsb_exists in Hm as (m & Hm & Hmt).
  apply existsb_exists. exists m. split; [|exact Hmt].
  apply List.filter_In. split; [exact Hm|].
  apply negb_true_iff, not_true_iff_false. intros Hdel.
  apply negb_true_iff, not_true_iff_false in Hkeep. apply Hkeep. clear Hkeep.
  apply existsb_exists in Hdel as (d & Hd & Heq). apply Z.eqb_eq in Heq.
  apply same_triple_spec in Hmt. apply existsb_exists.
  apply in_app_iff in Hd as [Hd | [<- | []]].
  - (* the mirror of [r] is the deleted reverse row: [r] is the deleted row *)
    destruct (List.find rev_query rows) as [reverse|] eqn:Hrev; [|destruct Hd].
    destruct Hd as [<- | []].
    apply List.find_some in Hrev as [Hin Hq]. apply same_triple_spec in Hq.
    assert (m = reverse) by (apply (NoDup_map_eq _ _ _ _ Hids Hm Hin Heq)).
    subst m. rewrite Hq in Hmt. injection Hmt as H1 H2 H3.
    apply mirrored_type_inj in H3.
    assert (r = rel).
    { apply (NoDup_map_eq _ _ _ _ Htr Hr Hrel). unfold triple_of. congruence. }
    subst r. exists (FamilyRelationship.id rel).
    split; [apply in_app_iff; right; left; reflexivity | apply Z.eqb_refl].
  - (* the mirror of [r] is the deleted row: [r] is its reverse *)
    assert (m = rel) by (apply (NoDup_map_eq _ _ _ _ Hids Hm Hrel Heq)).
    subst m. unfold triple_of in Hmt. injection Hmt as H1 H2 H3.
    assert (Hq : rev_query r = true).
    { apply same_triple_spec. unfold triple_of.
      rewrite H3, mirrored_type_involutive. congruence. }
    destruct (List.find rev_query rows) as [reverse|] eqn:Hrev.
    + apply List.find_some in Hrev as [Hin Hq'].
      assert (r = reverse).
      { apply (NoDup_map_eq _ _ _ _ Htr Hr Hin).
        apply same_triple_spec in Hq, Hq'. congruence. }
      subst r. exists (FamilyRelationship.id reverse).
      split; [apply in_app_iff; left; left; reflexivity | apply Z.eqb_refl].
    + exfalso. apply (List.find_none _ _ Hrev) in Hr. congruence.
Qed.

Lemma delete_relationship_keeps_table_witness :
  table_ok (family_relationships db_parent_1_2)
  /\ table_ok (family_relationships (snd (delete_relationship 2 db_parent_1_2))).
Proof.
  split; [exact table_ok_db_parent_1_2|].
  exact (delete_relationship_keeps_table 2 db_parent_1_2 table_ok_db_parent_1_2).
Defined.

Lemma create_relationship_ok_memorials now A relationship db resp db' :
  create_relationship now A relationship db = (Ok resp, db') ->
  is_Some (memorial_by_id db A)
  /\ is_Some (memorial_by_id db (frc_related_memorial_id relationship)).
Proof.
  unfold create_relationship.
  destruct (memorial_by_id db A); [|discriminate].
  destruct (memorial_by_id db (frc_related_memorial_id relationship));
    [|discriminate].
  intros _. split; eexists; reflexivity.
Qed.

Lemma create_relationship_duplicate now A B t notes db :
  is_Some (memorial_by_id db A) ->
  is_Some (memorial_by_id db B) ->
  A <> B ->
  has_edge db A B t = true ->
  create_relationship now A (mkFamilyRelationshipCreate B t notes) db
  = (Raise (HTTPException 400 "Relationship already exists"), db).
Proof.
  intros [mA HA] [mB HB] HAB Hedge. unfold create_relationship.
  cbn [frc_related_memorial_id frc_relationship_type frc_notes].
  rewrite HA, HB.
  replace (A =? B) with false by (symmetry; apply Z.eqb_neq; lia).
  destruct (List.find _ _) eqn:Hfind; [reflexivity|].
  apply find_none_existsb in Hfind. unfold has_edge in Hedge. congruence.
Qed.

(** X3. Duplicate rejection. After a successful creation of the edge A->B
    of type t, asking for the same edge again is refused with 400
    "Relationship already exists", and so is asking for its mirror B->A;
    both refusals leave the store as it is. *)
Theorem repeated_relationship_refused now now' A B t notes notes' db resp db' :
  create_relationship now A (mkFamilyRelationshipCreate B t notes) db
    = (Ok resp, db') ->
  create_relationship now' A (mkFamilyRelationshipCreate B t notes') db'
    = (Raise (HTTPException 400 "Relationship already exists"), db')
  /\ create_relationship now' B
       (mkFamilyRelationshipCreate A (mirrored_type t) notes') db'
     = (Raise (HTTPException 400 "Relationship already exists"), db').
Proof.
  intros Hc.
  destruct (create_relationship_ok_memorials _ _ _ _ _ _ Hc) as [HA HB].
  destruct (create_relationship_ok _ _ _ _ _ _ _ _ Hc) as (HAB & _ & _ & _ & ->).
  cbn [frc_related_memorial_id] in HB.
  split; apply create_relationship_duplicate; try assumption; try congruence.
  - unfold has_edge. cbn [family_relationships set_relationships].
    rewrite existsb_app. cbn [existsb].
    rewrite same_triple_mk, !Z.eqb_refl,
      (bool_decide_eq_true_2 (t = t)) by reflexivity.
    cbn [andb orb]. apply orb_true_r.
  - unfold has_edge. cbn [family_relationships set_relationships].
    rewrite existsb_app. cbn [existsb].
    rewrite (same_triple_mk _ B A), !Z.eqb_refl,
      (bool_decide_eq_true_2 (mirrored_type t = mirrored_type t)) by reflexivity.
    cbn [andb orb]. rewrite !orb_true_r. reflexivity.
Qed.

Lemma repeated_relationship_refused_witness :
  create_relationship 7 1 (mkFamilyRelationshipCreate 2 PARENT None) db0
  = (Ok (mkFamilyRelationshipResponse 1 1 2 PARENT None (Some "Boris") 7),
     db_parent_1_2)
  /\ create_relationship 8 2 (mkFamilyRelationshipCreate 1 CHILD None)
       db_parent_1_2
     = (Raise (HTTPException 400 "Relationship already exists"), db_parent_1_2).
Proof.
  split; [reflexivity|].
  exact (proj2 (repeated_relationship_refused 7 8 1 2 PARENT None None db0
                  (mkFamilyRelationshipResponse 1 1 2 PARENT None (Some "Boris") 7)
                  db_parent_1_2 eq_refl)).
Defined.

(** X4. A creation is all or nothing: either the request is answered with
    201 and the table has exactly two more rows (the edge and its mirror),
    or it raises and the store is unchanged. A request from a memorial to
    itself is always among the latter. *)
Theorem create_relationship_all_or_nothing now A relationship db :
  let '(outcome, db') := create_relationship now A relationship db in
  ((exists resp, outcome = Ok resp)
   /\ length (family_relationships db')
      = (length (family_relationships db) + 2)%nat
   /\ A <> frc_related_memorial_id relationship)
  \/ ((exists e, outcome = Raise e) /\ db' = db).
Proof.
  destruct (create_relationship now A relationship db) as [[resp|e] db'] eqn:Hc.
  - left. destruct relationship as [B t notes].
    destruct (create_relationship_ok _ _ _ _ _ _ _ _ Hc) as (HAB & _ & _ & _ & ->).
    split; [eauto|]. cbn [family_relationships set_relationships].
    rewrite length_app. auto.
  - right. split; [eauto|]. eapply create_relationship_refused, Hc.
Qed.

Lemma has_edge_listed db A B t :
  listed db A t B
  <-> is_Some (memorial_by_id db A) /\ has_edge db A B t = true.
Proof.
  unfold listed, get_relationships, has_edge. split.
  - intros (items & item & Hget & Hin & Hrel).
    destruct (memorial_by_id db A) as [mA|]; [|discriminate Hget].
    split; [eauto|]. injection Hget as <-.
    apply in_map_iff in Hin as (r & <- & Hr). cbn [frr_related_memorial_id] in Hrel.
    apply List.filter_In in Hr as [Hr Ht]. apply List.filter_In in Hr as [Hr HA].
    apply existsb_exists. exists r. split; [exact Hr|].
    unfold same_triple. rewrite HA, Ht, Hrel, Z.eqb_refl. reflexivity.
  - intros [[mA HA] Hedge]. rewrite HA.
    apply existsb_exists in Hedge as (r & Hr & Hs).
    unfold same_triple in Hs. apply andb_true_iff in Hs as [Hs Ht].
    apply andb_true_iff in Hs as [Hm Hrel]. apply Z.eqb_eq in Hrel.
    eexists. eexists. split; [reflexivity|]. split.
    + apply in_map_iff. exists r. split; [reflexivity|].
      apply List.filter_In. split; [|exact Ht].
      apply List.filter_In. split; [exact Hr | exact Hm].
    + exact Hrel.
Qed.

(** X5. The listings of a mirror-closed table agree: for two existing
    memorials A and B, B is listed among the relationships of type t of A
    exactly when A is listed among the relationships of the mirrored type
    of B (B is a parent of A in A's list iff A is a child of B in B's). *)
Theorem listings_are_mirrored db A B t :
  mirror_closed (family_relationships db) ->
  is_Some (memorial_by_id db A) ->
  is_Some (memorial_by_id db B) ->
  listed db A t B <-> listed db B (mirrored_type t) A.
Proof.
  intros Hcl HA HB. rewrite !has_edge_listed. unfold has_edge.
  assert (Hstep : forall X Y u,
            existsb (same_triple X Y u) (family_relationships db) = true ->
            existsb (same_triple Y X (mirrored_type u)) (family_relationships db)
            = true).
  { intros X Y u Hx. apply existsb_exists in Hx as (r & Hr & Hs).
    apply same_triple_spec in Hs. unfold triple_of in Hs. injection Hs as <- <- <-.
    exact (Hcl r Hr). }
  split; intros [_ H]; (split; [assumption|]).
  - apply Hstep, H.
  - apply Hstep in H. rewrite mirrored_type_involutive in H. exact H.
Qed.

Lemma listings_are_mirrored_witness :
  mirror_closed (family_relationships db_parent_1_2)
  /\ (listed db_parent_1_2 1 PARENT 2 <-> listed db_parent_1_2 2 CHILD 1)
  /\ listed db_parent_1_2 2 CHILD 1.
Proof.
  assert (Hcl : mirror_closed (family_relationships db_parent_1_2))
    by exact (proj2 (proj2 table_ok_db_parent_1_2)).
  assert (H : listed db_parent_1_2 1 PARENT 2 <-> listed db_parent_1_2 2 CHILD 1)
    by (apply (listings_are_mirrored db_parent_1_2 1 2 PARENT Hcl);
        eexists; reflexivity).
  split; [exact Hcl|]. split; [exact H|]. apply H.
  eexists. eexists. split; [reflexivity|]. split; [left; reflexivity | reflexivity].
Defined.

End FamilyTableFacts.

(** ** The family tree: cycle guard and node count *)

Section FamilyTreeFacts.
Import Family.

Lemma memorial_by_id_id db i m : memorial_by_id db i = Some m -> Memorial.id m = i.
Proof.
  unfold memorial_by_id. intros H. apply List.find_some in H as [_ H].
  apply Z.eqb_eq, H.
Qed.

Lemma sum_list_map_ext {A : Type} (f g : A -> Z) (l : list A) :
  Forall (fun a => f a = g a) l ->
  sum_list (map f l) = sum_list (map g l).
Proof.
  induction 1 as [|a l Ha _ IH]; cbn [map sum_list fold_right]; [reflexivity|].
  unfold sum_list in IH. rewrite Ha, IH. reflexivity.
Qed.

(** What [build_tree] returns: the node of the requested memorial, below
    which no memorial repeats on a path of children nor is one already
    visited, and whose spouses are leaves, so that [count_nodes] counts
    every node of it once. *)
Lemma build_tree_node fuel db max_depth node_id depth visited node :
  build_tree fuel db max_depth node_id depth visited = Some (Some node) ->
  node_memorial_id node = node_id
  /\ no_repeat visited node = true
  /\ count_nodes node = tree_size node.
Proof.
  revert node_id depth visited node.
  induction fuel as [|fuel IH]; intros node_id depth visited node; [discriminate|].
  cbn [build_tree].
  destruct (depth >? max_depth); cbn [orb]; [discriminate|].
  destruct (bool_decide (node_id ∈ visited)) eqn:Hvis; [discriminate|].
  destruct (memorial_by_id db node_id) as [node_memorial|] eqn:Hm; [|discriminate].
  match goal with |- context [collect ?f ?l] =>
    destruct (collect f l) as [children|] eqn:Hc; [|discriminate]
  end.
  intros [= <-]. apply memorial_by_id_id in Hm.
  apply (collect_Forall
           (fun c => no_repeat ({[node_id]} ∪ visited) c = true
                     /\ count_nodes c = tree_size c)) in Hc.
  2:{ intros rel c _ Hrel. cbn beta in Hrel.
      destruct (IH _ _ _ _ Hrel) as (_ & ? & ?). auto. }
  cbn [node_memorial_id no_repeat count_nodes tree_size]. rewrite Hm, Hvis.
  split; [reflexivity|]. split.
  - cbn [negb andb]. apply forallb_forall. intros c Hin.
    rewrite List.Forall_forall in Hc. apply Hc, Hin.
  - f_equal; [f_equal|].
    + apply sum_list_map_ext. eapply List.Forall_impl; [|exact Hc].
      cbn beta. intros c [_ H]. exact H.
    + apply sum_list_map_ext. apply List.Forall_forall. intros sp Hsp.
      apply in_flat_map in Hsp as (rel & _ & Hsp).
      destruct (memorial_by_id db _); [|destruct Hsp].
      destruct Hsp as [<- | []]. reflexivity.
Qed.

(** X6. The cycle guard of the family tree. In every tree that
    GET /family/memorials/{id}/tree returns, the root is the requested
    memorial and no memorial occurs twice on a path of children links,
    whatever cycles the relationship table has. *)
Theorem family_tree_paths_do_not_repeat fuel db memorial_id max_depth resp :
  get_family_tree fuel db memorial_id max_depth = Some (Ok resp) ->
  node_memorial_id (root resp) = memorial_id
  /\ no_repeat ∅ (root resp) = true.
Proof.
  unfold get_family_tree.
  destruct (memorial_by_id db memorial_id); [|discriminate].
  destruct (build_tree fuel db max_depth memorial_id 0 ∅) as [[node|]|] eqn:Hb;
    try discriminate.
  intros [= <-]. cbn [root].
  destruct (build_tree_node _ _ _ _ _ _ _ Hb) as (H1 & H2 & _). auto.
Qed.

Lemma family_tree_paths_do_not_repeat_witness :
  get_family_tree (enough_fuel 5 0) db_cycle 1 5
  = Some (Ok (mkFamilyTreeResponse
                (mkFamilyTreeNode 1 "Anna" None None None
                   [mkFamilyTreeNode 2 "Boris" None None None [] []] [])
                2))
  /\ no_repeat ∅
       (mkFamilyTreeNode 1 "Anna" None None None
          [mkFamilyTreeNode 2 "Boris" None None None [] []] []) = true.
Proof.
  assert (H : get_family_tree (enough_fuel 5 0) db_cycle 1 5
              = Some (Ok (mkFamilyTreeResponse
                            (mkFamilyTreeNode 1 "Anna" None None None
                               [mkFamilyTreeNode 2 "Boris" None None None [] []] [])
                            2)))
    by (vm_compute; reflexivity).
  split; [exact H|].
  exact (proj2 (family_tree_paths_do_not_repeat _ _ _ _ _ H)).
Defined.

(** X7. The node count of the family tree. [total_nodes] of a returned
    tree is the number of its nodes, over children and spouses links: the
    root, every descendant and every attached spouse are counted once. *)
Theorem family_tree_total_nodes fuel db memorial_id max_depth resp :
  get_family_tree fuel db memorial_id max_depth = Some (Ok resp) ->
  total_nodes resp = tree_size (root resp).
Proof.
  unfold get_family_tree.
  destruct (memorial_by_id db memorial_id); [|discriminate].
  destruct (build_tree fuel db max_depth memorial_id 0 ∅) as [[node|]|] eqn:Hb;
    try discriminate.
  intros [= <-]. cbn [root total_nodes].
  exact (proj2 (proj2 (build_tree_node _ _ _ _ _ _ _ Hb))).
Qed.

Lemma family_tree_total_nodes_witness :
  get_family_tree 2 db_spouses 1 0
  = Some (Ok (mkFamilyTreeResponse
                (mkFamilyTreeNode 1 "Anna" None None None []
                   [mkFamilyTreeNode 2 "Boris" None None (Some SPOUSE) [] []])
                2))
  /\ tree_size
       (mkFamilyTreeNode 1 "Anna" None None None []
          [mkFamilyTreeNode 2 "Boris" None None (Some SPOUSE) [] []]) = 2.
Proof.
  assert (H : get_family_tree 2 db_spouses 1 0
              = Some (Ok (mkFamilyTreeResponse
                            (mkFamilyTreeNode 1 "Anna" None None None []
                               [mkFamilyTreeNode 2 "Boris" None None (Some SPOUSE)
                                  [] []])
                            2)))
    by (vm_compute; reflexivity).
  split; [exact H|].
  symmetry. exact (family_tree_total_nodes _ _ _ _ _ H).
Defined.

End FamilyTreeFacts.

(** ** Media upload: what a success and a failure leave behind *)

Section UploadOutcomeFacts.
Import Memorials.










(** X9. A failed upload. When the upload is not answered with 201, the
    answer is an HTTP error 404, 400 or 500, the store is unchanged (no
    Media row is added), and, the upload path being free before the
    request, no file is left there. *)
Theorem upload_media_failure settings tools now file_id memorial_id file db fs
    e db' fs' :
  fs !! upload_path file_id file = None ->
  upload_media settings tools now file_id memorial_id file db fs
    = (Raise e, db', fs') ->
  db' = db
  /\ fs' !! upload_path file_id file = None
  /\ exists code detail,
       e = HTTPException code detail /\ (code = 404 \/ code = 400 \/ code = 500).
Proof.
  intros Hfree. unfold upload_media.
  destruct (Family.memorial_by_id db memorial_id) as [memorial|].
  2:{ intros [= <- <- <-]. split; [reflexivity|]. split; [exact Hfree|].
      do 2 eexists. split; [reflexivity | auto]. }
  destruct (Str.mem _ (allowed_extensions_list settings)); cbn [negb].
  2:{ intros [= <- <- <-]. split; [reflexivity|]. split; [exact Hfree|].
      do 2 eexists. split; [reflexivity | auto]. }
  fold (upload_path file_id file).
  destruct (upload_media_try settings tools now memorial_id file
              (file_id +:+ "_" +:+ filename file) (upload_path file_id file) db fs)
    as [[[m1|e1] db1] fs1]; [discriminate|].
  intros [= <- <- <-]. split; [reflexivity|].
  split; [apply lookup_delete_eq|].
  do 2 eexists. split; [reflexivity | auto].
Qed.

Lemma upload_media_failure_witness :
  (∅ : Fs) !! upload_path "f81d4fae" broken_photo = None
  /\ upload_media default_settings strict_tools 7 "f81d4fae" 1 broken_photo
       db0 ∅
     = (Raise (HTTPException 500
          "Error uploading file: 400: Invalid image file: cannot identify image file"),
        db0, ∅)
  /\ db0 = db0.
Proof.
  assert (Hfree : (∅ : Fs) !! upload_path "f81d4fae" broken_photo = None)
    by reflexivity.
  assert (Hup : upload_media default_settings strict_tools 7 "f81d4fae" 1
                  broken_photo db0 ∅
                = (Raise (HTTPException 500
                     "Error uploading file: 400: Invalid image file: cannot identify image file"),
                   db0, ∅))
    by (vm_compute; reflexivity).
  split; [exact Hfree|]. split; [exact Hup|].
  exact (proj1 (upload_media_failure _ _ _ _ _ _ _ _ _ _ _ Hfree Hup)).
Defined.

End UploadOutcomeFacts.

(** ** The vector store: search, overwrite, repeated deletion *)

Section VectorStoreMoreFacts.
Import AiTasks.

Lemma In_firstn {A : Type} (n : nat) (l : list A) (x : A) :
  In x (firstn n l) -> In x l.
Proof.
  revert l. induction n as [|n IH]; intros l H; [destruct H|].
  destruct l as [|a l]; cbn [firstn In] in H; [destruct H|].
  destruct H as [-> | H]; [left; reflexivity | right; apply IH, H].
Qed.

Lemma hits_of_In pts ranked h mem :
  In (h, mem) (hits_of pts ranked) ->
  exists p, pts !! hit_id h = Some p
            /\ pt_memorial_id p = mem
            /\ pt_memory_id p = hit_memory_id h
            /\ pt_text p = hit_text h
            /\ In (hit_id h, hit_score h) ranked.
Proof.
  unfold hits_of. intros H. apply in_flat_map in H as ([i sc] & Hr & H).
  cbn [fst snd] in H. destruct (pts !! i) as [p|] eqn:Hp; [|destruct H].
  destruct H as [[= <- <-] | []]. cbn [hit_id hit_memory_id hit_text hit_score].
  exists p. auto.
Qed.

(** X10. What a search returns. [search_similar_memories] returns at most
    [top_k] hits; every hit is a point of the configured provider's store
    whose payload names the requested memorial, is reported with the
    memory id and text of that payload, was ranked by the store for the
    query, and has a score of at least [min_score]. When the store cannot
    be reached the result is the empty list, not an exception. *)
Theorem search_results_restricted
    settings net memorial_id query_embedding top_k min_score vdb :
  let hits :=
    search_similar_memories settings net memorial_id query_embedding top_k
      min_score vdb in
  (length hits <= top_k)%nat
  /\ Forall (fun h =>
               Qle_bool min_score (hit_score h) = true
               /\ exists p,
                    points settings vdb !! hit_id h = Some p
                    /\ pt_memorial_id p = memorial_id
                    /\ pt_memory_id p = hit_memory_id h
                    /\ pt_text p = hit_text h
                    /\ In (hit_id h, hit_score h)
                         (nearest net (points settings vdb) query_embedding))
            hits
  /\ (reachable vdb = false -> hits = []).
Proof.
  cbv zeta. unfold search_similar_memories, points.
  destruct (get_vector_db_client settings) as [[]|e]; cbn [mbind result_bind].
  2:{ split; [cbn; lia|]. split; [constructor | reflexivity]. }
  unfold on_server. destruct (reachable vdb).
  2:{ split; [cbn; lia|]. split; [constructor | reflexivity]. }
  destruct (String.eqb (VECTOR_DB_PROVIDER settings) "qdrant").
  - split; [apply firstn_le_length|]. split; [|discriminate].
    apply List.Forall_forall. intros h Hh.
    apply In_firstn, in_map_iff in Hh as ([h' mem] & <- & Hh).
    apply List.filter_In in Hh as [Hh Hcond]. cbn [fst snd] in *.
    apply andb_true_iff in Hcond as [Hmem Hscore]. apply Z.eqb_eq in Hmem.
    apply In_firstn, List.filter_In in Hh as [Hh _].
    split; [exact Hscore|].
    apply hits_of_In in Hh as (p & ? & ? & ? & ? & ?).
    exists p. repeat split; congruence || assumption.
  - split; [apply firstn_le_length|]. split; [|discriminate].
    apply List.Forall_forall. intros h Hh.
    apply In_firstn, in_map_iff in Hh as ([h' mem] & <- & Hh).
    apply List.filter_In in Hh as [Hh Hscore]. cbn [fst snd] in *.
    apply In_firstn, List.filter_In in Hh as [Hh Hmem].
    cbn [snd] in Hmem. apply Z.eqb_eq in Hmem.
    split; [exact Hscore|].
    apply hits_of_In in Hh as (p & ? & ? & ? & ? & ?).
    exists p. repeat split; congruence || assumption.
Qed.



End VectorStoreMoreFacts.

Section EmbeddingMoreFacts.
Import Embeddings.

Lemma find_update_embedding_id now memory_id rows :
  List.find (fun m => Memory.id m =? memory_id)
    (update_embedding_id now memory_id None rows)
  = option_map (cleared now)
      (List.find (fun m => Memory.id m =? memory_id) rows).
Proof.
  induction rows as [|m rows IH]; cbn [update_embedding_id map List.find];
    [reflexivity|].
  destruct (Memory.id m =? memory_id) eqn:Hid.
  - cbn [Memory.id]. rewrite Hid. reflexivity.
  - rewrite Hid. exact IH.
Qed.

(** X12. Deleting an embedding twice. After DELETE
    /embeddings/memories/{id} has answered 200, the same request again is
    answered 400 "Memory has no embedding" and changes neither the store
    nor the vector store. *)
Theorem second_embedding_deletion_refused
    settings now now' memory_id db vdb response db' vdb' :
  delete_memory_embedding_endpoint settings now memory_id db vdb
    = (Ok response, db', vdb') ->
  delete_memory_embedding_endpoint settings now' memory_id db' vdb'
  = (Raise (HTTPException 400 "Memory has no embedding"), db', vdb').
Proof.
  unfold delete_memory_embedding_endpoint at 1.
  destruct (List.find (fun m => Memory.id m =? memory_id) (memories db))
    as [memory|] eqn:Hfind; [|discriminate].
  destruct (some_nonempty (Memory.embedding_id memory)); cbn [negb];
    [|discriminate].
  destruct (AiTasks.delete_memory_embedding settings memory_id
              (Memory.memorial_id memory) vdb) as [[] vdb1]; [|discriminate].
  intros [= <- <- <-]. unfold delete_memory_embedding_endpoint.
  cbn [memories set_memories].
  apply List.find_some in Hfind as Hid. destruct Hid as [_ Hid].
  apply Z.eqb_eq in Hid. rewrite Hid.
  rewrite find_update_embedding_id, Hfind. reflexivity.
Qed.

Lemma second_embedding_deletion_refused_witness :
  delete_memory_embedding_endpoint default_settings 9 1 db_one_memory
    (mkVectorDb true ∅ ∅)
  = (Ok (JDict [("status", JStr "deleted");
                ("message", JStr "Embedding deleted successfully")]),
     mkDb [a_memorial 1 "Anna"] []
       [Memory.mk 1 1 (Some "Garden") "She loved her garden." None
          (Some "user") 3 (Some 9)]
       [],
     mkVectorDb true ∅ ∅)
  /\ delete_memory_embedding_endpoint default_settings 10 1
       (mkDb [a_memorial 1 "Anna"] []
          [Memory.mk 1 1 (Some "Garden") "She loved her garden." None
             (Some "user") 3 (Some 9)]
          [])
       (mkVectorDb true ∅ ∅)
     = (Raise (HTTPException 400 "Memory has no embedding"),
        mkDb [a_memorial 1 "Anna"] []
          [Memory.mk 1 1 (Some "Garden") "She loved her garden." None
             (Some "user") 3 (Some 9)]
          [],
        mkVectorDb true ∅ ∅).
Proof.
  assert (H : delete_memory_embedding_endpoint default_settings 9 1 db_one_memory
                (mkVectorDb true ∅ ∅)
              = (Ok (JDict [("status", JStr "deleted");
                            ("message", JStr "Embedding deleted successfully")]),
                 mkDb [a_memorial 1 "Anna"] []
                   [Memory.mk 1 1 (Some "Garden") "She loved her garden." None
                      (Some "user") 3 (Some 9)]
                   [],
                 mkVectorDb true ∅ ∅))
    by (vm_compute; reflexivity).
  split; [exact H|].
  exact (second_embedding_deletion_refused default_settings 9 10 1 _ _ _ _ _ H).
Defined.

End EmbeddingMoreFacts.

Section MemorialApiFacts.
Import Family MemorialApi.

Lemma find_app {A : Type} (f : A -> bool) (l l' : list A) :
  List.find f (l ++ l')
  = match List.find f l with Some a => Some a | None => List.find f l' end.
Proof.
  induction l as [|a l IH]; cbn; [reflexivity|].
  destruct (f a); [reflexivity | exact IH].
Qed.

Lemma find_map_stable {A : Type} (f : A -> bool) (g : A -> A) (l : list A) :
  (forall a, f (g a) = f a) ->
  List.find f (map g l) = option_map g (List.find f l).
Proof.
  intros Hfg. induction l as [|a l IH]; cbn; [reflexivity|].
  rewrite Hfg. destruct (f a); [reflexivity | exact IH].
Qed.

Lemma filter_map_fixed {A : Type} (f : A -> bool) (g : A -> A) (l : list A) :
  (forall a, f (g a) = f a) -> (forall a, f a = true -> g a = a) ->
  List.filter f (map g l) = List.filter f l.
Proof.
  intros Hfg Hg. induction l as [|a l IH]; cbn; [reflexivity|].
  rewrite Hfg. destruct (f a) eqn:Hfa; [rewrite Hg, IH by exact Hfa|]; auto.
Qed.

Lemma memorial_below_next db i :
  is_Some (memorial_by_id db i) -> i < next_id (map Memorial.id (memorials db)).
Proof.
  intros [m Hm]. unfold memorial_by_id in Hm.
  apply List.find_some in Hm as [Hin Hid]. apply Z.eqb_eq in Hid. subst i.
  pose proof (next_id_above (map Memorial.id (memorials db))) as H.
  rewrite List.Forall_forall in H. apply H, in_map, Hin.
Qed.

Lemma next_memory_id_above (rows : list Memory.t) :
  Forall (fun m0 => Memory.id m0 < next_id (map Memory.id rows)) rows.
Proof.
  pose proof (next_id_above (map Memory.id rows)) as H.
  rewrite List.Forall_map in H. exact H.
Qed.

(** X13. Creating a memorial and reading it back. In a store whose media
    and memories all belong to existing memorials, the memorial returned
    by POST /memorials/ carries the fields of the request, the given owner
    and no voice; GET /memorials/{id} with its id then returns exactly this
    memorial, with no media and no memories; and for every other id GET
    answers as it did before the creation. *)
Theorem created_memorial_is_served now memorial owner_id db :
  references_exist db ->
  let created := fst (create_memorial now memorial owner_id db) in
  let db' := snd (create_memorial now memorial owner_id db) in
  get_memorial (Memorial.id created) db' = Ok (mkMemorialDetail created [] [])
  /\ Memorial.name created = mc_name memorial
  /\ Memorial.description created = mc_description memorial
  /\ Memorial.birth_date created = mc_birth_date memorial
  /\ Memorial.death_date created = mc_death_date memorial
  /\ Memorial.is_public created = mc_is_public memorial
  /\ Memorial.owner_id created = owner_id
  /\ Memorial.voice_id created = None
  /\ (forall i, i <> Memorial.id created ->
        get_memorial i db' = get_memorial i db).
Proof.
  intros [Hmedia Hmem]. cbn [create_memorial fst snd].
  set (n := next_id (map Memorial.id (memorials db))).
  cbn [Memorial.id Memorial.name Memorial.description Memorial.birth_date
       Memorial.death_date Memorial.is_public Memorial.owner_id
       Memorial.voice_id].
  repeat split.
  - unfold get_memorial, memorial_by_id. cbn [set_memorials memorials media memories].
    rewrite find_app_none.
    + cbn [List.find Memorial.id]. rewrite Z.eqb_refl. cbn [Memorial.id].
      rewrite !filter_none; [reflexivity| |].
      * apply find_none_existsb. destruct (List.find _ (memories db)) as [m|] eqn:Hf;
          [|reflexivity].
        apply List.find_some in Hf as [Hin Hid]. apply Z.eqb_eq in Hid.
        pose proof (memorial_below_next db _ (Hmem m Hin)). fold n in H. lia.
      * apply find_none_existsb. destruct (List.find _ (media db)) as [m|] eqn:Hf;
          [|reflexivity].
        apply List.find_some in Hf as [Hin Hid]. apply Z.eqb_eq in Hid.
        pose proof (memorial_below_next db _ (Hmedia m Hin)). fold n in H. lia.
    + apply find_none_existsb.
      destruct (List.find _ (memorials db)) as [m|] eqn:Hf; [|reflexivity].
      apply List.find_some in Hf as [Hin Hid]. apply Z.eqb_eq in Hid.
      pose proof (next_id_above (map Memorial.id (memorials db))) as H.
      rewrite List.Forall_forall in H. specialize (H _ (in_map Memorial.id _ _ Hin)).
      fold n in H. lia.
  - intros i Hi. unfold get_memorial, memorial_by_id.
    cbn [set_memorials memorials media memories]. rewrite find_app.
    destruct (List.find _ (memorials db)) as [m|]; [reflexivity|].
    cbn [List.find Memorial.id]. apply Z.eqb_neq in Hi. rewrite Z.eqb_sym, Hi.
    reflexivity.
Qed.

Lemma created_memorial_is_served_witness :
  get_memorial 2
    (snd (create_memorial 5 (mkMemorialCreate "Zoya" None (Some 1) (Some 4) true)
            1 db_one_memory))
  = Ok (mkMemorialDetail
          (Memorial.mk 2 "Zoya" None (Some 1) (Some 4) 1 true None 5 None) [] []).
Proof.
  assert (H : references_exist db_one_memory).
  { split; [intros m [] | intros m [<-|[]]; cbn; eauto]. }
  exact (proj1 (created_memorial_is_served 5
                  (mkMemorialCreate "Zoya" None (Some 1) (Some 4) true)
                  1 db_one_memory H)).
Defined.

(** X14. Adding a memory. For an existing memorial POST
    /memorials/{id}/memories always answers 201: the memory is appended
    with a key above all existing ones, the title and content of the
    request, source "user" and no embedding, and the memory listing of the
    memorial ends with it. With a reachable broker exactly one embedding
    task, for this memory and its content, is queued. With an unreachable
    broker nothing is queued, and the synchronous fallback does not run
    either: the vector store is unchanged and the memory stays without
    embedding. *)
Theorem create_memory_outcome settings net now task_id memorial_id memory db out :
  is_Some (memorial_by_id db memorial_id) ->
  exists m broker' listing,
    create_memory settings net now task_id memorial_id memory db out
    = (Ok m, Embeddings.set_memories db (memories db ++ [m]),
       mkOutside broker' (out_vdb out))
    /\ Forall (fun m0 => Memory.id m0 < Memory.id m) (memories db)
    /\ Memory.memorial_id m = memorial_id
    /\ Memory.title m = mec_title memory
    /\ Memory.content m = mec_content memory
    /\ Memory.source m = Some "user"
    /\ Memory.embedding_id m = None
    /\ get_memorial_memories memorial_id db = Ok listing
    /\ get_memorial_memories memorial_id
         (Embeddings.set_memories db (memories db ++ [m]))
       = Ok (listing ++ [m])
    /\ broker_down broker' = broker_down (out_broker out)
    /\ queued broker'
       = match broker_down (out_broker out) with
         | None =>
             queued (out_broker out)
             ++ [(task_id,
                  CreateMemoryEmbeddingTask (Memory.id m) memorial_id
                    (mec_content memory))]
         | Some _ => queued (out_broker out)
         end.
Proof.
  intros [memorial Hm]. unfold create_memory. rewrite Hm.
  set (m := Memory.mk _ _ _ _ _ _ _ _).
  assert (Hlist : forall rows,
            get_memorial_memories memorial_id (Embeddings.set_memories db rows)
            = Ok (List.filter (fun m0 => Memory.memorial_id m0 =? memorial_id) rows)).
  { intros rows. unfold get_memorial_memories, memorial_by_id in *.
    cbn [Embeddings.set_memories memorials memories]. rewrite Hm.
    apply List.find_some in Hm as [_ Hid]. apply Z.eqb_eq in Hid.
    rewrite Hid. reflexivity. }
  assert (Hrest :
    Forall (fun m0 => Memory.id m0 < Memory.id m) (memories db)
    /\ Memory.memorial_id m = memorial_id
    /\ Memory.title m = mec_title memory
    /\ Memory.content m = mec_content memory
    /\ Memory.source m = Some "user"
    /\ Memory.embedding_id m = None
    /\ get_memorial_memories memorial_id db
       = Ok (List.filter (fun m0 => Memory.memorial_id m0 =? memorial_id)
               (memories db))
    /\ get_memorial_memories memorial_id
         (Embeddings.set_memories db (memories db ++ [m]))
       = Ok (List.filter (fun m0 => Memory.memorial_id m0 =? memorial_id)
               (memories db) ++ [m])).
  { split; [apply next_memory_id_above|]. repeat (split; [reflexivity|]). split.
    - rewrite <- (Hlist (memories db)). destruct db; reflexivity.
    - rewrite Hlist, List.filter_app. cbn [List.filter Memory.memorial_id m].
      rewrite Z.eqb_refl. reflexivity. }
  unfold delay. destruct (broker_down (out_broker out)) as [msg|] eqn:Hdown.
  - exists m, (out_broker out), (List.filter (fun m0 => Memory.memorial_id m0 =? memorial_id) (memories db)).
    split.
    + cbn [str_exn]. destruct (looks_like_broker_error true msg);
        cbn [asyncio_run_in_handler]; destruct out; reflexivity.
    + rewrite Hdown. repeat (split; [apply Hrest|]). auto.
  - eexists m, _, _. split; [reflexivity|].
    cbn [broker_down queued]. repeat (split; [apply Hrest|]). auto.
Qed.

Lemma create_memory_outcome_witness :
  create_memory default_settings offline 8 "task-1" 1
    (mkMemoryCreate (Some "Garden") "She loved her garden.") db0
    (mkOutside broker_unreachable (mkVectorDb true ∅ ∅))
  = (Ok (Memory.mk 1 1 (Some "Garden") "She loved her garden." None
           (Some "user") 8 None),
     Embeddings.set_memories db0
       [Memory.mk 1 1 (Some "Garden") "She loved her garden." None
          (Some "user") 8 None],
     mkOutside broker_unreachable (mkVectorDb true ∅ ∅)).
Proof.
  assert (Hm : is_Some (memorial_by_id db0 1)) by (cbn; eauto).
  destruct (create_memory_outcome default_settings offline 8 "task-1" 1
              (mkMemoryCreate (Some "Garden") "She loved her garden.") db0
              (mkOutside broker_unreachable (mkVectorDb true ∅ ∅)) Hm)
    as (m & broker' & listing & H & _).
  vm_compute. reflexivity.
Defined.

(** X15. Editing a memory. When PATCH /memorials/{id}/memories/{memory_id}
    answers 200, the returned memory has the fields of the request where
    the request carries them and the stored ones elsewhere, with key,
    memorial, source, creation time and [embedding_id] as stored; reading
    the memory again gives the returned one; rows with another key and the
    other tables are as before. The vector store is never touched. A
    memory that has an embedding keeps it and no task is queued, also when
    its content has changed; a memory without embedding whose content has
    changed gets one embedding task with the new content when the broker
    is reachable. *)
Theorem update_memory_outcome settings net now task_id memorial_id memory_id
    memory_update db out m db' out' :
  update_memory settings net now task_id memorial_id memory_id memory_update db out
    = (Ok m, db', out') ->
  exists old,
    memory_of db memorial_id memory_id = Some old
    /\ Memory.title m = default (Memory.title old) (mu_title memory_update)
    /\ Some (Memory.content m)
       = default (Some (Memory.content old)) (mu_content memory_update)
    /\ Memory.id m = memory_id
    /\ Memory.memorial_id m = memorial_id
    /\ Memory.embedding_id m = Memory.embedding_id old
    /\ Memory.source m = Memory.source old
    /\ Memory.created_at m = Memory.created_at old
    /\ memory_of db' memorial_id memory_id = Some m
    /\ other_memories memory_id db' = other_memories memory_id db
    /\ memorials db' = memorials db
    /\ media db' = media db
    /\ family_relationships db' = family_relationships db
    /\ out_vdb out' = out_vdb out
    /\ (Embeddings.some_nonempty (Memory.embedding_id old) = true -> out' = out)
    /\ (Memory.content m = Memory.content old -> out' = out)
    /\ (Embeddings.some_nonempty (Memory.embedding_id old) = false ->
        Memory.content m <> Memory.content old ->
        broker_down (out_broker out) = None ->
        out_broker out'
        = mkBroker None
            (queued (out_broker out)
             ++ [(task_id,
                  CreateMemoryEmbeddingTask memory_id memorial_id
                    (Memory.content m))])).
Proof.
  unfold update_memory.
  destruct (memorial_by_id db memorial_id) as [memorial|]; [|discriminate].
  destruct (memory_of db memorial_id memory_id) as [old|] eqn:Hold; [|discriminate].
  intros Hrun. exists old. split; [reflexivity|]. revert Hrun.
  assert (Hkey : Memory.id old = memory_id /\ Memory.memorial_id old = memorial_id).
  { unfold memory_of in Hold. apply List.find_some in Hold as [_ H].
    apply andb_true_iff in H as [H1 H2]. apply Z.eqb_eq in H1, H2. auto. }
  destruct Hkey as [Hid Hmid].
  destruct (default (Some (Memory.content old)) (mu_content memory_update))
    as [content|] eqn:Hcontent; [|discriminate].
  set (title := default (Memory.title old) (mu_title memory_update)).
  set (dirty := negb (bool_decide (title = Memory.title old))
                || negb (bool_decide (content = Memory.content old))).
  set (row := if dirty
              then Memory.mk (Memory.id old) (Memory.memorial_id old) title content
                     (Memory.embedding_id old) (Memory.source old)
                     (Memory.created_at old) (Some now)
              else old).
  set (db1 := if dirty
              then Embeddings.set_memories db
                     (update_memory_row now (Memory.id old) title content
                        (memories db))
              else db).
  assert (Hrow : Memory.title row = title /\ Memory.content row = content
                 /\ Memory.id row = memory_id /\ Memory.memorial_id row = memorial_id
                 /\ Memory.embedding_id row = Memory.embedding_id old
                 /\ Memory.source row = Memory.source old
                 /\ Memory.created_at row = Memory.created_at old).
  { subst row. destruct dirty eqn:Hdirty; cbn; [auto 10|].
    subst dirty. apply orb_false_iff in Hdirty as [H1 H2].
    apply negb_false_iff, bool_decide_eq_true_1 in H1, H2. auto 10. }
  destruct Hrow as (Ht & Hc & Hi & Hmi & He & Hs & Hcr).
  assert (Hdb1 : memory_of db1 memorial_id memory_id = Some row
                 /\ other_memories memory_id db1 = other_memories memory_id db
                 /\ memorials db1 = memorials db /\ media db1 = media db
                 /\ family_relationships db1 = family_relationships db).
  { subst db1 row. destruct dirty; [|auto]. split; [|split; [|auto]].
    - unfold memory_of, update_memory_row in *.
      cbn [Embeddings.set_memories memories].
      rewrite find_map_stable, Hold;
        [cbn [option_map]; rewrite Z.eqb_refl; reflexivity|].
      intros a. destruct (Memory.id a =? Memory.id old); reflexivity.
    - unfold other_memories, update_memory_row.
      cbn [Embeddings.set_memories memories]. rewrite Hid.
      apply filter_map_fixed; intros a.
      + destruct (Memory.id a =? memory_id) eqn:Ha; cbn [Memory.id];
          rewrite ?Ha; reflexivity.
      + intros H. apply negb_true_iff in H. rewrite H. reflexivity. }
  destruct Hdb1 as (Hfind & Hothers & Hms & Hmedia & Hfam).
  assert (Hchanged :
            match mu_content memory_update with
            | Some value => negb (bool_decide (value = Some (Memory.content old)))
            | None => false
            end = negb (bool_decide (content = Memory.content old))).
  { destruct (mu_content memory_update) as [value|]; cbn in Hcontent.
    - subst value. destruct (decide (content = Memory.content old)) as [->|Hne].
      + rewrite !bool_decide_eq_true_2; reflexivity.
      + rewrite !bool_decide_eq_false_2; congruence.
    - injection Hcontent as <-. rewrite bool_decide_eq_true_2; reflexivity. }
  rewrite Hchanged. clear Hchanged.
  assert (Hgoal : forall out1,
            out_vdb out1 = out_vdb out ->
            (Embeddings.some_nonempty (Memory.embedding_id old) = true -> out1 = out) ->
            (content = Memory.content old -> out1 = out) ->
            (Embeddings.some_nonempty (Memory.embedding_id old) = false ->
             content <> Memory.content old ->
             broker_down (out_broker out) = None ->
             out_broker out1
             = mkBroker None
                 (queued (out_broker out)
                  ++ [(task_id,
                       CreateMemoryEmbeddingTask memory_id memorial_id content)])) ->
            (Ok row, db1, out1) = (Ok m, db', out') ->
            Memory.title m = title
            /\ Some (Memory.content m) = Some content
            /\ Memory.id m = memory_id
            /\ Memory.memorial_id m = memorial_id
            /\ Memory.embedding_id m = Memory.embedding_id old
            /\ Memory.source m = Memory.source old
            /\ Memory.created_at m = Memory.created_at old
            /\ memory_of db' memorial_id memory_id = Some m
            /\ other_memories memory_id db' = other_memories memory_id db
            /\ memorials db' = memorials db
            /\ media db' = media db
            /\ family_relationships db' = family_relationships db
            /\ out_vdb out' = out_vdb out
            /\ (Embeddings.some_nonempty (Memory.embedding_id old) = true -> out' = out)
            /\ (Memory.content m = Memory.content old -> out' = out)
            /\ (Embeddings.some_nonempty (Memory.embedding_id old) = false ->
                Memory.content m <> Memory.content old ->
                broker_down (out_broker out) = None ->
                out_broker out'
                = mkBroker None
                    (queued (out_broker out)
                     ++ [(task_id,
                          CreateMemoryEmbeddingTask memory_id memorial_id
                            (Memory.content m))]))).
  { intros out1 H1 H2 H3 H4 [= <- <- <-]. rewrite Hc.
    repeat (split; [first [assumption | congruence]|]). exact H4. }
  destruct (bool_decide (content = Memory.content old)) eqn:Hsame; cbn [negb].
  { apply Hgoal; auto. intros _ Hne. apply bool_decide_eq_true_1 in Hsame.
    contradiction. }
  apply bool_decide_eq_false_1 in Hsame.
  rewrite He. destruct (Embeddings.some_nonempty (Memory.embedding_id old)) eqn:Hemb.
  - cbn [asyncio_run_in_handler].
    replace (looks_like_broker_error false asyncio_run_error) with false
      by (vm_compute; reflexivity).
    apply Hgoal;
      first [reflexivity
            | intros; first [congruence | destruct out; reflexivity]].
  - rewrite Hi, Hc. unfold delay.
    destruct (broker_down (out_broker out)) as [msg|] eqn:Hdown.
    + cbn [str_exn]. destruct (looks_like_broker_error false msg);
        cbn [asyncio_run_in_handler out_broker out_vdb];
        apply Hgoal;
          first [reflexivity
                | intros; first [congruence | destruct out; reflexivity]].
    + apply Hgoal; first [reflexivity | intros; first [congruence | reflexivity]].
Qed.

Lemma update_memory_outcome_witness :
  exists m,
    update_memory default_settings offline 9 "task-2" 1 1
      (mkMemoryUpdate None (Some (Some "She loved the sea.")))
      db_one_memory (mkOutside broker_up vdb_one_point)
    = (Ok m,
       Embeddings.set_memories db_one_memory [m],
       mkOutside broker_up vdb_one_point)
    /\ Memory.content m = "She loved the sea."
    /\ Memory.embedding_id m = Some "19de628f-e627-534c-8da1-b296d06782a9".
Proof.
  eexists. split; [vm_compute; reflexivity|].
  assert (H : update_memory default_settings offline 9 "task-2" 1 1
                (mkMemoryUpdate None (Some (Some "She loved the sea.")))
                db_one_memory (mkOutside broker_up vdb_one_point)
              = (Ok (Memory.mk 1 1 (Some "Garden") "She loved the sea."
                       (Some "19de628f-e627-534c-8da1-b296d06782a9")
                       (Some "user") 3 (Some 9)),
                 Embeddings.set_memories db_one_memory
                   [Memory.mk 1 1 (Some "Garden") "She loved the sea."
                      (Some "19de628f-e627-534c-8da1-b296d06782a9")
                      (Some "user") 3 (Some 9)],
                 mkOutside broker_up vdb_one_point))
    by (vm_compute; reflexivity).
  destruct (update_memory_outcome _ _ _ _ _ _ _ _ _ _ _ _ H)
    as (old & Hold & _ & Hcontent & _ & _ & Hemb & _).
  vm_compute in Hold. injection Hold as <-.
  split; [reflexivity | exact Hemb].
Defined.

(** X16. Deleting a memory. When DELETE
    /memorials/{id}/memories/{memory_id} answers 204, the memory existed
    under this memorial, no row with its key is left, the rows with another
    key and the other tables are as before, and the vector store and the
    queue are untouched: the point of a memory that had an embedding stays
    in the vector store. *)
Theorem delete_memory_outcome settings memorial_id memory_id db out db' out' :
  delete_memory settings memorial_id memory_id db out = (Ok tt, db', out') ->
  is_Some (memory_of db memorial_id memory_id)
  /\ memories db' = other_memories memory_id db
  /\ (forall m, In m (memories db') -> Memory.id m <> memory_id)
  /\ (forall i, memory_of db' i memory_id = None)
  /\ memorials db' = memorials db
  /\ media db' = media db
  /\ family_relationships db' = family_relationships db
  /\ out' = out.
Proof.
  unfold delete_memory.
  destruct (memorial_by_id db memorial_id) as [memorial|]; [|discriminate].
  destruct (memory_of db memorial_id memory_id) as [old|] eqn:Hold; [|discriminate].
  assert (Hid : Memory.id old = memory_id).
  { unfold memory_of in Hold. apply List.find_some in Hold as [_ H].
    apply andb_true_iff in H as [H _]. apply Z.eqb_eq, H. }
  rewrite Hid. intros [= <- <-].
  assert (Hgone : forall m, In m (other_memories memory_id db) ->
                            Memory.id m <> memory_id).
  { intros m Hin. apply List.filter_In in Hin as [_ H].
    apply negb_true_iff, Z.eqb_neq in H. exact H. }
  split; [eauto|]. split; [reflexivity|]. split; [exact Hgone|].
  split.
  { intros i. unfold memory_of. cbn [Embeddings.set_memories memories].
    destruct (List.find _ _) as [m|] eqn:Hf; [|reflexivity].
    apply List.find_some in Hf as [Hin H]. apply andb_true_iff in H as [H _].
    apply Z.eqb_eq in H. destruct (Hgone m Hin H). }
  repeat (split; [reflexivity|]).
  destruct (Embeddings.some_nonempty (Memory.embedding_id old));
    [cbn [asyncio_run_in_handler]; destruct out|]; reflexivity.
Qed.

Lemma delete_memory_outcome_witness :
  delete_memory default_settings 1 1 db_one_memory
    (mkOutside broker_up vdb_one_point)
  = (Ok tt, Embeddings.set_memories db_one_memory [],
     mkOutside broker_up vdb_one_point)
  /\ is_Some (points default_settings vdb_one_point
                !! "26e04f40-009d-51ac-b02d-2d736a77f721").
Proof.
  assert (H : delete_memory default_settings 1 1 db_one_memory
                (mkOutside broker_up vdb_one_point)
              = (Ok tt, Embeddings.set_memories db_one_memory [],
                 mkOutside broker_up vdb_one_point))
    by (vm_compute; reflexivity).
  split; [exact H|].
  pose proof (delete_memory_outcome _ _ _ _ _ _ _ H) as (_ & _ & _ & _ & _ & _ & _ & _).
  vm_compute. eauto.
Defined.

End MemorialApiFacts.

Section EmbeddingTaskFacts.
Import AiTasks.






Lemma queue_all_queued fresh memorial_id rows : forall i broker task_ids broker',
  EmbeddingsApi.queue_all fresh i memorial_id rows broker = (Ok task_ids, broker') ->
  queued broker' = queued broker ++ embedding_tasks fresh i memorial_id rows
  /\ task_ids = map fst (embedding_tasks fresh i memorial_id rows)
  /\ broker_down broker' = broker_down broker.
Proof.
  unfold embedding_tasks.
  induction rows as [|m rows IH]; intros i broker task_ids broker';
    cbn [EmbeddingsApi.queue_all].
  - intros [= <- <-]. rewrite app_nil_r. auto.
  - unfold delay. destruct (broker_down broker) eqn:Hdown; [discriminate|].
    destruct (EmbeddingsApi.queue_all fresh (S i) memorial_id rows _)
      as [[ids|e] b] eqn:Hrest; [|discriminate].
    intros [= <- <-]. apply IH in Hrest as (Hq & Hids & Hd).
    cbn [queued broker_down] in Hq, Hd. rewrite Hq, Hids, Hd.
    rewrite imap_cons. cbn [map fst]. rewrite Nat.add_0_r, <- app_assoc.
    cbn [app].
    assert (Heq : imap (fun j m0 =>
                          (fresh (S i + j)%nat,
                           CreateMemoryEmbeddingTask (Memory.id m0) memorial_id
                             (Memory.content m0))) rows
                  = imap ((fun j m0 =>
                            (fresh (i + j)%nat,
                             CreateMemoryEmbeddingTask (Memory.id m0) memorial_id
                               (Memory.content m0))) ∘ S) rows).
    { apply imap_ext. intros j x _. cbn. rewrite Nat.add_succ_r. reflexivity. }
    rewrite Heq. auto.
Qed.

(** X18. Re-embedding a memorial. When POST
    /embeddings/memorials/{id}/recreate-all answers 200, the queue has
    grown by exactly one embedding task per memory of the memorial, in the
    order of the memory listing, each with the memory's key, this memorial
    and the memory's current content; the answer reports their number and
    their task ids in the same order. *)
Theorem recreate_all_queues_each_memory fresh memorial_id db broker response broker' :
  EmbeddingsApi.recreate_all_memorial_embeddings fresh memorial_id db broker
    = (Ok response, broker') ->
  exists rows,
    MemorialApi.get_memorial_memories memorial_id db = Ok rows
    /\ queued broker' = queued broker ++ embedding_tasks fresh 0 memorial_id rows
    /\ Py.get response "memories_count" JNull = Ok (JInt (Z.of_nat (length rows)))
    /\ Py.get response "task_ids" JNull
       = Ok (JList (map JStr (map fst (embedding_tasks fresh 0 memorial_id rows)))).
Proof.
  unfold EmbeddingsApi.recreate_all_memorial_embeddings,
    MemorialApi.get_memorial_memories.
  destruct (Family.memorial_by_id db memorial_id) as [memorial|] eqn:Hm;
    [|discriminate].
  apply memorial_by_id_id in Hm. rewrite Hm.
  destruct (EmbeddingsApi.queue_all fresh 0 memorial_id _ broker)
    as [[ids|e] b] eqn:Hq; [|discriminate].
  intros [= <- <-]. apply queue_all_queued in Hq as (Hq & Hids & _).
  eexists. split; [reflexivity|]. split; [exact Hq|].
  rewrite Hids. split; reflexivity.
Qed.

Lemma recreate_all_queues_each_memory_witness :
  exists response,
    EmbeddingsApi.recreate_all_memorial_embeddings
      (fun i => "task-" +:+ str_int (Z.of_nat i)) 1 db_two_memories broker_up
    = (Ok response,
       mkBroker None
         [("task-0", CreateMemoryEmbeddingTask 1 1 "She loved her garden.");
          ("task-1", CreateMemoryEmbeddingTask 3 1 "She sang in a choir.")]).
Proof.
  eexists.
  assert (H : EmbeddingsApi.recreate_all_memorial_embeddings
                (fun i => "task-" +:+ str_int (Z.of_nat i)) 1 db_two_memories
                broker_up
              = (Ok (JDict [("status", JStr "queued");
                            ("memorial_id", JInt 1);
                            ("memories_count", JInt 2);
                            ("task_ids", JList [JStr "task-0"; JStr "task-1"]);
                            ("message", JStr "Queued 2 embedding recreation tasks")]),
                 mkBroker None
                   [("task-0", CreateMemoryEmbeddingTask 1 1 "She loved her garden.");
                    ("task-1", CreateMemoryEmbeddingTask 3 1 "She sang in a choir.")]))
    by (vm_compute; reflexivity).
  destruct (recreate_all_queues_each_memory _ _ _ _ _ _ H) as (rows & _).
  exact H.
Defined.

End EmbeddingTaskFacts.

Section MediaFacts.
Import MediaApi.

Lemma all_chars_impl (p q : ascii -> bool) s :
  (forall c, p c = true -> q c = true) -> all_chars p s = true -> all_chars q s = true.
Proof.
  intros Hpq. induction s as [|c s IH]; cbn; [reflexivity|].
  intros H. apply andb_true_iff in H as [H1 H2]. rewrite (Hpq _ H1), IH; auto.
Qed.

Lemma all_chars_app p s t :
  all_chars p (s +:+ t) = all_chars p s && all_chars p t.
Proof.
  induction s as [|c s IH]; [reflexivity|].
  change (String c s +:+ t) with (String c (s +:+ t)).
  cbn [all_chars]. rewrite IH, andb_assoc. reflexivity.
Qed.

Lemma digits_of_uint d : all_chars is_digit (NilEmpty.string_of_uint d) = true.
Proof. induction d; cbn; auto. Qed.

Lemma uint_string_nonempty d : d <> Decimal.Nil -> NilEmpty.string_of_uint d <> EmptyString.
Proof. destruct d; cbn; congruence. Qed.

Lemma is_digit_not c : is_digit c = true ->
  Str.is_space c = false /\ Ascii.eqb c "_" = false /\ Ascii.eqb c "-" = false
  /\ Ascii.eqb c "+" = false /\ Ascii.eqb c "." = false.
Proof.
  intros H. repeat split.
  - destruct (Str.is_space c) eqn:Hs; [|reflexivity].
    unfold is_digit in H. unfold Str.is_space in Hs.
    apply andb_true_iff in H as [H1 H2]. apply Nat.leb_le in H1, H2.
    apply orb_true_iff in Hs as [Hs|Hs].
    + apply Nat.eqb_eq in Hs. lia.
    + apply andb_true_iff in Hs as [_ Hs]. apply Nat.leb_le in Hs. lia.
  - destruct (Ascii.eqb_spec c "_"); [subst; discriminate | reflexivity].
  - destruct (Ascii.eqb_spec c "-"); [subst; discriminate | reflexivity].
  - destruct (Ascii.eqb_spec c "+"); [subst; discriminate | reflexivity].
  - destruct (Ascii.eqb_spec c "."); [subst; discriminate | reflexivity].
Qed.

Lemma rstrip_no_space s :
  all_chars (fun c => negb (Str.is_space c)) s = true -> Str.rstrip s = s.
Proof.
  induction s as [|c s IH]; cbn; [reflexivity|].
  intros H. apply andb_true_iff in H as [Hc Hs]. rewrite (IH Hs).
  apply negb_true_iff in Hc. rewrite Hc. destruct s; reflexivity.
Qed.

Lemma strip_no_space s :
  all_chars (fun c => negb (Str.is_space c)) s = true -> Str.strip s = s.
Proof.
  intros H. unfold Str.strip.
  assert (Hl : Str.lstrip s = s).
  { destruct s as [|c s]; cbn; [reflexivity|]. cbn in H.
    apply andb_true_iff in H as [Hc _]. apply negb_true_iff in Hc.
    rewrite Hc. reflexivity. }
  rewrite Hl. apply rstrip_no_space, H.
Qed.

Lemma well_grouped_digits s b :
  all_chars is_digit s = true -> s <> EmptyString -> well_grouped b s = true.
Proof.
  revert b. induction s as [|c s IH]; intros b H Hne; [congruence|].
  cbn in *. apply andb_true_iff in H as [Hc Hs]. rewrite Hc.
  destruct s as [|c' s]; [reflexivity|]. apply IH; [exact Hs | discriminate].
Qed.

Lemma without_underscores_digits s :
  all_chars is_digit s = true -> without_underscores s = s.
Proof.
  induction s as [|c s IH]; cbn; [reflexivity|].
  intros H. apply andb_true_iff in H as [Hc Hs].
  destruct (is_digit_not c Hc) as (_ & -> & _). rewrite IH; auto.
Qed.

Lemma int_of_digits d :
  d <> Decimal.Nil ->
  int_of_str (NilEmpty.string_of_uint d) = Some (Z.of_uint d)
  /\ int_of_str (String "-" (NilEmpty.string_of_uint d)) = Some (- Z.of_uint d).
Proof.
  intros Hd. pose proof (digits_of_uint d) as Hdig.
  pose proof (uint_string_nonempty d Hd) as Hne.
  assert (Hns : all_chars (fun c => negb (Str.is_space c))
                  (NilEmpty.string_of_uint d) = true).
  { eapply all_chars_impl; [|exact Hdig]. intros c Hc.
    destruct (is_digit_not c Hc) as (-> & _). reflexivity. }
  unfold int_of_str. split.
  - rewrite strip_no_space by exact Hns.
    destruct (NilEmpty.string_of_uint d) as [|c s] eqn:Hs; [congruence|].
    cbn in Hdig. apply andb_true_iff in Hdig as [Hc Hrest].
    destruct (is_digit_not c Hc) as (_ & _ & Hm & Hp & _).
    assert (Hsign : match String c s with
                    | String "-" rest => (true, rest)
                    | String "+" rest => (false, rest)
                    | _ => (false, String c s)
                    end = (false, String c s)).
    { apply Ascii.eqb_neq in Hm, Hp.
      destruct c as [[] [] [] [] [] [] [] []]; try reflexivity; congruence. }
    rewrite Hsign, <- Hs.
    rewrite well_grouped_digits, without_underscores_digits, NilEmpty.usu;
      [reflexivity|rewrite Hs; cbn; rewrite Hc; exact Hrest..|rewrite Hs; discriminate].
  - rewrite strip_no_space by (cbn; exact Hns).
    rewrite well_grouped_digits, without_underscores_digits, NilEmpty.usu;
      auto.
Qed.

Lemma int_of_str_int n : int_of_str (str_int n) = Some n.
Proof.
  unfold str_int. pose proof (DecimalZ.of_to n) as H.
  destruct (Z.to_int n) as [d|d] eqn:Hd; cbn [NilZero.string_of_int] in *;
    unfold Z.of_int in H;
    (assert (Hdec : d = Decimal.Nil \/ d <> Decimal.Nil)
       by (destruct d; [left; reflexivity | right; discriminate ..]));
    (destruct Hdec as [-> | Hn]; [cbn in *; subst n; reflexivity|]);
    (replace (NilZero.string_of_uint d) with (NilEmpty.string_of_uint d)
       by (destruct d; congruence || reflexivity)).
  - rewrite (proj1 (int_of_digits d Hn)), H. reflexivity.
  - rewrite (proj2 (int_of_digits d Hn)), H. reflexivity.
Qed.


Lemma split_nonempty sep s : Str.split sep s <> [].
Proof.
  destruct s as [|c s]; cbn; [discriminate|].
  destruct (Str.split sep s); [discriminate|]. destruct (Ascii.eqb c sep); discriminate.
Qed.

Lemma hd_split_cons sep c s :
  hd EmptyString (Str.split sep (String c s))
  = if Ascii.eqb c sep then EmptyString
    else String c (hd EmptyString (Str.split sep s)).
Proof.
  cbn [Str.split]. pose proof (split_nonempty sep s) as H.
  destruct (Str.split sep s) as [|first rest]; [congruence|].
  destruct (Ascii.eqb c sep); reflexivity.
Qed.

Lemma hd_split_extension s t :
  all_chars (fun c => negb (Ascii.eqb c ".")) s = true ->
  hd EmptyString (Str.split "." (s +:+ String "." t)) = s
  /\ hd EmptyString (Str.split "." s) = s.
Proof.
  induction s as [|c s IH]; intros H.
  - split; [|reflexivity]. change (EmptyString +:+ String "." t) with (String "." t).
    rewrite hd_split_cons. reflexivity.
  - cbn [all_chars] in H. apply andb_true_iff in H as [Hc Hs].
    apply negb_true_iff in Hc. destruct (IH Hs) as [IH1 IH2].
    change (String c s +:+ String "." t) with (String c (s +:+ String "." t)).
    rewrite !hd_split_cons, Hc, IH1, IH2. auto.
Qed.

Lemma str_int_decimal n : all_chars decimal (str_int n) = true.
Proof.
  assert (Hu : forall d, all_chars decimal (NilZero.string_of_uint d) = true).
  { intros d. destruct d; try reflexivity;
      (eapply all_chars_impl; [|apply (digits_of_uint)]);
      intros c Hc; unfold decimal; rewrite Hc; reflexivity. }
  unfold str_int. destruct (Z.to_int n) as [d|d]; cbn [NilZero.string_of_int].
  - apply Hu.
  - cbn [all_chars]. rewrite Hu. reflexivity.
Qed.

Lemma str_int_no_dot n :
  all_chars (fun c => negb (Ascii.eqb c ".")) (str_int n) = true.
Proof.
  eapply all_chars_impl; [|apply str_int_decimal].
  intros c Hc. unfold decimal in Hc. apply orb_true_iff in Hc as [Hc|Hc].
  - destruct (is_digit_not c Hc) as (_ & _ & _ & _ & ->). reflexivity.
  - apply Ascii.eqb_eq in Hc. subst c. reflexivity.
Qed.

(** X21. The extension of a media path. GET /media/{id}.{ext} answers
    exactly as GET /media/{id}, whatever the extension, the thumbnail size
    asked for, the store and the files; and when the row with key [id]
    exists and its file is on disk, the request without thumbnail is
    answered 200 with that file under the row's file name. *)
Theorem media_path_extension_ignored guess n ext thumbnail db fs :
  get_media_file guess (str_int n +:+ "." +:+ ext) thumbnail db fs
  = get_media_file guess (str_int n) thumbnail db fs
  /\ (forall row,
        List.find (fun m => Media.id m =? n) (media db) = Some row ->
        exists_ fs (Media.file_path row) = true ->
        exists r,
          get_media_file guess (str_int n +:+ "." +:+ ext) None db fs = Ok r
          /\ fr_path r = Media.file_path row
          /\ fr_filename r = Media.file_name row).
Proof.
  assert (Heq : forall th,
            get_media_file guess (str_int n +:+ "." +:+ ext) th db fs
            = get_media_file guess (str_int n) th db fs).
  { intros th. unfold get_media_file.
    change ("." +:+ ext) with (String "." ext).
    destruct (hd_split_extension (str_int n) ext (str_int_no_dot n)) as [-> ->].
    reflexivity. }
  split; [apply Heq|].
  intros m Hfind Hex. rewrite Heq. unfold get_media_file.
  destruct (hd_split_extension (str_int n) ext (str_int_no_dot n)) as [_ ->].
  rewrite int_of_str_int, Hfind. cbn [Embeddings.some_nonempty andb].
  rewrite Hex. cbn [negb]. eexists. split; [reflexivity|]. split; reflexivity.
Qed.

(** X22. What GET /media/... serves. A 200 answer always names a file
    that exists; the first dot-separated part of the path reads as the key
    of a media row, and the file is either the file of that row, under its
    file name, in which case the answer is the one given without
    [thumbnail], or, for a photo, the thumbnail
    uploads/thumbnails/{stem}_{size}.jpg of the size asked for, one of
    small, medium and large, served as image/jpeg. *)
Theorem served_media_file_exists guess media_id_path thumbnail db fs r :
  get_media_file guess media_id_path thumbnail db fs = Ok r ->
  exists_ fs (fr_path r) = true
  /\ exists m,
       In m (media db)
       /\ int_of_str (hd EmptyString (Str.split "." media_id_path)) = Some (Media.id m)
       /\ (get_media_file guess media_id_path None db fs = Ok r
           /\ fr_path r = Media.file_path m
           /\ fr_filename r = Media.file_name m
           \/ exists size,
                thumbnail = Some size
                /\ In size ["small"; "medium"; "large"]
                /\ Media.media_type m = PHOTO
                /\ fr_path r
                   = "uploads/thumbnails/" +:+ Str.path_stem (Media.file_path m)
                     +:+ "_" +:+ size +:+ ".jpg"
                /\ fr_media_type r = "image/jpeg").
Proof.
  unfold get_media_file.
  destruct (int_of_str _) as [media_id|] eqn:Hint; [|discriminate].
  destruct (List.find _ (media db)) as [m|] eqn:Hfind; [|discriminate].
  apply List.find_some in Hfind as Hin. destruct Hin as [Hin Hid].
  apply Z.eqb_eq in Hid. subst media_id.
  set (original := if negb (exists_ fs (Media.file_path m)) then _ else _).
  assert (Horig : original = Ok r ->
            exists_ fs (fr_path r) = true
            /\ exists m0, In m0 (media db)
                 /\ Some (Media.id m) = Some (Media.id m0)
                 /\ (original = Ok r /\ fr_path r = Media.file_path m0
                     /\ fr_filename r = Media.file_name m0
                     \/ exists size,
                          thumbnail = Some size
                          /\ In size ["small"; "medium"; "large"]
                          /\ Media.media_type m0 = PHOTO
                          /\ fr_path r
                             = "uploads/thumbnails/"
                               +:+ Str.path_stem (Media.file_path m0)
                               +:+ "_" +:+ size +:+ ".jpg"
                          /\ fr_media_type r = "image/jpeg")).
  { intros Hr. pose proof Hr as Hr'. subst original.
    destruct (exists_ fs (Media.file_path m)) eqn:Hex; cbn [negb] in Hr; [|discriminate].
    injection Hr as <-. cbn [fr_path fr_filename]. split; [exact Hex|].
    exists m. split; [exact Hin|]. split; [reflexivity|]. left. auto. }
  cbn [Embeddings.some_nonempty andb].
  destruct thumbnail as [size|]; cbn [Embeddings.some_nonempty andb]; [|exact Horig].
  destruct (nonempty size && bool_decide (Media.media_type m = PHOTO)) eqn:Hph;
    [|exact Horig].
  apply andb_true_iff in Hph as [_ Hph]. apply bool_decide_eq_true_1 in Hph.
  cbn [default from_option id].
  destruct (Str.mem size ["small"; "medium"; "large"]) eqn:Hmem; [|exact Horig].
  destruct (exists_ fs (Memorials.joinpath _ _)) eqn:Hex; [|exact Horig].
  intros [= <-]. cbn [fr_path fr_media_type]. split; [exact Hex|].
  exists m. split; [exact Hin|]. split; [reflexivity|]. right. exists size.
  split; [reflexivity|]. split.
  { unfold Str.mem in Hmem. apply existsb_exists in Hmem as (x & Hx & Heq).
    apply String.eqb_eq in Heq. subst x. exact Hx. }
  split; [exact Hph|]. split; reflexivity.
Qed.

Lemma int_of_str_letter s : int_of_str (String "a" s) = None.
Proof.
  unfold int_of_str, Str.strip. cbn [Str.lstrip].
  change (Str.is_space "a") with false. cbv iota.
  cbn [Str.rstrip]. change (Str.is_space "a") with false.
  destruct (Str.rstrip s); reflexivity.
Qed.

Lemma audio_path_not_served guess filename thumbnail db fs :
  get_media_file guess ("audio/" +:+ filename) thumbnail db fs
  = Raise (HTTPException 404 "Invalid media ID").
Proof.
  unfold get_media_file.
  change ("audio/" +:+ filename)
    with (String "a" (String "u" (String "d" (String "i" (String "o"
            (String "/" filename)))))).
  rewrite hd_split_cons. change (Ascii.eqb "a" ".") with false. cbv iota.
  rewrite int_of_str_letter. reflexivity.
Qed.

(** X24. POST /ai/voice/upload never succeeds. Whatever the request,
    the settings and the provider, the answer is an HTTP error 404, 400 or
    500 and the store is unchanged, so that no memorial ever gets a
    [voice_id] this way; and the file system is as before, but for the
    path uploads/voices/voice_{memorial_id}_{hex}{ext} of the temporary
    file, which is absent afterwards. *)
Theorem upload_voice_never_succeeds settings net now hex memorial_id audio_file
    voice_name db fs :
  exists code detail extension,
    fst (AiApi.upload_voice settings net now hex memorial_id audio_file voice_name
           db fs)
    = (Raise (HTTPException code detail), db)
    /\ In code [404; 400; 500]
    /\ (snd (AiApi.upload_voice settings net now hex memorial_id audio_file
               voice_name db fs) = fs
        \/ snd (AiApi.upload_voice settings net now hex memorial_id audio_file
                  voice_name db fs)
           = delete ("uploads/voices/voice_" +:+ str_int memorial_id +:+ "_"
                      +:+ hex +:+ extension) fs).
Proof.
  unfold AiApi.upload_voice.
  destruct (Family.memorial_by_id db memorial_id) as [memorial|].
  2: { exists 404, "Memorial not found", EmptyString. cbn. auto. }
  destruct (negb _ || negb _).
  { eexists 400, _, EmptyString. cbn. auto. }
  set (extension := if nonempty (Str.path_suffix (Memorials.filename audio_file))
                    then _ else _).
  unfold AiTasks.create_custom_voice_elevenlabs.
  destruct (nonempty (ELEVENLABS_API_KEY settings)); cbn [negb].
  - change (AiTasks.global_name "Path")
      with (@Raise unit (NameError "name 'Path' is not defined")).
    cbn [mbind result_bind].
    eexists 500, _, extension. cbn [fst snd].
    split; [reflexivity|]. split; [cbn; auto|]. right.
    unfold Memorials.joinpath. apply delete_insert_eq.
  - eexists 400, _, extension. cbn [fst snd].
    split; [reflexivity|]. split; [cbn; auto|]. right.
    unfold Memorials.joinpath. apply delete_insert_eq.
Qed.


(** X19. A started animation. When POST /ai/photo/animate answers 200,
    the media row exists, is a photo and is not animated, the broker is
    reachable, the store is unchanged, and exactly one [animate_photo]
    task with the given prompt is queued under the returned task id; the
    answer has status "pending" and names the configured provider. The
    image URL of the task is the row's [file_url] when S3 is on and the
    row has one; otherwise it is {base}/api/v1/media/{id}{ext} with
    [ext] one of .jpg, .jpeg, .png, and [base] the [PUBLIC_API_URL] or,
    when that is empty, http://localhost:8000. *)
Theorem animation_request_queued settings urls net anim task_id request db broker
    response db' broker' :
  AiApi.animate_photo settings urls net anim task_id request db broker
    = (Ok response, db', broker') ->
  exists row image_url,
    List.find (fun m => Media.id m =? par_media_id request) (media db) = Some row
    /\ Media.media_type row = PHOTO
    /\ Media.is_animated row = false
    /\ db' = db
    /\ broker_down broker = None
    /\ broker'
       = mkBroker None
           (queued broker
            ++ [(task_id,
                 AnimatePhotoTask (par_media_id request) image_url
                   (par_prompt request))])
    /\ pa_task_id response = task_id
    /\ pa_status response = "pending"
    /\ pa_provider response = Some (if USE_HEYGEN settings then "heygen" else "d-id")
    /\ (if USE_S3 settings && Embeddings.some_nonempty (Media.file_url row)
        then Media.file_url row = Some image_url
        else exists extension,
               In extension [".jpg"; ".jpeg"; ".png"]
               /\ image_url
                  = (if nonempty (PUBLIC_API_URL urls) then PUBLIC_API_URL urls
                     else "http://localhost:8000")
                    +:+ "/api/v1/media/" +:+ str_int (par_media_id request)
                    +:+ extension).
Proof.
  unfold AiApi.animate_photo. cbv zeta.
  destruct (List.find _ (media db)) as [row|] eqn:Hfind; [|discriminate].
  apply List.find_some in Hfind as Hid. destruct Hid as [_ Hid].
  apply Z.eqb_eq in Hid.
  destruct (bool_decide (Media.media_type row = PHOTO)) eqn:Hphoto; cbn [negb];
    [|discriminate].
  apply bool_decide_eq_true_1 in Hphoto.
  destruct (Media.is_animated row) eqn:Hanim; [discriminate|].
  unfold delay. destruct (broker_down broker) as [msg|] eqn:Hdown.
  { destruct (looks_like_broker_error true (str_exn (ConnectionError msg)));
      cbn [asyncio_run_in_handler]; discriminate. }
  match goal with
  | |- context [str_int (Media.id row) +:+ ?x] => set (file_extension := x)
  end.
  assert (Hext : In file_extension [".jpg"; ".jpeg"; ".png"]).
  { subst file_extension.
    destruct (nonempty (Media.file_name row)); [|cbn; auto].
    destruct (Str.from_last_dot (Media.file_name row)) as [from_dot|]; [|cbn; auto].
    destruct (Str.mem _ _) eqn:Hmem; [|cbn; auto].
    unfold Str.mem in Hmem. apply existsb_exists in Hmem as (x & Hx & Heq).
    apply String.eqb_eq in Heq. rewrite Heq. exact Hx. }
  clearbody file_extension.
  intros [= <- <- <-]. eexists row, _.
  repeat (split; [reflexivity || assumption|]).
  destruct (USE_S3 settings && Embeddings.some_nonempty (Media.file_url row)) eqn:Hs3.
  - apply andb_true_iff in Hs3 as [_ Hs3]. destruct (Media.file_url row); [|discriminate].
    reflexivity.
  - rewrite Hid. exists file_extension. split; [exact Hext|].
    destruct (nonempty (PUBLIC_API_URL urls)); reflexivity.
Qed.

(** X20. A refused animation. When POST /ai/photo/animate does not
    answer 200, neither the store nor the queue has changed, and the
    answer is 404 for an unknown media id, 400 for a row that is not a
    photo or is already animated, and 503 or 500 only for a request that
    passed these checks while the broker could not be reached: the
    synchronous fallback never animates. *)
Theorem animation_request_refused settings urls net anim task_id request db broker
    e db' broker' :
  AiApi.animate_photo settings urls net anim task_id request db broker
    = (Raise e, db', broker') ->
  db' = db /\ broker' = broker
  /\ exists code detail,
       e = HTTPException code detail
       /\ (code = 404
           /\ List.find (fun m => Media.id m =? par_media_id request) (media db) = None
           \/ code = 400
              /\ (exists row,
                    List.find (fun m => Media.id m =? par_media_id request) (media db)
                    = Some row
                    /\ (Media.media_type row <> PHOTO \/ Media.is_animated row = true))
           \/ (code = 503 \/ code = 500)
              /\ is_Some (broker_down broker)
              /\ exists row,
                   List.find (fun m => Media.id m =? par_media_id request) (media db)
                   = Some row
                   /\ Media.media_type row = PHOTO
                   /\ Media.is_animated row = false).
Proof.
  unfold AiApi.animate_photo. cbv zeta.
  destruct (List.find _ (media db)) as [row|] eqn:Hfind.
  2: { intros [= <- <- <-]. repeat split. eexists 404, _. split; [reflexivity|]. auto. }
  destruct (bool_decide (Media.media_type row = PHOTO)) eqn:Hphoto; cbn [negb].
  2: { apply bool_decide_eq_false_1 in Hphoto. intros [= <- <- <-]. repeat split.
       eexists 400, _. split; [reflexivity|]. right. left. eauto. }
  apply bool_decide_eq_true_1 in Hphoto.
  destruct (Media.is_animated row) eqn:Hanim.
  { intros [= <- <- <-]. repeat split.
    eexists 400, _. split; [reflexivity|]. right. left. eauto. }
  unfold delay. destruct (broker_down broker) as [msg|] eqn:Hdown; [|discriminate].
  destruct (looks_like_broker_error true (str_exn (ConnectionError msg)));
    cbn [asyncio_run_in_handler]; intros [= <- <- <-]; repeat split.
  - eexists 503, _. split; [reflexivity|]. right. right. eauto 10.
  - eexists 500, _. split; [reflexivity|]. right. right. eauto 10.
Qed.

(** X23. The audio URL of a chat answer. Without S3, an [audio_url]
    returned by the chat is /api/v1/media/audio/{filename} for a file
    written to uploads/audio/{filename}, which [get_audio_file] would
    serve; but [get_media_file], whose route /media/{media_id_path:path}
    is declared before /media/audio/{filename}, answers 404 "Invalid
    media ID" for the path audio/{filename}. *)
Theorem chat_audio_url_not_served settings net hash request memorial db eff
    response eff' url :
  USE_S3 settings = false ->
  Ai.answer_question settings net hash request memorial db eff = (Ok response, eff') ->
  audio_url response = Some url ->
  exists filename,
    url = "/api/v1/media/" +:+ "audio/" +:+ filename
    /\ MediaApi.get_audio_file filename (Ai.eff_fs eff')
       = Ok (mkFileResponse ("uploads/audio/" +:+ filename) "audio/mpeg" filename)
    /\ forall guess thumbnail db',
         MediaApi.get_media_file guess ("audio/" +:+ filename) thumbnail db'
           (Ai.eff_fs eff')
         = Raise (HTTPException 404 "Invalid media ID").
Proof.
  intros Hs3 Hrun Haudio. unfold Ai.answer_question in Hrun.
  repeat lazymatch type of Hrun with
         | (match ?x with _ => _ end) = _ => destruct x eqn:?
         | (if ?x then _ else _) = _ => destruct x eqn:?
         end;
    try discriminate;
    injection Hrun as <- <-; cbn [audio_url] in Haudio; try discriminate.
  all: rewrite Hs3 in Haudio; injection Haudio as <-.
  all: eexists; split; [reflexivity|]; split;
    [|intros; apply audio_path_not_served].
  all: unfold MediaApi.get_audio_file, MediaApi.exists_, Memorials.joinpath,
         MediaApi.UPLOAD_DIR; cbn [Ai.eff_fs].
  all: match goal with
       | |- context [<[?k := ?v]> ?m !! ?k'] =>
           change k' with k; rewrite lookup_insert_eq
       end; reflexivity.
Qed.


Lemma media_path_extension_ignored_witness :
  get_media_file no_guess "1.jpg" None db_photo fs_photo
  = Ok (mkFileResponse "uploads/ab12_portrait.JPG" "image/jpeg" "portrait.JPG").
Proof.
  destruct (proj2 (media_path_extension_ignored no_guess 1 "jpg" None db_photo fs_photo)
              _ eq_refl eq_refl) as (r & Hr & _).
  vm_compute. reflexivity.
Defined.

Lemma served_media_file_exists_witness :
  exists_ fs_photo "uploads/thumbnails/ab12_portrait_small.jpg" = true.
Proof.
  exact (proj1 (served_media_file_exists no_guess "1.jpg" (Some "small") db_photo
                  fs_photo
                  (mkFileResponse "uploads/thumbnails/ab12_portrait_small.jpg"
                     "image/jpeg" "portrait.JPG_thumb_small.jpg")
                  ltac:(vm_compute; reflexivity))).
Defined.

Lemma animation_request_queued_witness :
  exists response,
    AiApi.animate_photo default_settings public_urls offline no_animators "task-7"
      (mkPhotoAnimateRequest 1 (Some "Hello")) db_photo broker_up
    = (Ok response, db_photo,
       mkBroker None
         [("task-7",
           AnimatePhotoTask 1 "https://memorial.example/api/v1/media/1.jpg"
             (Some "Hello"))]).
Proof.
  eexists.
  assert (H : AiApi.animate_photo default_settings public_urls offline no_animators
                "task-7" (mkPhotoAnimateRequest 1 (Some "Hello")) db_photo broker_up
              = (Ok (mkPhotoAnimateResponse "task-7" "pending"
                       "Animation task started with d-id. Check status later."
                       (Some "d-id")),
                 db_photo,
                 mkBroker None
                   [("task-7",
                     AnimatePhotoTask 1 "https://memorial.example/api/v1/media/1.jpg"
                       (Some "Hello"))]))
    by (vm_compute; reflexivity).
  destruct (animation_request_queued _ _ _ _ _ _ _ _ _ _ _ H) as (row & url & _).
  exact H.
Defined.

Lemma animation_request_refused_witness :
  exists detail,
    AiApi.animate_photo default_settings public_urls offline no_animators "task-7"
      (mkPhotoAnimateRequest 1 (Some "Hello")) db_photo broker_unreachable
    = (Raise (HTTPException 503 detail), db_photo, broker_unreachable).
Proof.
  eexists.
  assert (H : AiApi.animate_photo default_settings public_urls offline no_animators
                "task-7" (mkPhotoAnimateRequest 1 (Some "Hello")) db_photo
                broker_unreachable
              = (Raise (HTTPException 503
                          ("Redis/Celery worker не запущен. Для анимации фото необходимо запустить Redis и Celery worker. См. документацию. Ошибка: "
                           +:+ asyncio_run_error)),
                 db_photo, broker_unreachable))
    by (vm_compute; reflexivity).
  destruct (animation_request_refused _ _ _ _ _ _ _ _ _ _ _ H) as (_ & _ & _).
  exact H.
Defined.

Lemma chat_with_audio_run :
  exists response eff',
    Ai.answer_question settings_with_openai chat_providers (fun _ => 42)
      (mkAvatarChatRequest 1 "What did she love?" true) (a_memorial 1 "Anna")
      db_one_memory (Ai.mkEffects vdb_one_point ∅ [])
    = (Ok response, eff')
    /\ audio_url response = Some "/api/v1/media/audio/chat_1_42.mp3".
Proof.
  assert (H : match Ai.answer_question settings_with_openai chat_providers
                      (fun _ => 42)
                      (mkAvatarChatRequest 1 "What did she love?" true)
                      (a_memorial 1 "Anna") db_one_memory
                      (Ai.mkEffects vdb_one_point ∅ []) with
              | (Ok response, _) => audio_url response
              | _ => None
              end = Some "/api/v1/media/audio/chat_1_42.mp3")
    by (vm_compute; reflexivity).
  destruct (Ai.answer_question settings_with_openai chat_providers (fun _ => 42)
              (mkAvatarChatRequest 1 "What did she love?" true) (a_memorial 1 "Anna")
              db_one_memory (Ai.mkEffects vdb_one_point ∅ []))
    as [[response|e] eff']; [|discriminate H].
  exists response, eff'. split; [reflexivity | exact H].
Qed.

Lemma chat_audio_url_not_served_witness :
  exists response eff' filename,
    Ai.answer_question settings_with_openai chat_providers (fun _ => 42)
      (mkAvatarChatRequest 1 "What did she love?" true) (a_memorial 1 "Anna")
      db_one_memory (Ai.mkEffects vdb_one_point ∅ [])
    = (Ok response, eff')
    /\ "/api/v1/media/audio/chat_1_42.mp3" = "/api/v1/media/" +:+ "audio/" +:+ filename
    /\ get_media_file no_guess ("audio/" +:+ filename) None db_one_memory
         (Ai.eff_fs eff')
       = Raise (HTTPException 404 "Invalid media ID").
Proof.
  destruct chat_with_audio_run as (response & eff' & Hrun & Hurl).
  destruct (chat_audio_url_not_served settings_with_openai _ _ _ _ _ _ _ _ _
              eq_refl Hrun Hurl)
    as (filename & Hname & _ & Hserved).
  exists response, eff', filename.
  exact (conj Hrun (conj Hname (Hserved no_guess None db_one_memory))).
Defined.

End MediaFacts.

Section AnimationTaskFacts.
Import Worker.

Variables (settings : Settings) (tools : Memorials.Tools).

Lemma poll_once_outcome net provider task_id row db fs out db' fs' :
  poll_once settings tools net provider task_id row db fs = (out, db', fs') ->
  (db' = db /\ fs' = fs
   /\ (out = Ok None \/ (exists e, out = Raise e)
       \/ exists message,
            out = Ok (Some (JDict [("status", JStr "error"); ("message", message);
                                   ("provider", provider)]))))
  \/ exists video_url,
       out = Ok (Some (JDict [("status", JStr "completed");
                              ("video_url", JStr video_url);
                              ("provider", provider)]))
       /\ db' = Memorials.set_media db
                  (mark_animated (Media.id row) video_url (media db))
       /\ is_Some (fs' !! ("uploads/" +:+ Str.path_stem (Media.file_path row)
                           +:+ "_animated.mp4")).
Proof.
  unfold poll_once.
  repeat lazymatch goal with
         | |- (match ?x with _ => _ end) = _ -> _ => destruct x eqn:?
         | |- (if ?x then _ else _) = _ -> _ => destruct x eqn:?
         | |- (let '(_, _) := ?x in _) = _ -> _ => destruct x eqn:?
         end;
    intros [= <- <- <-]; eauto 10.
  right. eexists. split; [reflexivity|]. split; [reflexivity|].
  unfold Memorials.joinpath. rewrite lookup_insert_eq. eauto.
Qed.

Lemma poll_outcome polls provider task_id row remaining :
  forall attempt db fs out db' fs',
  poll settings tools polls provider task_id row remaining attempt db fs
    = (out, db', fs') ->
  (db' = db /\ fs' = fs
   /\ ((exists e, out = Raise e)
       \/ (exists message,
             out = Ok (JDict [("status", JStr "error"); ("message", message);
                              ("provider", provider)]))
       \/ out = Ok (JDict [("status", JStr "timeout");
                           ("message", JStr "Animation took too long");
                           ("provider", provider)])))
  \/ exists video_url,
       out = Ok (JDict [("status", JStr "completed");
                        ("video_url", JStr video_url);
                        ("provider", provider)])
       /\ db' = Memorials.set_media db
                  (mark_animated (Media.id row) video_url (media db))
       /\ is_Some (fs' !! ("uploads/" +:+ Str.path_stem (Media.file_path row)
                           +:+ "_animated.mp4")).
Proof.
  induction remaining as [|remaining IH]; intros attempt db fs out db' fs';
    cbn [poll].
  - intros [= <- <- <-]. left. auto 10.
  - destruct (poll_once settings tools (polls attempt) provider task_id row db fs)
      as [[once db1] fs1] eqn:Honce.
    apply poll_once_outcome in Honce
      as [(-> & -> & [-> | [[e ->] | [message ->]]]) | (video_url & -> & -> & Hfile)].
    + apply IH.
    + destruct (attempt <? max_attempts - 1)%nat; [apply IH|].
      intros [= <- <- <-]. left. eauto 10.
    + intros [= <- <- <-]. left. eauto 10.
    + intros [= <- <- <-]. right. eauto 10.
Qed.


Lemma find_media_map (g : Media.t -> Media.t) media_id rows :
  (forall a, Media.id (g a) = Media.id a) ->
  List.find (fun m => Media.id m =? media_id) (map g rows)
  = option_map g (List.find (fun m => Media.id m =? media_id) rows).
Proof.
  intros Hg. apply find_map_stable. intros a. rewrite Hg. reflexivity.
Qed.

Lemma task_id_map_id media_id task_id (a : Media.t) :
  Media.id (if Media.id a =? media_id
            then Media.mk (Media.id a) (Media.memorial_id a) (Media.file_path a)
                   (Media.file_url a) (Media.file_name a) (Media.file_size a)
                   (Media.mime_type a) (Media.media_type a) (Media.thumbnail_path a)
                   (Media.is_animated a) task_id (Media.created_at a)
            else a) = Media.id a.
Proof. destruct (Media.id a =? media_id); reflexivity. Qed.

Lemma animated_map_id media_id video_url (a : Media.t) :
  Media.id (if Media.id a =? media_id
            then Media.mk (Media.id a) (Media.memorial_id a) (Media.file_path a)
                   (Some video_url) (Media.file_name a) (Media.file_size a)
                   (Media.mime_type a) VIDEO (Media.thumbnail_path a) true None
                   (Media.created_at a)
            else a) = Media.id a.
Proof. destruct (Media.id a =? media_id); reflexivity. Qed.

(** The outcome of one run of the task, seen from its start. *)
Lemma animate_photo_task_outcome urls net anim polls media_id image_url script
    db fs out db1 fs1 :
  animate_photo_task settings urls tools net anim polls media_id image_url script
    db fs = (out, db1, fs1) ->
  (fs1 = fs
   /\ (db1 = db
       \/ exists row task_id,
            List.find (fun m => Media.id m =? media_id) (media db) = Some row
            /\ db1 = Memorials.set_media db
                       (AiApi.set_animation_task_id (Media.id row) task_id (media db)))
   /\ Py.get (match out with Ok r => r | Raise _ => JNull end) "status" JNull
      <> Ok (JStr "completed"))
  \/ exists row task_id video_url provider,
       List.find (fun m => Media.id m =? media_id) (media db) = Some row
       /\ out = Ok (JDict [("status", JStr "completed");
                           ("video_url", JStr video_url);
                           ("provider", provider)])
       /\ db1 = Memorials.set_media db
                  (mark_animated (Media.id row) video_url
                     (AiApi.set_animation_task_id (Media.id row) task_id (media db)))
       /\ is_Some (fs1 !! ("uploads/" +:+ Str.path_stem (Media.file_path row)
                           +:+ "_animated.mp4")).
Proof.
  unfold animate_photo_task.
  destruct (List.find _ (media db)) as [row|] eqn:Hfind.
  2: { intros [= <- <- <-]. left. split; [reflexivity|]. split; [auto|]. cbn. congruence. }
  destruct (Animation.animate_photo settings urls net anim image_url script None None)
    as [result|e].
  2: { destruct e; intros [= <- <- <-]; left; (split; [reflexivity|]);
         (split; [auto|]); cbn; congruence. }
  destruct (provider ← Py.get result "provider" JNull;
            task_id ← Py.get result "task_id" JNull; Ok (provider, task_id))
    as [[provider task_id]|e].
  2: { destruct e; intros [= <- <- <-]; left; (split; [reflexivity|]);
         (split; [auto|]); cbn; congruence. }
  destruct (Py.truthy task_id); cbn [negb].
  2: { intros [= <- <- <-]. left. split; [reflexivity|]. split; [auto|]. cbn. congruence. }
  destruct (poll settings tools polls provider task_id row max_attempts 0 _ fs)
    as [[polled db2] fs2] eqn:Hpoll.
  apply poll_outcome in Hpoll
    as [(-> & -> & [[e ->] | [[message ->] | ->]]) | (video_url & -> & -> & Hfile)].
  - destruct e; intros [= <- <- <-]; left; (split; [reflexivity|]);
      (split; [eauto 10|]); cbn; congruence.
  - intros [= <- <- <-]. left. split; [reflexivity|]. split; [eauto 10|].
    cbn. congruence.
  - intros [= <- <- <-]. left. split; [reflexivity|]. split; [eauto 10|].
    cbn. congruence.
  - intros [= <- <- <-]. right. exists row, (AiApi.as_column task_id), video_url, provider.
    split; [reflexivity|]. split; [reflexivity|]. split; [reflexivity|]. exact Hfile.
Qed.

(** X25. A finished animation. When one run of [animate_photo_task]
    returns status "completed", the media row of the task has become a
    video: it is animated, has no animation task id, has the returned
    video URL as [file_url], and is otherwise as before; the media rows
    with another key and the other tables are unchanged; the video is on
    disk at uploads/{stem}_animated.mp4; and every later POST
    /ai/photo/animate for this media is answered 400 "Media is not a
    photo". *)
Theorem animation_task_completed urls net anim polls media_id image_url script
    db fs r db1 fs1 :
  animate_photo_task settings urls tools net anim polls media_id image_url script
    db fs = (Ok r, db1, fs1) ->
  Py.get r "status" JNull = Ok (JStr "completed") ->
  exists row video_url,
    List.find (fun m => Media.id m =? media_id) (media db) = Some row
    /\ Py.get r "video_url" JNull = Ok (JStr video_url)
    /\ List.find (fun m => Media.id m =? media_id) (media db1)
       = Some (animated_row row video_url)
    /\ other_media media_id db1 = other_media media_id db
    /\ memorials db1 = memorials db
    /\ memories db1 = memories db
    /\ family_relationships db1 = family_relationships db
    /\ is_Some (fs1 !! ("uploads/" +:+ Str.path_stem (Media.file_path row)
                        +:+ "_animated.mp4"))
    /\ forall settings2 urls2 net2 anim2 task_id prompt broker,
         AiApi.animate_photo settings2 urls2 net2 anim2 task_id
           (mkPhotoAnimateRequest media_id prompt) db1 broker
         = (Raise (HTTPException 400 "Media is not a photo"), db1, broker).
Proof.
  intros Hrun Hstatus.
  apply animate_photo_task_outcome in Hrun
    as [(_ & _ & Hnot) | (row & task_id & video_url & provider & Hfind & Hr & -> & Hfile)];
    [contradiction|].
  injection Hr as ->. exists row, video_url.
  apply List.find_some in Hfind as Hid. destruct Hid as [_ Hid].
  apply Z.eqb_eq in Hid.
  assert (Hfound : List.find (fun m => Media.id m =? media_id)
                     (mark_animated (Media.id row) video_url
                        (AiApi.set_animation_task_id (Media.id row) task_id
                           (media db)))
                   = Some (animated_row row video_url)).
  { unfold mark_animated, AiApi.set_animation_task_id.
    rewrite !find_media_map, Hfind
      by (intros; apply animated_map_id || apply task_id_map_id).
    cbn [option_map Media.id]. rewrite !Z.eqb_refl. reflexivity. }
  split; [exact Hfind|]. split; [reflexivity|].
  cbn [Memorials.set_media media memorials memories family_relationships].
  split; [exact Hfound|]. split.
  { unfold other_media. cbn [Memorials.set_media media].
    unfold mark_animated, AiApi.set_animation_task_id. rewrite Hid.
    rewrite !filter_map_fixed; try reflexivity; intros a;
      try (destruct (Media.id a =? media_id) eqn:Ha; cbn [Media.id];
           rewrite ?Ha; reflexivity);
      intros H; apply negb_true_iff in H; rewrite H; reflexivity. }
  repeat (split; [reflexivity|]). split; [exact Hfile|].
  intros settings2 urls2 net2 anim2 task_id2 prompt broker.
  unfold AiApi.animate_photo. cbv zeta.
  cbn [par_media_id Memorials.set_media media]. rewrite Hfound. reflexivity.
Qed.






End AnimationTaskFacts.

Section AnimationTaskWitnesses.

Lemma animation_task_run :
  exists r db1 fs1,
    Worker.animate_photo_task settings_with_keys public_urls strict_tools offline
      did_animators did_polls 1 "https://memorial.example/api/v1/media/1.jpg" None
      db_photo fs_photo
    = (Ok r, db1, fs1)
    /\ Py.get r "status" JNull = Ok (JStr "completed").
Proof.
  assert (H : match Worker.animate_photo_task settings_with_keys public_urls
                      strict_tools offline did_animators did_polls 1
                      "https://memorial.example/api/v1/media/1.jpg" None
                      db_photo fs_photo with
              | (Ok r, _, _) => Py.get r "status" JNull
              | _ => Ok JNull
              end = Ok (JStr "completed")) by (vm_compute; reflexivity).
  destruct (Worker.animate_photo_task settings_with_keys public_urls strict_tools
              offline did_animators did_polls 1
              "https://memorial.example/api/v1/media/1.jpg" None db_photo fs_photo)
    as [[[r|e] db1] fs1]; [|discriminate H].
  exists r, db1, fs1. split; [reflexivity | exact H].
Qed.

Lemma animation_task_completed_witness :
  exists r db1 fs1 row video_url,
    Worker.animate_photo_task settings_with_keys public_urls strict_tools offline
      did_animators did_polls 1 "https://memorial.example/api/v1/media/1.jpg" None
      db_photo fs_photo
    = (Ok r, db1, fs1)
    /\ List.find (fun m => Media.id m =? 1) (media db_photo) = Some row
    /\ List.find (fun m => Media.id m =? 1) (media db1)
       = Some (animated_row row video_url)
    /\ is_Some (fs1 !! ("uploads/" +:+ Str.path_stem (Media.file_path row)
                        +:+ "_animated.mp4")).
Proof.
  destruct animation_task_run as (r & db1 & fs1 & Hrun & Hstatus).
  destruct (animation_task_completed _ _ _ _ _ _ _ _ _ _ _ _ _ _ Hrun Hstatus)
    as (row & video_url & Hrow & _ & Hfound & _ & _ & _ & _ & Hfile & _).
  exists r, db1, fs1, row, video_url.
  exact (conj Hrun (conj Hrow (conj Hfound Hfile))).
Defined.


End AnimationTaskWitnesses.
